(** * open_deep_research: the research pipeline and the thinking pipeline

    A shallow embedding of the pipeline code of the repository
    (src/deepsearch and src/deep_thinking) and the properties its
    specification states about it.

    Conventions of the embedding.
    - A Python [int] is a [Z]; a [str] is a [string], one character per
      ASCII character (a literal of the source outside ASCII stands as
      its UTF-8 bytes); the case, whitespace and word classes below are
      the ASCII part of Python's.
    - A [dict] whose order matters is an association list; a [set] is a
      [gset]; a [dict] used as a table is a [gmap].
    - A call to a collaborator (language model, search service, clock) is
      an argument of the function that makes it: the answer it got, or the
      exception it raised.
    - Code that can raise returns a [result]. *)

From Stdlib Require Import ZArith QArith Ascii String List Lia Bool Permutation Sorted.
From Stdlib Require DecimalString.
From stdpp Require Import base option list gmap strings.

#[local] Open Scope Z_scope.
#[local] Set Warnings "-register-all,-clear-no-such-hyp".

(** ** Exceptions *)

Inductive exn : Type :=
  | JSONDecodeError
  | TypeError
  | KeyError
  | ValueError
  | AttributeError
  | IndexError
  | ValidationError
  | OverflowError
  | IntegrityError
  | RecursionError
  | ServiceError.

Inductive result (A : Type) : Type :=
  | Ok (a : A)
  | Raise (e : exn).
Arguments Ok {A} a.
Arguments Raise {A} e.

#[global] Instance result_ret : MRet result := fun A a => Ok a.

#[global] Instance result_bind : MBind result := fun A B k r =>
  match r with
  | Ok a => k a
  | Raise e => Raise e
  end.

Definition of_option {A : Type} (e : exn) (o : option A) : result A :=
  match o with
  | Some a => Ok a
  | None => Raise e
  end.

(** [try: body except (caught exceptions): handler] *)
Definition try_except {A : Type} (body : result A) (caught : exn -> bool)
    (handler : result A) : result A :=
  match body with
  | Ok a => Ok a
  | Raise e => if caught e then handler else Raise e
  end.

(** ** Python strings (ASCII) *)

Module PyStr.

Definition code (c : ascii) : Z := Z.of_nat (nat_of_ascii c).

(** [str.isspace] on one character: TAB, LF, VT, FF, CR, FS, GS, RS, US
    and the blank. *)
Definition isspace (c : ascii) : bool :=
  let n := code c in
  ((9 <=? n) && (n <=? 13)) || ((28 <=? n) && (n <=? 32)).

Definition isupper (c : ascii) : bool :=
  let n := code c in (65 <=? n) && (n <=? 90).

(** the class [\w] of [re]: letters, digits and the underscore. *)
Definition isword (c : ascii) : bool :=
  let n := code c in
  ((48 <=? n) && (n <=? 57)) || ((65 <=? n) && (n <=? 90))
  || ((97 <=? n) && (n <=? 122)) || (n =? 95).

Definition lower_char (c : ascii) : ascii :=
  if isupper c then ascii_of_nat (nat_of_ascii c + 32) else c.

(** [s.lower()] *)
Fixpoint lower (s : string) : string :=
  match s with
  | EmptyString => EmptyString
  | String c s' => String (lower_char c) (lower s')
  end.

Fixpoint rev_acc (s acc : string) : string :=
  match s with
  | EmptyString => acc
  | String c s' => rev_acc s' (String c acc)
  end.

Definition rev (s : string) : string := rev_acc s EmptyString.

Definition is_empty (s : string) : bool :=
  match s with
  | EmptyString => true
  | String _ _ => false
  end.

(** [s.split()]: the maximal runs of non-whitespace characters, in
    order. [cur] is the run being read, reversed. *)
Fixpoint split_from (s cur : string) : list string :=
  match s with
  | EmptyString => if is_empty cur then [] else [rev cur]
  | String c s' =>
      if isspace c
      then (if is_empty cur then split_from s' EmptyString
            else rev cur :: split_from s' EmptyString)
      else split_from s' (String c cur)
  end.

Definition split (s : string) : list string := split_from s EmptyString.

Fixpoint lstrip (s : string) : string :=
  match s with
  | EmptyString => EmptyString
  | String c s' => if isspace c then lstrip s' else s
  end.

(** [s.strip()] *)
Definition strip (s : string) : string := rev (lstrip (rev (lstrip s))).

(** [re.sub(r'[^\w\s]', '', s)] *)
Fixpoint drop_punctuation (s : string) : string :=
  match s with
  | EmptyString => EmptyString
  | String c s' =>
      if isword c || isspace c then String c (drop_punctuation s')
      else drop_punctuation s'
  end.

(** [re.sub(r'\s+', ' ', s)]: [in_run] says that the previous character
    was whitespace (its run already gave one blank). *)
Fixpoint collapse_from (s : string) (in_run : bool) : string :=
  match s with
  | EmptyString => EmptyString
  | String c s' =>
      if isspace c
      then (if in_run then collapse_from s' true
            else String " "%char (collapse_from s' true))
      else String c (collapse_from s' false)
  end.

Definition collapse_spaces (s : string) : string := collapse_from s false.

Fixpoint prefixb (p s : string) : bool :=
  match p, s with
  | EmptyString, _ => true
  | String a p', String b s' => if Ascii.eqb a b then prefixb p' s' else false
  | String _ _, EmptyString => false
  end.

(** [sub in s] *)
Fixpoint contains (sub s : string) : bool :=
  prefixb sub s ||
  match s with
  | EmptyString => false
  | String _ s' => contains sub s'
  end.

(** [s.find(c)] for a one-character [c]: the first index, or [-1]. *)
Fixpoint find_char (c : ascii) (s : string) : Z :=
  match s with
  | EmptyString => -1
  | String a s' =>
      if Ascii.eqb a c then 0
      else let i := find_char c s' in if i =? -1 then -1 else i + 1
  end.

(** [s.rfind(c)] for a one-character [c]: the last index, or [-1]. *)
Fixpoint rfind_char (c : ascii) (s : string) : Z :=
  match s with
  | EmptyString => -1
  | String a s' =>
      let i := rfind_char c s' in
      if i =? -1 then (if Ascii.eqb a c then 0 else -1) else i + 1
  end.

(** [s[start : stop]] for [0 <= start] and [0 <= stop]. *)
Definition slice (s : string) (start stop : Z) : string :=
  String.substring (Z.to_nat start) (Z.to_nat (stop - start)) s.

(** [content[start : end + 1]] when both braces were found, as the
    agents cut the JSON object out of a model's answer. *)
Definition extract_json (content : string) : string :=
  let start := find_char "{"%char content in
  let stop := rfind_char "}"%char content in
  if negb (start =? -1) && negb (stop =? -1)
  then slice content start (stop + 1)
  else content.

(** [set(s.lower().split())] *)
Definition word_set (s : string) : gset string :=
  list_to_set (split (lower s)).

End PyStr.

(** ** JSON values, as [json.loads] returns them and [json.dumps] takes them *)

Inductive json : Type :=
  | JNull
  | JBool (b : bool)
  | JInt (z : Z)
  | JFloat (q : Q)
  | JStr (s : string)
  | JList (l : list json)
  | JObj (kv : list (string * json)).

Module Json.

(** [d.get(k)] on the pairs of an object: a later pair of the same key
    wins, as in the dict [json.loads] builds. *)
Fixpoint assoc (k : string) (kv : list (string * json)) : option json :=
  match kv with
  | [] => None
  | (k', v) :: rest =>
      match assoc k rest with
      | Some v' => Some v'
      | None => if String.eqb k k' then Some v else None
      end
  end.

(** [d.get(k, default)] *)
Definition get (k : string) (kv : list (string * json)) (default : json) : json :=
  match assoc k kv with
  | Some v => v
  | None => default
  end.

(** [x.get] exists on a dict only. *)
Definition as_dict (j : json) : result (list (string * json)) :=
  match j with
  | JObj kv => Ok kv
  | _ => Raise AttributeError
  end.

(** The keys of a dict, each once, in the order of first insertion. *)
Fixpoint keys (seen : list string) (kv : list (string * json)) : list string :=
  match kv with
  | [] => []
  | (k, _) :: rest =>
      if existsb (String.eqb k) seen then keys seen rest
      else k :: keys (k :: seen) rest
  end.

Fixpoint chars (s : string) : list json :=
  match s with
  | EmptyString => []
  | String c s' => JStr (String c EmptyString) :: chars s'
  end.

(** [for x in j]: the items of a list, the keys of a dict, the
    characters of a string; nothing else is iterable. *)
Definition iterate (j : json) : result (list json) :=
  match j with
  | JList l => Ok l
  | JObj kv => Ok (map JStr (keys [] kv))
  | JStr s => Ok (chars s)
  | _ => Raise TypeError
  end.

(** The JSON text of a value, for the examples below to write the
    answer of a model; [None] for a value this printer does not cover
    (a float, or a string that needs an escape). *)
Definition quoted (s : string) : string :=
  String (ascii_of_nat 34) s +:+ String (ascii_of_nat 34) EmptyString.

Fixpoint plain (s : string) : bool :=
  match s with
  | EmptyString => true
  | String c s' =>
      let n := Z.of_nat (nat_of_ascii c) in
      (32 <=? n) && (n <? 127) && negb (n =? 34) && negb (n =? 92) && plain s'
  end.

Fixpoint join (sep : string) (l : list string) : string :=
  match l with
  | [] => EmptyString
  | [s] => s
  | s :: rest => s +:+ sep +:+ join sep rest
  end.

Fixpoint render (j : json) : option string :=
  match j with
  | JNull => Some "null"
  | JBool b => Some (if b then "true" else "false")
  | JInt z => Some (DecimalString.NilZero.string_of_int (Z.to_int z))
  | JFloat _ => None
  | JStr s => if plain s then Some (quoted s) else None
  | JList l =>
      items ← (fix render_items (l : list json) : option (list string) :=
                 match l with
                 | [] => Some []
                 | x :: rest =>
                     a ← render x; b ← render_items rest; Some (a :: b)
                 end) l;
      Some ("[" +:+ join ", " items +:+ "]")
  | JObj kv =>
      items ← (fix render_pairs (kv : list (string * json)) : option (list string) :=
                 match kv with
                 | [] => Some []
                 | (k, v) :: rest =>
                     a ← render v; b ← render_pairs rest;
                     if plain k then Some ((quoted k +:+ ": " +:+ a) :: b) else None
                 end) kv;
      Some ("{" +:+ join ", " items +:+ "}")
  end.

End Json.

(** ** deepsearch/state.py *)

Module State.

Inductive ResearchDepth : Type := QUICK | BALANCED | COMPREHENSIVE.

Inductive ResearchStatus : Type := PENDING | RUNNING | PAUSED | COMPLETED | FAILED.

Inductive SearchStrategy : Type :=
  GENERAL | ACADEMIC | NEWS | TECHNICAL | LEGAL | FINANCIAL.

Inductive VerificationStatus : Type := confirmed | disputed | unverified.

(** A [datetime], by its ISO-8601 text. *)
Definition datetime : Type := string.

Record ResearchQuestion : Type := mkResearchQuestion {
  q_id : string;
  q_question : string;
  q_priority : Z;
  q_keywords : list string;
  q_rationale : string;
  q_category : string;
  q_dependencies : list string;
  q_order : Z;
  q_search_strategy : SearchStrategy;
  q_search_operators : list string
}.

Record Finding : Type := mkFinding {
  f_question : string;
  f_source : string;
  f_title : string;
  f_content : string;
  f_credibility : Q;
  f_timestamp : datetime
}.

Record VerifiedFinding : Type := mkVerifiedFinding {
  vf_finding : Finding;
  vf_verification_status : VerificationStatus;
  vf_supporting_sources : list string;
  vf_conflicting_sources : list string;
  vf_notes : string
}.

Record Conflict : Type := mkConflict {
  c_finding_a : Finding;
  c_finding_b : Finding;
  c_conflict_description : string;
  c_resolution : option string
}.

Record Section_ : Type := mkSection {
  s_title : string;
  s_content : string;
  s_sources : list string
}.

Record ReflectionResult : Type := mkReflectionResult {
  r_is_complete : bool;
  r_gaps : list string;
  r_new_questions : list ResearchQuestion;
  r_reasoning : string
}.

Record SearchRecord : Type := mkSearchRecord {
  sr_query : string;
  sr_provider : string;
  sr_results_count : Z;
  sr_timestamp : datetime
}.

(** The workflow's state, a [TypedDict] that declares every key: the
    defaults of the code's [state.get(key, default)] are for keys that a
    well-typed state always has. [depth] holds the text of the depth
    (a [ResearchDepth] is a [str], and the store gives back its text);
    [report] and [error] may be [None]. *)
Record ResearchState : Type := mkResearchState {
  job_id : string;
  topic : string;
  depth : string;
  status : ResearchStatus;
  plan : list ResearchQuestion;
  current_question_index : Z;
  completed_question_ids : list string;
  findings : list Finding;
  search_history : list SearchRecord;
  iteration : Z;
  max_iterations : Z;
  reflection : option ReflectionResult;
  verified_findings : list VerifiedFinding;
  conflicts : list Conflict;
  report : option string;
  report_sections : list Section_;
  error : option string
}.

#[global] Instance ResearchStatus_eq_dec : EqDecision ResearchStatus.
Proof. solve_decision. Defined.

#[global] Instance VerificationStatus_eq_dec : EqDecision VerificationStatus.
Proof. solve_decision. Defined.

#[global] Instance SearchStrategy_eq_dec : EqDecision SearchStrategy.
Proof. solve_decision. Defined.

End State.

(** ** deepsearch/agents/verifier.py *)

Module Verifier.
Import State.

(** [_content_similar]. The quotient [overlap / min(...)] of two counts
    exceeds the float [0.3] exactly when ten times the overlap exceeds
    three times the smaller count (for counts below 2^50, where the
    division's rounding cannot cross the threshold). *)
Definition _content_similar (a b : string) : bool :=
  let a_words := PyStr.word_set a in
  let b_words := PyStr.word_set b in
  if bool_decide (size a_words = 0%nat) || bool_decide (size b_words = 0%nat)
  then false
  else
    let overlap := Z.of_nat (size (a_words ∩ b_words)) in
    3 * Z.min (Z.of_nat (size a_words)) (Z.of_nat (size b_words)) <? 10 * overlap.

(** The list comprehension [supporting] of [_verify_group]. *)
Definition supporting (findings : list Finding) (finding : Finding) : list string :=
  map f_source
    (List.filter
       (fun f => negb (String.eqb (f_source f) (f_source finding))
                 && _content_similar (f_content finding) (f_content f))
       findings).

Definition group_status (n_supporting : nat) : VerificationStatus :=
  let status := if (2 <=? n_supporting)%nat then confirmed else unverified in
  if (n_supporting =? 1)%nat then confirmed else status.

Definition verify_one (findings : list Finding) (finding : Finding) : VerifiedFinding :=
  let sup := supporting findings finding in
  {| vf_finding := finding;
     vf_verification_status := group_status (length sup);
     vf_supporting_sources := sup;
     vf_conflicting_sources := [];
     vf_notes := EmptyString |}.

(** [_verify_group] *)
Definition _verify_group (findings : list Finding) : list VerifiedFinding :=
  map (verify_one findings) findings.

(** [by_question[f.question].append(f)] on the insertion-ordered
    [defaultdict(list)]. *)
Fixpoint group_add (f : Finding) (groups : list (string * list Finding))
  : list (string * list Finding) :=
  match groups with
  | [] => [(f_question f, [f])]
  | (q, fs) :: rest =>
      if String.eqb q (f_question f) then (q, fs ++ [f]) :: rest
      else (q, fs) :: group_add f rest
  end.

Definition group_by_question (findings : list Finding)
  : list (string * list Finding) :=
  fold_left (fun groups f => group_add f groups) findings [].

Definition unverified_of (f : Finding) : VerifiedFinding :=
  {| vf_finding := f;
     vf_verification_status := unverified;
     vf_supporting_sources := [];
     vf_conflicting_sources := [];
     vf_notes := EmptyString |}.

(** [verify] *)
Definition verify (findings : list Finding) : list VerifiedFinding :=
  match findings with
  | [] => []
  | _ =>
      if (length findings <=? 3)%nat
      then map unverified_of findings
      else concat (map (fun g => _verify_group (snd g)) (group_by_question findings))
  end.

(** [find_conflicts] *)
Definition find_conflicts (findings : list Finding) : list Conflict := [].

End Verifier.

(** ** pydantic's validation of the fields the models declare

    A value is accepted when it has the JSON type of the field. The
    conversions of pydantic's lax mode (a numeric string or an integral
    float for an [int]) and the range validators are left out. *)

Module Pydantic.

Definition as_str (j : json) : result string :=
  match j with
  | JStr s => Ok s
  | _ => Raise ValidationError
  end.

Definition as_int (j : json) : result Z :=
  match j with
  | JInt z => Ok z
  | JBool b => Ok (if b then 1 else 0)
  | _ => Raise ValidationError
  end.

Definition as_bool (j : json) : result bool :=
  match j with
  | JBool b => Ok b
  | _ => Raise ValidationError
  end.

Definition as_float (j : json) : result Q :=
  match j with
  | JFloat q => Ok q
  | JInt z => Ok (inject_Z z)
  | _ => Raise ValidationError
  end.

Fixpoint as_list {A : Type} (item : json -> result A) (l : list json)
  : result (list A) :=
  match l with
  | [] => Ok []
  | j :: rest =>
      a ← item j;
      r ← as_list item rest;
      Ok (a :: r)
  end.

Definition as_str_list (j : json) : result (list string) :=
  match j with
  | JList l => as_list as_str l
  | _ => Raise ValidationError
  end.

Definition as_opt_str (j : json) : result (option string) :=
  match j with
  | JNull => Ok None
  | JStr s => Ok (Some s)
  | _ => Raise ValidationError
  end.

End Pydantic.

(** ** deepsearch/agents/planner.py *)

Module Planner.
Import State.

Definition strategy_value (s : SearchStrategy) : string :=
  match s with
  | GENERAL => "general"
  | ACADEMIC => "academic"
  | NEWS => "news"
  | TECHNICAL => "technical"
  | LEGAL => "legal"
  | FINANCIAL => "financial"
  end.

(** [SearchStrategy(value)]: [None] stands for its [ValueError]. *)
Definition strategy_of_json (j : json) : option SearchStrategy :=
  match j with
  | JStr s =>
      List.find (fun st => String.eqb (strategy_value st) s)
        [GENERAL; ACADEMIC; NEWS; TECHNICAL; LEGAL; FINANCIAL]
  | _ => None
  end.

(** The keywords of [DOMAIN_HINTS], in the order of the dict. *)
Definition DOMAIN_HINTS_keywords : list (SearchStrategy * list string) :=
  [ (ACADEMIC, ["paper"; "research"; "study"; "arxiv"; "journal"; "conference"; "survey"]);
    (NEWS, ["news"; "latest"; "breaking"; "report"; "announced"; "recently"]);
    (TECHNICAL, ["documentation"; "docs"; "github"; "tutorial"; "implementation"; "code"]);
    (LEGAL, ["law"; "regulation"; "policy"; "compliance"; "legal"; "act"]);
    (FINANCIAL, ["stock"; "market"; "finance"; "earnings"; "revenue"; "investment"]) ].

(** [_detect_domain] *)
Definition _detect_domain (topic : string) : SearchStrategy :=
  let topic_lower := PyStr.lower topic in
  match List.find
          (fun h => existsb (fun keyword => PyStr.contains keyword topic_lower) (snd h))
          DOMAIN_HINTS_keywords with
  | Some h => fst h
  | None => GENERAL
  end.

(** The signature of a question text in [_deduplicate_questions]. *)
Definition signature (text : string) : string :=
  PyStr.strip (PyStr.collapse_spaces (PyStr.drop_punctuation (PyStr.lower text))).

(** One turn of the loop over [seen_signatures]: does [existing_sig]
    make [sig] a duplicate? [overlap > 0.8] is compared on the counts. *)
Definition similar_signature (sig existing_sig : string) : bool :=
  PyStr.contains sig existing_sig || PyStr.contains existing_sig sig ||
  (let sig_words : gset string := list_to_set (PyStr.split sig) in
   let existing_words : gset string := list_to_set (PyStr.split existing_sig) in
   (0 <? size sig_words)%nat && (0 <? size existing_words)%nat &&
   (4 * Z.max (Z.of_nat (size sig_words)) (Z.of_nat (size existing_words))
    <? 5 * Z.of_nat (size (sig_words ∩ existing_words)))).

(** The loop of [_deduplicate_questions]; the set [seen_signatures] is
    only asked whether one of its elements matches. *)
Fixpoint dedup_loop (questions : list ResearchQuestion)
    (seen_signatures : gset string) (unique_questions : list ResearchQuestion)
  : list ResearchQuestion :=
  match questions with
  | [] => unique_questions
  | q :: rest =>
      let sig := signature (q_question q) in
      let is_duplicate := existsb (similar_signature sig) (elements seen_signatures) in
      if is_duplicate then dedup_loop rest seen_signatures unique_questions
      else dedup_loop rest ({[ sig ]} ∪ seen_signatures) (unique_questions ++ [q])
  end.

Definition _deduplicate_questions (questions : list ResearchQuestion)
  : list ResearchQuestion :=
  dedup_loop questions ∅ [].

(** ** [_sort_questions] *)

(** [{q.id: q for q in questions}]: a later question of the same id
    replaces an earlier one. *)
Definition build_question_map (questions : list ResearchQuestion)
  : gmap string ResearchQuestion :=
  fold_left (fun m q => <[ q_id q := q ]> m) questions ∅.

(** What [visit] reads and writes: the closure's [visited] and
    [result], and the set [path] that one top-level call shares with
    all its nested calls. *)
Record visit_state : Type := mkVisit {
  visited : gset string;
  sorted : list ResearchQuestion;
  path : gset string
}.

(** [visit(q_id, path)]; [None] when the fuel does not cover the depth
    of the recursion. *)
Fixpoint visit (fuel : nat) (question_map : gmap string ResearchQuestion)
    (q_id : string) (st : visit_state) : option visit_state :=
  match fuel with
  | O => None
  | S fuel' =>
      if bool_decide (q_id ∈ visited st) then Some st
      else if bool_decide (q_id ∈ path st) then Some st
      else
        let st1 := mkVisit (visited st) (sorted st) ({[ q_id ]} ∪ path st) in
        st3 ← match question_map !! q_id with
              | Some q =>
                  st2 ← fold_left
                        (fun acc dep_id => acc ≫= visit fuel' question_map dep_id)
                        (q_dependencies q) (Some st1);
                  Some (mkVisit ({[ q_id ]} ∪ visited st2) (sorted st2 ++ [q]) (path st2))
              | None => Some st1
              end;
        Some (mkVisit (visited st3) (sorted st3) (path st3 ∖ {[ q_id ]}))
  end.

(** [for q in questions: visit(q.id)]: each call starts with a new,
    empty [path]. *)
Definition visit_all (fuel : nat) (question_map : gmap string ResearchQuestion)
    (questions : list ResearchQuestion) : option visit_state :=
  fold_left
    (fun acc q =>
       st ← acc;
       visit fuel question_map (q_id q) (mkVisit (visited st) (sorted st) ∅))
    questions (Some (mkVisit ∅ [] ∅)).

(** The sort key [(x.category, x.order, -x.priority)], compared as
    Python compares tuples (and strings: by code point,
    lexicographically). *)
Definition key_le (x y : ResearchQuestion) : bool :=
  match String.compare (q_category x) (q_category y) with
  | Lt => true
  | Gt => false
  | Eq =>
      if q_order x <? q_order y then true
      else if q_order y <? q_order x then false
      else (- q_priority x <=? - q_priority y)
  end.

Fixpoint insert_by_key (x : ResearchQuestion) (l : list ResearchQuestion)
  : list ResearchQuestion :=
  match l with
  | [] => [x]
  | y :: l' => if key_le x y then x :: y :: l' else y :: insert_by_key x l'
  end.

(** [list.sort(key=...)]: the stable sort. *)
Definition sort_by_key (l : list ResearchQuestion) : list ResearchQuestion :=
  foldr insert_by_key [] l.

(** [_sort_questions], with the fuel for [visit]. *)
Definition sort_questions_fuel (fuel : nat) (questions : list ResearchQuestion)
  : option (list ResearchQuestion) :=
  match questions with
  | [] => Some questions
  | _ =>
      st ← visit_all fuel (build_question_map questions) questions;
      Some (sort_by_key (sorted st))
  end.

(** [_sort_questions]. A nested call adds an id of the map to [path],
    so the recursion is never deeper than the number of questions plus
    one, and this fuel is enough (see [sort_questions_returns]). *)
Definition _sort_questions (questions : list ResearchQuestion)
  : option (list ResearchQuestion) :=
  sort_questions_fuel (S (length questions)) questions.

Section Plan.

(** [json.loads]: [None] stands for [JSONDecodeError]. *)
Variable json_loads : string -> option json.
(** [f"q_{datetime.now().timestamp()}"], as read for the i-th item. *)
Variable fresh_id : nat -> string.
(** [f"after:{datetime.now().year - 1}"] *)
Variable after_last_year : string.

(** [_build_search_operators] *)
Definition _build_search_operators (search_operators : list string)
    (strategy : SearchStrategy) : list string :=
  let operators := search_operators in
  match strategy with
  | ACADEMIC =>
      if negb (existsb (PyStr.contains "arxiv") operators)
      then operators ++ ["site:arxiv.org OR site:scholar.google.com"]
      else operators
  | TECHNICAL =>
      if negb (existsb (PyStr.contains "github") operators)
      then operators ++ ["site:github.com OR site:stackoverflow.com"]
      else operators
  | NEWS =>
      if negb (existsb (PyStr.contains "site:") operators)
      then operators ++ [after_last_year]
      else operators
  | _ => operators
  end.

(** The body of the loop over [raw_questions] for the i-th item. *)
Definition question_of_json (detected_strategy : SearchStrategy) (i : nat)
    (q_data : json) : result ResearchQuestion :=
  d ← Json.as_dict q_data;
  let strategy_str := Json.get "search_strategy" d (JStr (strategy_value detected_strategy)) in
  let strategy := default detected_strategy (strategy_of_json strategy_str) in
  question_j ← of_option KeyError (Json.assoc "question" d);
  id ← Pydantic.as_str (Json.get "id" d (JStr (fresh_id i)));
  question ← Pydantic.as_str question_j;
  priority ← Pydantic.as_int (Json.get "priority" d (JInt 3));
  keywords ← Pydantic.as_str_list (Json.get "keywords" d (JList []));
  rationale ← Pydantic.as_str (Json.get "rationale" d (JStr EmptyString));
  category ← Pydantic.as_str (Json.get "category" d (JStr "general"));
  dependencies ← Pydantic.as_str_list (Json.get "dependencies" d (JList []));
  order ← Pydantic.as_int (Json.get "order" d (JInt 0));
  search_operators ← Pydantic.as_str_list (Json.get "search_operators" d (JList []));
  Ok {| q_id := id; q_question := question; q_priority := priority;
        q_keywords := keywords; q_rationale := rationale;
        q_category := category; q_dependencies := dependencies;
        q_order := order; q_search_strategy := strategy;
        q_search_operators := _build_search_operators search_operators strategy |}.

Fixpoint questions_of_json (detected_strategy : SearchStrategy) (i : nat)
    (raw_questions : list json) : result (list ResearchQuestion) :=
  match raw_questions with
  | [] => Ok []
  | q_data :: rest =>
      q ← question_of_json detected_strategy i q_data;
      qs ← questions_of_json detected_strategy (S i) rest;
      Ok (q :: qs)
  end.

(** The plan of the [except] branch. *)
Definition fallback_plan (topic : string) (detected_strategy : SearchStrategy)
  : list ResearchQuestion :=
  [ {| q_id := fresh_id 0;
       q_question := "What is " +:+ topic +:+ "?";
       q_priority := 5;
       q_keywords := [topic];
       q_rationale := "Fundamental understanding";
       q_category := "general";
       q_dependencies := [];
       q_order := 0;
       q_search_strategy := detected_strategy;
       q_search_operators := [] |} ].

(** [except (json.JSONDecodeError, TypeError, KeyError)] *)
Definition plan_catches (e : exn) : bool :=
  match e with
  | JSONDecodeError | TypeError | KeyError => true
  | _ => false
  end.

(** The first part of the [try] block of [plan], up to the list
    [questions] it builds; [response] is what [llm.ainvoke] returned
    (the content of the message) or raised. *)
Definition parse_questions (response : result string) (detected_strategy : SearchStrategy)
  : result (list ResearchQuestion) :=
  content ← response;
  let content := PyStr.extract_json content in
  data ← of_option JSONDecodeError (json_loads content);
  d ← Json.as_dict data;
  raw_questions ← Json.iterate (Json.get "questions" d (JList []));
  questions_of_json detected_strategy 0 raw_questions.

(** The [try] block of [plan]. *)
Definition plan_body (response : result string) (detected_strategy : SearchStrategy)
  : result (list ResearchQuestion) :=
  questions ← parse_questions response detected_strategy;
  let questions := _deduplicate_questions questions in
  of_option RecursionError (_sort_questions questions).

(** [plan] *)
Definition plan (response : result string) (topic : string) (depth : ResearchDepth)
  : result (list ResearchQuestion) :=
  let detected_strategy := _detect_domain topic in
  try_except (plan_body response detected_strategy) plan_catches
    (Ok (fallback_plan topic detected_strategy)).

End Plan.

End Planner.

(** ** deepsearch/workflow.py *)

Module Workflow.
Import State.

(** The nodes of the graph, and [END]. *)
Inductive Node : Type :=
  | N_plan | N_research | N_reflect | N_verify | N_write | N_END.

#[global] Instance Node_eq_dec : EqDecision Node.
Proof. solve_decision. Defined.

(** The two answers of [should_continue_researching]. *)
Inductive Route : Type := continue | verify.

(** [ResearchDepth(value)] *)
Definition depth_of_string (s : string) : result ResearchDepth :=
  if String.eqb s "quick" then Ok QUICK
  else if String.eqb s "balanced" then Ok BALANCED
  else if String.eqb s "comprehensive" then Ok COMPREHENSIVE
  else Raise ValueError.

(** [l[i]] for a Python index: a negative one counts from the end. *)
Definition py_index {A : Type} (l : list A) (i : Z) : result A :=
  let n := Z.of_nat (length l) in
  if (0 <=? i) && (i <? n) then of_option IndexError (nth_error l (Z.to_nat i))
  else if (- n <=? i) && (i <? 0) then of_option IndexError (nth_error l (Z.to_nat (n + i)))
  else Raise IndexError.

(** [plan_node]; [questions] is what [planner.plan] returned. *)
Definition plan_node (questions : list ResearchQuestion) (state : ResearchState)
  : result ResearchState :=
  _ ← depth_of_string (depth state);
  Ok {| job_id := job_id state; topic := topic state; depth := depth state;
        status := RUNNING;
        plan := questions;
        current_question_index := 0;
        completed_question_ids := [];
        findings := findings state; search_history := search_history state;
        iteration := iteration state; max_iterations := max_iterations state;
        reflection := reflection state;
        verified_findings := verified_findings state;
        conflicts := conflicts state; report := report state;
        report_sections := report_sections state; error := error state |}.

Definition set_current_question_index (idx : Z) (state : ResearchState) : ResearchState :=
  {| job_id := job_id state; topic := topic state; depth := depth state;
     status := status state; plan := plan state;
     current_question_index := idx;
     completed_question_ids := completed_question_ids state;
     findings := findings state; search_history := search_history state;
     iteration := iteration state; max_iterations := max_iterations state;
     reflection := reflection state;
     verified_findings := verified_findings state;
     conflicts := conflicts state; report := report state;
     report_sections := report_sections state; error := error state |}.

(** The state [research_node] returns after [researcher.research]
    gave [(findings, search_record)]. *)
Definition researched (state : ResearchState) (question : ResearchQuestion)
    (answer : list Finding * SearchRecord) : ResearchState :=
  {| job_id := job_id state; topic := topic state; depth := depth state;
     status := status state; plan := plan state;
     current_question_index := current_question_index state + 1;
     completed_question_ids := completed_question_ids state ++ [q_id question];
     findings := findings state ++ fst answer;
     search_history := search_history state ++ [snd answer];
     iteration := iteration state; max_iterations := max_iterations state;
     reflection := reflection state;
     verified_findings := verified_findings state;
     conflicts := conflicts state; report := report state;
     report_sections := report_sections state; error := error state |}.

(** What [research_node] does up to its only call of a collaborator:
    it returns (or raises) without calling, or it awaits
    [researcher.research(question)] and resumes with the answer. *)
Inductive ResearchAction : Type :=
  | Return (r : result ResearchState)
  | Research (question : ResearchQuestion)
             (resume : list Finding * SearchRecord -> ResearchState).

(** [all(dep_id in completed_ids for dep_id in question.dependencies)] *)
Definition deps_satisfied (completed_ids : list string) (question : ResearchQuestion) : bool :=
  forallb (fun dep_id => bool_decide (dep_id ∈ completed_ids)) (q_dependencies question).

(** [research_node] *)
Definition research_node (state : ResearchState) : ResearchAction :=
  let plan := plan state in
  let idx := current_question_index state in
  let completed_ids := completed_question_ids state in
  if Z.of_nat (length plan) <=? idx then Return (Ok state)
  else
    match py_index plan idx with
    | Raise e => Return (Raise e)
    | Ok question =>
        if negb (bool_decide (q_dependencies question = []))
           && negb (deps_satisfied completed_ids question)
        then Return (Ok (set_current_question_index (idx + 1) state))
        else Research question (researched state question)
    end.

(** [research_node] run to its end, given what the researcher does
    when it is called. *)
Definition run_research_node
    (researcher : ResearchQuestion -> result (list Finding * SearchRecord))
    (state : ResearchState) : result ResearchState :=
  match research_node state with
  | Return r => r
  | Research question resume => answer ← researcher question; Ok (resume answer)
  end.

(** [reflect_node]; [reflection] is what [reflector.reflect] returned. *)
Definition reflect_node (reflection : ReflectionResult) (state : ResearchState)
  : ResearchState :=
  let plan :=
    match r_new_questions reflection with
    | [] => plan state
    | new_questions => plan state ++ new_questions
    end in
  {| job_id := job_id state; topic := topic state; depth := depth state;
     status := status state;
     plan := plan;
     current_question_index := current_question_index state;
     completed_question_ids := completed_question_ids state;
     findings := findings state; search_history := search_history state;
     iteration := iteration state + 1;
     max_iterations := max_iterations state;
     reflection := Some reflection;
     verified_findings := verified_findings state;
     conflicts := conflicts state; report := report state;
     report_sections := report_sections state; error := error state |}.

(** [verify_node] *)
Definition verify_node (state : ResearchState) : ResearchState :=
  {| job_id := job_id state; topic := topic state; depth := depth state;
     status := status state; plan := plan state;
     current_question_index := current_question_index state;
     completed_question_ids := completed_question_ids state;
     findings := findings state; search_history := search_history state;
     iteration := iteration state; max_iterations := max_iterations state;
     reflection := reflection state;
     verified_findings := Verifier.verify (findings state);
     conflicts := conflicts state; report := report state;
     report_sections := report_sections state; error := error state |}.

(** [write_node]; [written] is what [writer.write] returned. *)
Definition write_node (written : string) (state : ResearchState)
  : result ResearchState :=
  _ ← depth_of_string (depth state);
  Ok {| job_id := job_id state; topic := topic state; depth := depth state;
        status := COMPLETED;
        plan := plan state;
        current_question_index := current_question_index state;
        completed_question_ids := completed_question_ids state;
        findings := findings state; search_history := search_history state;
        iteration := iteration state; max_iterations := max_iterations state;
        reflection := reflection state;
        verified_findings := verified_findings state;
        conflicts := conflicts state;
        report := Some written;
        report_sections := report_sections state; error := error state |}.

(** [should_continue_researching] *)
Definition should_continue_researching (state : ResearchState) : Route :=
  let plan := plan state in
  let idx := current_question_index state in
  let reflection := reflection state in
  let iteration := iteration state in
  let max_iterations := max_iterations state in
  if max_iterations <=? iteration then verify
  else if idx <? Z.of_nat (length plan) then continue
  else
    match reflection with
    | Some r => if negb (r_is_complete r) then continue else verify
    | None => verify
    end.

(** The conditional edge out of [research]. *)
Definition after_research (state : ResearchState) : Node :=
  match should_continue_researching state with
  | continue => N_reflect
  | verify => N_verify
  end.

(** A configuration of a run: the node that runs next, and the state
    it will be given. *)
Definition Config : Type := Node * ResearchState.

(** One step of the compiled graph: a node runs on the state, and the
    edges (fixed, or the conditional one after [research]) name the
    next node. The answers of the collaborators are arbitrary; a node
    that raises ends the run and gives no step. *)
Inductive step : Config -> Config -> Prop :=
  | step_plan state questions state' :
      plan_node questions state = Ok state' ->
      step (N_plan, state) (N_research, state')
  | step_research state researcher state' :
      run_research_node researcher state = Ok state' ->
      step (N_research, state) (after_research state', state')
  | step_reflect state reflection :
      step (N_reflect, state) (N_research, reflect_node reflection state)
  | step_verify state :
      step (N_verify, state) (N_write, verify_node state)
  | step_write state written state' :
      write_node written state = Ok state' ->
      step (N_write, state) (N_END, state').

(** The configurations of a run from [c], in order ([c] first). *)
Inductive execution : Config -> list Config -> Prop :=
  | exec_stop c : execution c [c]
  | exec_step c c' tr : step c c' -> execution c' tr -> execution c (c :: tr).

(** How often a node was entered in a run. *)
Definition entered (n : Node) (tr : list Config) : nat :=
  length (List.filter (fun c => bool_decide (fst c = n)) tr).

(** A run as a function: the collaborators answer by the number of the
    step, and the run stops at [END], when a node raises, or when the
    fuel is spent. *)
Record Collaborators : Type := mkCollaborators {
  planner_plan : list ResearchQuestion;
  researcher_research : nat -> ResearchQuestion -> result (list Finding * SearchRecord);
  reflector_reflect : nat -> ReflectionResult;
  writer_write : string
}.

Definition step_fun (co : Collaborators) (i : nat) (c : Config) : option Config :=
  let '(n, state) := c in
  match n with
  | N_plan =>
      match plan_node (planner_plan co) state with
      | Ok state' => Some (N_research, state')
      | Raise _ => None
      end
  | N_research =>
      match run_research_node (researcher_research co i) state with
      | Ok state' => Some (after_research state', state')
      | Raise _ => None
      end
  | N_reflect => Some (N_research, reflect_node (reflector_reflect co i) state)
  | N_verify => Some (N_write, verify_node state)
  | N_write =>
      match write_node (writer_write co) state with
      | Ok state' => Some (N_END, state')
      | Raise _ => None
      end
  | N_END => None
  end.

Fixpoint run (fuel : nat) (co : Collaborators) (i : nat) (c : Config) : list Config :=
  match fuel with
  | O => [c]
  | S fuel' =>
      match step_fun co i c with
      | Some c' => c :: run fuel' co (S i) c'
      | None => [c]
      end
  end.

End Workflow.

(** ** The pydantic models of deepsearch/state.py as JSON

    A [dump_] function is [model_dump(mode="json")]; a [validate_]
    function is the construction of a model from the pairs of a JSON
    object (the keyword arguments of its constructor, or a nested field
    given as a dict). *)

Module Models.
Import State.

Definition dump_strs (l : list string) : json := JList (map JStr l).

Definition dump_opt_str (o : option string) : json :=
  match o with
  | Some s => JStr s
  | None => JNull
  end.

(** A field the model requires. *)
Definition required (k : string) (d : list (string * json)) : result json :=
  of_option ValidationError (Json.assoc k d).

(** Unpacking [j] into keyword arguments: [j] has to be a mapping. *)
Definition kwargs (j : json) : result (list (string * json)) :=
  match j with
  | JObj d => Ok d
  | _ => Raise TypeError
  end.

(** A nested model given as a value. *)
Definition nested (j : json) : result (list (string * json)) :=
  match j with
  | JObj d => Ok d
  | _ => Raise ValidationError
  end.

(** A required field that holds a nested model. *)
Definition required_nested (k : string) (d : list (string * json))
  : result (list (string * json)) :=
  j ← required k d; nested j.

Definition as_strategy (j : json) : result SearchStrategy :=
  of_option ValidationError (Planner.strategy_of_json j).

Definition status_text (s : VerificationStatus) : string :=
  match s with
  | confirmed => "confirmed"
  | disputed => "disputed"
  | unverified => "unverified"
  end.

Definition as_verification_status (j : json) : result VerificationStatus :=
  match j with
  | JStr s =>
      of_option ValidationError
        (List.find (fun st => String.eqb (status_text st) s)
           [confirmed; disputed; unverified])
  | _ => Raise ValidationError
  end.

Section Defaults.

(** The two [default_factory] values that read the clock. *)
Variable fresh_id : string.
Variable now : datetime.

Definition dump_question (q : ResearchQuestion) : json :=
  JObj [ ("id", JStr (q_id q));
         ("question", JStr (q_question q));
         ("priority", JInt (q_priority q));
         ("keywords", dump_strs (q_keywords q));
         ("rationale", JStr (q_rationale q));
         ("category", JStr (q_category q));
         ("dependencies", dump_strs (q_dependencies q));
         ("order", JInt (q_order q));
         ("search_strategy", JStr (Planner.strategy_value (q_search_strategy q)));
         ("search_operators", dump_strs (q_search_operators q)) ].

Definition validate_question (d : list (string * json)) : result ResearchQuestion :=
  id ← Pydantic.as_str (Json.get "id" d (JStr fresh_id));
  question ← required "question" d ≫= Pydantic.as_str;
  priority ← Pydantic.as_int (Json.get "priority" d (JInt 1));
  keywords ← Pydantic.as_str_list (Json.get "keywords" d (JList []));
  rationale ← Pydantic.as_str (Json.get "rationale" d (JStr EmptyString));
  category ← Pydantic.as_str (Json.get "category" d (JStr "general"));
  dependencies ← Pydantic.as_str_list (Json.get "dependencies" d (JList []));
  order ← Pydantic.as_int (Json.get "order" d (JInt 0));
  search_strategy ← as_strategy (Json.get "search_strategy" d (JStr "general"));
  search_operators ← Pydantic.as_str_list (Json.get "search_operators" d (JList []));
  Ok (mkResearchQuestion id question priority keywords rationale category
        dependencies order search_strategy search_operators).

Definition dump_finding (f : Finding) : json :=
  JObj [ ("question", JStr (f_question f));
         ("source", JStr (f_source f));
         ("title", JStr (f_title f));
         ("content", JStr (f_content f));
         ("credibility", JFloat (f_credibility f));
         ("timestamp", JStr (f_timestamp f)) ].

Definition validate_finding (d : list (string * json)) : result Finding :=
  question ← required "question" d ≫= Pydantic.as_str;
  source ← required "source" d ≫= Pydantic.as_str;
  title ← required "title" d ≫= Pydantic.as_str;
  content ← required "content" d ≫= Pydantic.as_str;
  credibility ← Pydantic.as_float (Json.get "credibility" d (JFloat (1 # 2)));
  timestamp ← Pydantic.as_str (Json.get "timestamp" d (JStr now));
  Ok (mkFinding question source title content credibility timestamp).

Definition dump_verified (v : VerifiedFinding) : json :=
  JObj [ ("finding", dump_finding (vf_finding v));
         ("verification_status", JStr (status_text (vf_verification_status v)));
         ("supporting_sources", dump_strs (vf_supporting_sources v));
         ("conflicting_sources", dump_strs (vf_conflicting_sources v));
         ("notes", JStr (vf_notes v)) ].

Definition validate_verified (d : list (string * json)) : result VerifiedFinding :=
  finding ← required_nested "finding" d ≫= validate_finding;
  verification_status ← required "verification_status" d ≫= as_verification_status;
  supporting_sources ← Pydantic.as_str_list (Json.get "supporting_sources" d (JList []));
  conflicting_sources ← Pydantic.as_str_list (Json.get "conflicting_sources" d (JList []));
  notes ← Pydantic.as_str (Json.get "notes" d (JStr EmptyString));
  Ok (mkVerifiedFinding finding verification_status supporting_sources
        conflicting_sources notes).

Definition dump_conflict (c : Conflict) : json :=
  JObj [ ("finding_a", dump_finding (c_finding_a c));
         ("finding_b", dump_finding (c_finding_b c));
         ("conflict_description", JStr (c_conflict_description c));
         ("resolution", dump_opt_str (c_resolution c)) ].

Definition validate_conflict (d : list (string * json)) : result Conflict :=
  finding_a ← required_nested "finding_a" d ≫= validate_finding;
  finding_b ← required_nested "finding_b" d ≫= validate_finding;
  conflict_description ← required "conflict_description" d ≫= Pydantic.as_str;
  resolution ← Pydantic.as_opt_str (Json.get "resolution" d JNull);
  Ok (mkConflict finding_a finding_b conflict_description resolution).

Definition dump_section (s : Section_) : json :=
  JObj [ ("title", JStr (s_title s));
         ("content", JStr (s_content s));
         ("sources", dump_strs (s_sources s)) ].

Definition validate_section (d : list (string * json)) : result Section_ :=
  title ← required "title" d ≫= Pydantic.as_str;
  content ← required "content" d ≫= Pydantic.as_str;
  sources ← Pydantic.as_str_list (Json.get "sources" d (JList []));
  Ok (mkSection title content sources).

Definition dump_search_record (r : SearchRecord) : json :=
  JObj [ ("query", JStr (sr_query r));
         ("provider", JStr (sr_provider r));
         ("results_count", JInt (sr_results_count r));
         ("timestamp", JStr (sr_timestamp r)) ].

Definition validate_search_record (d : list (string * json)) : result SearchRecord :=
  query ← required "query" d ≫= Pydantic.as_str;
  provider ← required "provider" d ≫= Pydantic.as_str;
  results_count ← required "results_count" d ≫= Pydantic.as_int;
  timestamp ← Pydantic.as_str (Json.get "timestamp" d (JStr now));
  Ok (mkSearchRecord query provider results_count timestamp).

Definition dump_reflection (r : ReflectionResult) : json :=
  JObj [ ("is_complete", JBool (r_is_complete r));
         ("gaps", dump_strs (r_gaps r));
         ("new_questions", JList (map dump_question (r_new_questions r)));
         ("reasoning", JStr (r_reasoning r)) ].

Definition as_questions (j : json) : result (list ResearchQuestion) :=
  match j with
  | JList l => Pydantic.as_list (fun x => nested x ≫= validate_question) l
  | _ => Raise ValidationError
  end.

Definition validate_reflection (d : list (string * json)) : result ReflectionResult :=
  is_complete ← required "is_complete" d ≫= Pydantic.as_bool;
  gaps ← Pydantic.as_str_list (Json.get "gaps" d (JList []));
  new_questions ← as_questions (Json.get "new_questions" d (JList []));
  reasoning ← Pydantic.as_str (Json.get "reasoning" d (JStr EmptyString));
  Ok (mkReflectionResult is_complete gaps new_questions reasoning).

(** The list comprehension that builds one model from each item of
    [j], unpacked into keyword arguments. *)
Definition models_of {A : Type} (validate : list (string * json) -> result A)
    (j : json) : result (list A) :=
  items ← Json.iterate j;
  Pydantic.as_list (fun x => kwargs x ≫= validate) items.

End Defaults.

End Models.

(** ** deepsearch/storage.py *)

Module Storage.
Import State.

(** A row of the table [research_jobs]. A column of JSON text holds
    the value [json.loads] reads from it ([json.dumps] followed by
    [json.loads] gives the value back); [None] is SQL's NULL. *)
Record Row : Type := mkRow {
  col_id : string;
  col_topic : string;
  col_depth : string;
  col_status : string;
  col_plan_json : option json;
  col_current_question_index : Z;
  col_findings_json : option json;
  col_search_history_json : option json;
  col_iteration : Z;
  col_max_iterations : Z;
  col_reflection_json : option json;
  col_verified_findings_json : option json;
  col_conflicts_json : option json;
  col_report : option string;
  col_report_sections_json : option json;
  col_error : option string;
  col_created_at : datetime;
  col_updated_at : datetime
}.

(** The table, by its primary key [id]. *)
Abbreviation Table := (gmap string Row).

(** [status.value] *)
Definition status_value (s : ResearchStatus) : string :=
  match s with
  | PENDING => "pending"
  | RUNNING => "running"
  | PAUSED => "paused"
  | COMPLETED => "completed"
  | FAILED => "failed"
  end.

(** [ResearchStatus(text)] *)
Definition status_of_string (s : string) : result ResearchStatus :=
  of_option ValueError
    (List.find (fun st => String.eqb (status_value st) s)
       [PENDING; RUNNING; PAUSED; COMPLETED; FAILED]).

(** Binding a Python [int] to an INTEGER column: SQLite holds 64-bit
    integers, and the driver refuses a larger one. *)
Definition sqlite_int (z : Z) : result Z :=
  if (- 2 ^ 63 <=? z) && (z <? 2 ^ 63) then Ok z else Raise OverflowError.

(** [serialize_list]; the text ["[]"] reads back as the empty list. *)
Definition serialize_list {A : Type} (serialize_item : A -> json) (items : list A) : json :=
  match items with
  | [] => JList []
  | _ => JList (map serialize_item items)
  end.

Section Clock.

(** The id [create_job] draws ([str(uuid.uuid4())[:8]]), SQL's
    CURRENT_TIMESTAMP, and the two clock-dependent defaults of the
    models. *)
Variable new_job_id : string.
Variable CURRENT_TIMESTAMP : datetime.
Variable fresh_id : string.
Variable now : datetime.

(** [create_job]: the INSERT names five columns, the others take
    their defaults. *)
Definition create_job (db : Table) (topic depth : string) (max_iterations : Z)
  : result (string * Table) :=
  let job_id := new_job_id in
  max_iterations ← sqlite_int max_iterations;
  match db !! job_id with
  | Some _ => Raise IntegrityError
  | None =>
      Ok (job_id,
          <[ job_id :=
               {| col_id := job_id; col_topic := topic; col_depth := depth;
                  col_status := status_value PENDING;
                  col_plan_json := None;
                  col_current_question_index := 0;
                  col_findings_json := None;
                  col_search_history_json := None;
                  col_iteration := 0;
                  col_max_iterations := max_iterations;
                  col_reflection_json := None;
                  col_verified_findings_json := None;
                  col_conflicts_json := None;
                  col_report := None;
                  col_report_sections_json := None;
                  col_error := None;
                  col_created_at := CURRENT_TIMESTAMP;
                  col_updated_at := CURRENT_TIMESTAMP |} ]> db)
  end.

(** The SET clause of [save_state]'s UPDATE, on one row. *)
Definition updated_row (state : ResearchState) (idx iteration : Z) (row : Row) : Row :=
  {| col_id := col_id row; col_topic := col_topic row; col_depth := col_depth row;
     col_status := status_value (status state);
     col_plan_json := Some (serialize_list Models.dump_question (plan state));
     col_current_question_index := idx;
     col_findings_json := Some (serialize_list Models.dump_finding (findings state));
     col_search_history_json :=
       Some (serialize_list Models.dump_search_record (search_history state));
     col_iteration := iteration;
     col_max_iterations := col_max_iterations row;
     col_reflection_json := option_map Models.dump_reflection (reflection state);
     col_verified_findings_json :=
       Some (serialize_list Models.dump_verified (verified_findings state));
     col_conflicts_json := Some (serialize_list Models.dump_conflict (conflicts state));
     col_report := report state;
     col_report_sections_json :=
       Some (serialize_list Models.dump_section (report_sections state));
     col_error := error state;
     col_created_at := col_created_at row;
     col_updated_at := CURRENT_TIMESTAMP |}.

(** [save_state]: UPDATE ... WHERE id = ?, which changes the row of
    that id when there is one. *)
Definition save_state (db : Table) (state : ResearchState) : result Table :=
  idx ← sqlite_int (current_question_index state);
  iteration ← sqlite_int (iteration state);
  Ok (alter (updated_row state idx iteration) (job_id state) db).

(** [json.loads(column or "[]")] *)
Definition loads_or_empty (column : option json) : json :=
  default (JList []) column.

(** [_row_to_state]. The dict it builds has no key
    [completed_question_ids]; its readers use
    [state.get("completed_question_ids", [])]. *)
Definition _row_to_state (row : Row) : result ResearchState :=
  status ← status_of_string (col_status row);
  plan ← Models.models_of (Models.validate_question fresh_id)
           (loads_or_empty (col_plan_json row));
  findings ← Models.models_of (Models.validate_finding now)
           (loads_or_empty (col_findings_json row));
  search_history ← Models.models_of (Models.validate_search_record now)
           (loads_or_empty (col_search_history_json row));
  reflection ← match col_reflection_json row with
               | Some j => r ← Models.kwargs j ≫= Models.validate_reflection fresh_id;
                           Ok (Some r)
               | None => Ok None
               end;
  verified_findings ← Models.models_of (Models.validate_verified now)
           (loads_or_empty (col_verified_findings_json row));
  conflicts ← Models.models_of (Models.validate_conflict now)
           (loads_or_empty (col_conflicts_json row));
  report_sections ← Models.models_of Models.validate_section
           (loads_or_empty (col_report_sections_json row));
  Ok {| job_id := col_id row;
        topic := col_topic row;
        depth := col_depth row;
        status := status;
        plan := plan;
        current_question_index := col_current_question_index row;
        completed_question_ids := [];
        findings := findings;
        search_history := search_history;
        iteration := col_iteration row;
        max_iterations := col_max_iterations row;
        reflection := reflection;
        verified_findings := verified_findings;
        conflicts := conflicts;
        report := col_report row;
        report_sections := report_sections;
        error := col_error row |}.

(** [load_state] *)
Definition load_state (db : Table) (job_id : string) : result (option ResearchState) :=
  match db !! job_id with
  | None => Ok None
  | Some row => state ← _row_to_state row; Ok (Some state)
  end.

(** [update_status] *)
Definition update_status (db : Table) (job_id : string) (status : ResearchStatus) : Table :=
  alter
    (fun row =>
       {| col_id := col_id row; col_topic := col_topic row; col_depth := col_depth row;
          col_status := status_value status;
          col_plan_json := col_plan_json row;
          col_current_question_index := col_current_question_index row;
          col_findings_json := col_findings_json row;
          col_search_history_json := col_search_history_json row;
          col_iteration := col_iteration row;
          col_max_iterations := col_max_iterations row;
          col_reflection_json := col_reflection_json row;
          col_verified_findings_json := col_verified_findings_json row;
          col_conflicts_json := col_conflicts_json row;
          col_report := col_report row;
          col_report_sections_json := col_report_sections_json row;
          col_error := col_error row;
          col_created_at := col_created_at row;
          col_updated_at := CURRENT_TIMESTAMP |})
    job_id db.

End Clock.

End Storage.

(** ** deep_thinking/state.py, deep_thinking/workflow.py and the task
    loop of deep_thinking/cli.py *)

Module Thinking.

Inductive ThinkingPhase : Type :=
  | PENDING | ANCHORED | GENERATED | CRITIQUED | VERIFIED | SYNTHESIZED.

Inductive VerificationStatus : Type := CONFIRMED | DISPUTED | UNVERIFIED.

#[global] Instance ThinkingPhase_eq_dec : EqDecision ThinkingPhase.
Proof. solve_decision. Defined.

#[global] Instance VerificationStatus_eq_dec : EqDecision VerificationStatus.
Proof. solve_decision. Defined.

Record VerifiedClaim : Type := mkVerifiedClaim {
  claim : string;
  status : VerificationStatus;
  source_url : option string;
  notes : string
}.

Record CritiquePoint : Type := mkCritiquePoint {
  severity : string;
  critique : string;
  suggestion : string
}.

Record CouncilPosition : Type := mkCouncilPosition {
  expert_name : string;
  perspective : string;
  position : string;
  rebuttals : list string
}.

(** The dict [run_phase_a_b] reads as [task.anchor_output]. *)
Record AnchorOutput : Type := mkAnchorOutput {
  original_topic : string;
  anchored_topic : string;
  sources : list string
}.

Record ThinkingTask : Type := mkThinkingTask {
  id : string;
  topic : string;
  anchors : list string;
  phase : ThinkingPhase;
  confidence : option Q;
  unverified_claims : list string;
  council_triggered : bool;
  completed_at : option string;
  anchor_output : option AnchorOutput;
  generation_output : option string;
  critique_points : list CritiquePoint;
  council_positions : list CouncilPosition;
  verified_claims : list VerifiedClaim;
  synthesis : option string
}.

(** The part of a [DomainPlugin] that anchoring uses. *)
Record DomainPlugin : Type := mkDomainPlugin {
  get_anchors_for_topic : string -> list string;
  format_anchor_prompt : string -> list string -> string
}.

(** The place of a phase in the order of the pipeline. *)
Definition rank (p : ThinkingPhase) : nat :=
  match p with
  | PENDING => 0
  | ANCHORED => 1
  | GENERATED => 2
  | CRITIQUED => 3
  | VERIFIED => 4
  | SYNTHESIZED => 5
  end.

(** [ThinkingSession.current_task] *)
Definition current_task (tasks : list ThinkingTask) : option ThinkingTask :=
  List.find (fun task => negb (bool_decide (phase task = SYNTHESIZED))) tasks.

(** *** A phase operation as a computation on the task object

    An operation mutates the task it is given, and either returns a
    value or raises. [Op A] gives the task as the operation leaves it,
    the values it assigned to [task.phase] in order, and its outcome. *)
Definition Op (A : Type) : Type :=
  ThinkingTask -> ThinkingTask * list ThinkingPhase * result A.

Definition op_ret {A : Type} (a : A) : Op A := fun task => (task, [], Ok a).

Definition op_bind {A B : Type} (m : Op A) (k : A -> Op B) : Op B :=
  fun task =>
    match m task with
    | (task1, assigned1, Ok a) =>
        match k a task1 with
        | (task2, assigned2, r) => (task2, assigned1 ++ assigned2, r)
        end
    | (task1, assigned1, Raise e) => (task1, assigned1, Raise e)
    end.

Notation "x <- m ;; k" := (op_bind m (fun x => k))
  (at level 100, m at next level, right associativity).
Notation "m ;; k" := (op_bind m (fun _ => k))
  (at level 100, right associativity).

(** [await] of a collaborator whose outcome is [r]. *)
Definition await {A : Type} (r : result A) : Op A := fun task => (task, [], r).

(** Reading the task. *)
Definition get : Op ThinkingTask := fun task => (task, [], Ok task).

(** An assignment to an attribute other than [phase]. *)
Definition assign (f : ThinkingTask -> ThinkingTask) : Op unit :=
  fun task => (f task, [], Ok tt).

Definition with_phase (p : ThinkingPhase) (t : ThinkingTask) : ThinkingTask :=
  mkThinkingTask (id t) (topic t) (anchors t) p (confidence t) (unverified_claims t)
    (council_triggered t) (completed_at t) (anchor_output t) (generation_output t)
    (critique_points t) (council_positions t) (verified_claims t) (synthesis t).

(** [task.phase = p] *)
Definition set_phase (p : ThinkingPhase) : Op unit :=
  fun task => (with_phase p task, [p], Ok tt).

Definition with_anchors (a : list string) (t : ThinkingTask) : ThinkingTask :=
  mkThinkingTask (id t) (topic t) a (phase t) (confidence t) (unverified_claims t)
    (council_triggered t) (completed_at t) (anchor_output t) (generation_output t)
    (critique_points t) (council_positions t) (verified_claims t) (synthesis t).

Definition with_anchor_output (o : AnchorOutput) (t : ThinkingTask) : ThinkingTask :=
  mkThinkingTask (id t) (topic t) (anchors t) (phase t) (confidence t) (unverified_claims t)
    (council_triggered t) (completed_at t) (Some o) (generation_output t)
    (critique_points t) (council_positions t) (verified_claims t) (synthesis t).

Definition with_generation_output (g : string) (t : ThinkingTask) : ThinkingTask :=
  mkThinkingTask (id t) (topic t) (anchors t) (phase t) (confidence t) (unverified_claims t)
    (council_triggered t) (completed_at t) (anchor_output t) (Some g)
    (critique_points t) (council_positions t) (verified_claims t) (synthesis t).

Definition with_critique (cps : list CritiquePoint) (c : option Q) (t : ThinkingTask)
  : ThinkingTask :=
  mkThinkingTask (id t) (topic t) (anchors t) (phase t) c (unverified_claims t)
    (council_triggered t) (completed_at t) (anchor_output t) (generation_output t)
    cps (council_positions t) (verified_claims t) (synthesis t).

Definition with_council_triggered (t : ThinkingTask) : ThinkingTask :=
  mkThinkingTask (id t) (topic t) (anchors t) (phase t) (confidence t) (unverified_claims t)
    true (completed_at t) (anchor_output t) (generation_output t)
    (critique_points t) (council_positions t) (verified_claims t) (synthesis t).

Definition with_council_positions (ps : list CouncilPosition) (t : ThinkingTask)
  : ThinkingTask :=
  mkThinkingTask (id t) (topic t) (anchors t) (phase t) (confidence t) (unverified_claims t)
    (council_triggered t) (completed_at t) (anchor_output t) (generation_output t)
    (critique_points t) ps (verified_claims t) (synthesis t).

Definition with_claims (vcs : list VerifiedClaim) (us : list string) (t : ThinkingTask)
  : ThinkingTask :=
  mkThinkingTask (id t) (topic t) (anchors t) (phase t) (confidence t) us
    (council_triggered t) (completed_at t) (anchor_output t) (generation_output t)
    (critique_points t) (council_positions t) vcs (synthesis t).

Definition with_more_critique (cps : list CritiquePoint) (t : ThinkingTask) : ThinkingTask :=
  mkThinkingTask (id t) (topic t) (anchors t) (phase t) (confidence t) (unverified_claims t)
    (council_triggered t) (completed_at t) (anchor_output t) (generation_output t)
    (critique_points t ++ cps) (council_positions t) (verified_claims t) (synthesis t).

Definition with_synthesis (s : string) (t : ThinkingTask) : ThinkingTask :=
  mkThinkingTask (id t) (topic t) (anchors t) (phase t) (confidence t) (unverified_claims t)
    (council_triggered t) (completed_at t) (anchor_output t) (generation_output t)
    (critique_points t) (council_positions t) (verified_claims t) (Some s).

Definition with_confidence (c : Q) (t : ThinkingTask) : ThinkingTask :=
  mkThinkingTask (id t) (topic t) (anchors t) (phase t) (Some c) (unverified_claims t)
    (council_triggered t) (completed_at t) (anchor_output t) (generation_output t)
    (critique_points t) (council_positions t) (verified_claims t) (synthesis t).

Definition with_completed_at (d : string) (t : ThinkingTask) : ThinkingTask :=
  mkThinkingTask (id t) (topic t) (anchors t) (phase t) (confidence t) (unverified_claims t)
    (council_triggered t) (Some d) (anchor_output t) (generation_output t)
    (critique_points t) (council_positions t) (verified_claims t) (synthesis t).

Definition when (b : bool) (m : Op unit) : Op unit := if b then m else op_ret tt.

(** [AnchorAgent.anchor_single_task] *)
Definition anchor_single_task (domain : option DomainPlugin) : Op unit :=
  task <- get ;;
  when (bool_decide (is_Some domain) && bool_decide (anchors task = []))
    (match domain with
     | Some d => assign (with_anchors (take 3 (get_anchors_for_topic d (topic task))))
     | None => op_ret tt
     end) ;;
  task <- get ;;
  match domain, anchors task with
  | Some d, _ :: _ =>
      assign (with_anchor_output
                {| original_topic := topic task;
                   anchored_topic := format_anchor_prompt d (topic task) (anchors task);
                   sources := anchors task |})
  | _, _ => op_ret tt
  end.

(** [run_phase_a_b]; [generated] is the outcome of [llm.ainvoke]. The
    prompt it sends is built from the task and is not part of the
    model; [save_session] writes the session file. *)
Definition run_phase_a_b (domain : option DomainPlugin) (generated : result string)
  : Op unit :=
  anchor_single_task domain ;;
  set_phase ANCHORED ;;
  content <- await generated ;;
  assign (with_generation_output content) ;;
  set_phase GENERATED.

(** [run_phase_c]; [critiqued] is the outcome of
    [adversarial_agent.critique], [council] that of [run_council]. *)
Definition run_phase_c (critiqued : result (list CritiquePoint * option Q * bool))
    (council : result (list CouncilPosition)) : Op bool :=
  answer <- await critiqued ;;
  let '(critique_points, confidence, should_council) := answer in
  assign (with_critique critique_points confidence) ;;
  when should_council
    (assign with_council_triggered ;;
     positions <- await council ;;
     assign (with_council_positions positions)) ;;
  set_phase CRITIQUED ;;
  op_ret should_council.

Definition opposition_point (opp : string) : CritiquePoint :=
  {| severity := "low";
     critique := "[反对意见] " +:+ opp;
     suggestion := "Consider incorporating this perspective" |}.

(** [run_phase_d]; [checked] is the outcome of
    [fact_checker.verify_task], [oppositions] that of
    [search_opposition]. *)
Definition run_phase_d (checked : result (list VerifiedClaim * list string))
    (oppositions : result (list string)) : Op unit :=
  answer <- await checked ;;
  assign (with_claims (fst answer) (snd answer)) ;;
  opps <- await oppositions ;;
  assign (with_more_critique (map opposition_point opps)) ;;
  set_phase VERIFIED.

(** [content.rsplit(sep, 1)] when [sep] (not empty) occurs in
    [content]: the text before and after its last occurrence. *)
Fixpoint rsplit_once (sep s : string) : option (string * string) :=
  match s with
  | EmptyString => None
  | String c s' =>
      match rsplit_once sep s' with
      | Some (before, after) => Some (String c before, after)
      | None =>
          if PyStr.prefixb sep s
          then Some (EmptyString, String.substring (String.length sep) (String.length s) s)
          else None
      end
  end.

(** [run_phase_e]; [synthesized] is the outcome of [llm.ainvoke],
    [parse_float] is Python's [float] ([None] for its [ValueError]),
    [today] is [datetime.now()]. *)
Definition run_phase_e (parse_float : string -> option Q) (today : string)
    (synthesized : result string) : Op unit :=
  content <- await synthesized ;;
  match rsplit_once "CONFIDENCE:" content with
  | Some (before, after) =>
      assign (with_synthesis (PyStr.strip before)) ;;
      match parse_float (PyStr.strip after) with
      | Some c => assign (with_confidence c)
      | None => op_ret tt
      end
  | None => assign (with_synthesis content)
  end ;;
  set_phase SYNTHESIZED ;;
  assign (with_completed_at today).

(** What the collaborators answer while one task is processed. *)
Record Answers : Type := mkAnswers {
  generated : result string;
  critiqued : result (list CritiquePoint * option Q * bool);
  council : result (list CouncilPosition);
  checked : result (list VerifiedClaim * list string);
  oppositions : result (list string);
  synthesized : result string
}.

(** The body of the task loop of [_run_session] for the task it took
    from [session.current_task()]: each phase operation is guarded by
    the phase the task has when the guard is read. The prompts of the
    checkpoints add to [session.user_challenges] only. *)
Definition process_task (domain : option DomainPlugin)
    (parse_float : string -> option Q) (today : string) (a : Answers) : Op unit :=
  task <- get ;;
  when (bool_decide (phase task = PENDING) || bool_decide (phase task = ANCHORED))
    (run_phase_a_b domain (generated a)) ;;
  task <- get ;;
  when (bool_decide (phase task = GENERATED))
    (_ <- run_phase_c (critiqued a) (council a) ;; op_ret tt) ;;
  task <- get ;;
  when (bool_decide (phase task = CRITIQUED))
    (run_phase_d (checked a) (oppositions a)) ;;
  task <- get ;;
  when (bool_decide (phase task = VERIFIED))
    (run_phase_e parse_float today (synthesized a)).

(** The values [task.phase] has over time while [m] runs on [task]:
    the one it starts with, then each one assigned. *)
Definition observed_phases {A : Type} (m : Op A) (task : ThinkingTask)
  : list ThinkingPhase :=
  phase task :: snd (fst (m task)).

End Thinking.

(** ** deep_thinking/agents/fact_checker.py *)

Module FactChecker.
Import Thinking.

Record SearchResult : Type := mkSearchResult {
  sr_title : string;
  sr_url : string;
  sr_snippet : string;
  sr_source : string
}.

(** [VerificationStatus(value)] *)
Definition status_of_json (j : json) : result VerificationStatus :=
  match j with
  | JStr s =>
      if String.eqb s "confirmed" then Ok CONFIRMED
      else if String.eqb s "disputed" then Ok DISPUTED
      else if String.eqb s "unverified" then Ok UNVERIFIED
      else Raise ValueError
  | _ => Raise ValueError
  end.

Section Claim.

(** [json.loads]: [None] stands for [JSONDecodeError]. *)
Variable json_loads : string -> option json.

(** The [try] block of [_verify_single_claim]; [searched] is the
    outcome of [search_tool.search], [judged] that of [llm.ainvoke],
    which is awaited only when there are results. *)
Definition verify_single_claim_body (searched : result (list SearchResult))
    (judged : result string) (claim : string) : result VerifiedClaim :=
  results ← searched;
  match results with
  | [] =>
      Ok {| claim := claim; status := UNVERIFIED; source_url := None;
            notes := "No search results found" |}
  | _ =>
      text ← judged;
      let text := PyStr.extract_json text in
      data ← of_option JSONDecodeError (json_loads text);
      d ← Json.as_dict data;
      status ← status_of_json (Json.get "status" d (JStr "unverified"));
      source_url ← Pydantic.as_opt_str (Json.get "source_url" d JNull);
      notes ← Pydantic.as_str (Json.get "notes" d (JStr EmptyString));
      Ok {| claim := claim; status := status; source_url := source_url;
            notes := notes |}
  end.

(** [_verify_single_claim]: [except Exception] catches whatever the
    block raises. *)
Definition _verify_single_claim (searched : result (list SearchResult))
    (judged : result string) (claim claim_type search_query : string) : VerifiedClaim :=
  match verify_single_claim_body searched judged claim with
  | Ok vc => vc
  | Raise _ =>
      {| claim := claim; status := UNVERIFIED; source_url := None;
         notes := "Verification failed due to error" |}
  end.

End Claim.

End FactChecker.

(** * Properties *)

(** ** The scheduler and the reflection loop (deepsearch/workflow.py) *)

Module WorkflowProps.
Import State Workflow.

(** C5. After a research step the next node is chosen by
    [should_continue_researching] on the state the step left, and its
    checks apply in this order: (1) the iteration budget is reached:
    stop (verify); otherwise (2) the cursor is within the plan:
    continue; otherwise (3) the last reflection says incomplete:
    continue; (4) otherwise stop. *)
Theorem C5_termination_precedence (state : ResearchState) :
  (forall n state', step (N_research, state) (n, state') ->
     n = match should_continue_researching state' with
         | continue => N_reflect
         | verify => N_verify
         end) /\
  (max_iterations state <= iteration state ->
     should_continue_researching state = verify) /\
  (iteration state < max_iterations state ->
     current_question_index state < Z.of_nat (length (plan state)) ->
     should_continue_researching state = continue) /\
  (iteration state < max_iterations state ->
     Z.of_nat (length (plan state)) <= current_question_index state ->
     (exists r, reflection state = Some r /\ r_is_complete r = false) ->
     should_continue_researching state = continue) /\
  (iteration state < max_iterations state ->
     Z.of_nat (length (plan state)) <= current_question_index state ->
     (forall r, reflection state = Some r -> r_is_complete r = true) ->
     should_continue_researching state = verify).
Proof.
  unfold should_continue_researching.
  split; [| repeat split].
  - intros n state' Hstep. inversion Hstep; subst. reflexivity.
  - intros H. apply Z.leb_le in H. now rewrite H.
  - intros H1 H2.
    apply Z.leb_gt in H1. apply Z.ltb_lt in H2. now rewrite H1, H2.
  - intros H1 H2 (r & Hr & Hc).
    apply Z.leb_gt in H1. apply Z.ltb_ge in H2.
    now rewrite H1, H2, Hr, Hc.
  - intros H1 H2 Hr.
    apply Z.leb_gt in H1. apply Z.ltb_ge in H2. rewrite H1, H2.
    destruct (reflection state) as [r |]; [| reflexivity].
    now rewrite (Hr r eq_refl).
Qed.

Lemma deps_satisfied_Forall (completed_ids : list string) (q : ResearchQuestion) :
  deps_satisfied completed_ids q = true <->
  Forall (fun dep_id => dep_id ∈ completed_ids) (q_dependencies q).
Proof.
  unfold deps_satisfied. rewrite forallb_forall, List.Forall_forall.
  split; intros H dep Hin.
  - specialize (H dep Hin). now apply bool_decide_eq_true in H.
  - apply bool_decide_eq_true. now apply H.
Qed.

(** C4. [research_node] calls the researcher on a question only when
    that question is the one at the cursor and every id in its
    dependencies is in the completed ids; a question at the cursor
    with an id that is not completed is passed over: the node
    returns the state with the cursor advanced by one, and calls
    nobody. *)
Theorem C4_research_only_when_ready (state : ResearchState) :
  (forall question resume,
     research_node state = Research question resume ->
     py_index (plan state) (current_question_index state) = Ok question /\
     Forall (fun dep_id => dep_id ∈ completed_question_ids state)
            (q_dependencies question) /\
     resume = researched state question) /\
  (forall question,
     current_question_index state < Z.of_nat (length (plan state)) ->
     py_index (plan state) (current_question_index state) = Ok question ->
     ~ Forall (fun dep_id => dep_id ∈ completed_question_ids state)
              (q_dependencies question) ->
     research_node state =
       Return (Ok (set_current_question_index (current_question_index state + 1) state))).
Proof.
  unfold research_node. split.
  - intros question resume.
    destruct (Z.of_nat (length (plan state)) <=? current_question_index state);
      [discriminate |].
    destruct (py_index (plan state) (current_question_index state)) as [q | e];
      [| discriminate].
    destruct (negb (bool_decide (q_dependencies q = []))
              && negb (deps_satisfied (completed_question_ids state) q)) eqn:Hskip;
      [discriminate |].
    intros [= <- <-]. repeat split.
    apply andb_false_iff in Hskip as [Hnil | Hsat].
    + apply negb_false_iff, bool_decide_eq_true in Hnil. rewrite Hnil. constructor.
    + apply negb_false_iff in Hsat. now apply deps_satisfied_Forall.
  - intros question Hlt Hidx Hnot.
    apply Z.leb_gt in Hlt. rewrite Hlt, Hidx.
    assert (Hsat : deps_satisfied (completed_question_ids state) question = false).
    { apply not_true_is_false. intros H. now apply deps_satisfied_Forall in H. }
    assert (Hnil : bool_decide (q_dependencies question = []) = false).
    { apply bool_decide_eq_false. intros Hnil. apply Hnot. rewrite Hnil. constructor. }
    now rewrite Hsat, Hnil.
Qed.

(** *** The iteration counter *)

Lemma run_research_node_iteration researcher state state' :
  run_research_node researcher state = Ok state' ->
  iteration state' = iteration state /\ max_iterations state' = max_iterations state.
Proof.
  unfold run_research_node, research_node.
  destruct (Z.of_nat (length (plan state)) <=? current_question_index state).
  { intros [= <-]. split; reflexivity. }
  destruct (py_index (plan state) (current_question_index state)) as [q | e];
    [| discriminate].
  destruct (negb (bool_decide (q_dependencies q = []))
            && negb (deps_satisfied (completed_question_ids state) q)).
  { intros [= <-]. split; reflexivity. }
  destruct (researcher q) as [answer | e]; [| discriminate].
  intros [= <-]. split; reflexivity.
Qed.

Lemma plan_node_iteration questions state state' :
  plan_node questions state = Ok state' ->
  iteration state' = iteration state /\ max_iterations state' = max_iterations state.
Proof.
  unfold plan_node. destruct (depth_of_string (depth state)); [| discriminate].
  intros [= <-]. split; reflexivity.
Qed.

Lemma write_node_iteration written state state' :
  write_node written state = Ok state' ->
  iteration state' = iteration state /\ max_iterations state' = max_iterations state.
Proof.
  unfold write_node. destruct (depth_of_string (depth state)); [| discriminate].
  intros [= <-]. split; reflexivity.
Qed.

Lemma after_research_reflect state :
  after_research state = N_reflect -> iteration state < max_iterations state.
Proof.
  unfold after_research, should_continue_researching.
  destruct (max_iterations state <=? iteration state) eqn:H; [discriminate |].
  intros _. now apply Z.leb_gt.
Qed.

(** What one step does to the counter: only [reflect] changes it, by
    one; no node changes the budget; and [reflect] is entered only
    below the budget. *)
Lemma step_iteration n state n' state' :
  step (n, state) (n', state') ->
  max_iterations state' = max_iterations state /\
  iteration state' = (if bool_decide (n = N_reflect) then iteration state + 1
                      else iteration state) /\
  (n' = N_reflect -> iteration state' < max_iterations state').
Proof.
  intros Hstep.
  inversion Hstep as [s qs s1 Hp | s r s1 Hr | s r | s | s w s1 Hw]; subst; cbn.
  - apply plan_node_iteration in Hp as [-> ->]. repeat split. discriminate.
  - split; [| split].
    + now apply run_research_node_iteration in Hr as [_ ->].
    + now apply run_research_node_iteration in Hr as [-> _].
    + apply after_research_reflect.
  - repeat split. discriminate.
  - repeat split. discriminate.
  - apply write_node_iteration in Hw as [-> ->]. repeat split. discriminate.
Qed.

(** The invariant of a run with budget [N]. *)
Definition within_budget (N : Z) (c : Config) : Prop :=
  max_iterations (snd c) = N /\ iteration (snd c) <= N /\
  (fst c = N_reflect -> iteration (snd c) < N).

Lemma step_within_budget N c c' :
  within_budget N c -> step c c' -> within_budget N c'.
Proof.
  destruct c as [n state], c' as [n' state'].
  intros (Hmax & Hle & Hlt) Hstep.
  apply step_iteration in Hstep as (Hmax' & Hit & Hnext).
  unfold within_budget in *; cbn in *. repeat split.
  - lia.
  - case_bool_decide as Hn; [specialize (Hlt Hn) |]; lia.
  - intros Hn'. specialize (Hnext Hn'). lia.
Qed.

Definition iteration_le (c1 c2 : Config) : Prop :=
  iteration (snd c1) <= iteration (snd c2).

Lemma execution_bounds N c tr :
  within_budget N c -> execution c tr ->
  Forall (fun c' => iteration_le c c' /\ iteration (snd c') <= N) tr /\
  StronglySorted iteration_le tr /\
  Z.of_nat (entered N_reflect tr) <= N - iteration (snd c).
Proof.
  intros Hinv Hexec. induction Hexec as [c | c c' tr Hstep Hexec IH].
  - destruct Hinv as (Hmax & Hle & Hlt). unfold iteration_le, entered. cbn.
    repeat split.
    + constructor; [lia | constructor].
    + constructor; constructor.
    + case_bool_decide; cbn; [specialize (Hlt H) |]; lia.
  - pose proof (step_within_budget _ _ _ Hinv Hstep) as Hinv'.
    destruct (IH Hinv') as (Hall & Hsorted & Hcount).
    destruct c as [n state], c' as [n' state'].
    apply step_iteration in Hstep as (Hmax' & Hit & Hnext).
    destruct Hinv as (Hmax & Hle & Hlt).
    assert (Hmono : iteration state <= iteration state')
      by (case_bool_decide; lia).
    assert (Hall' : Forall (fun c' => iteration_le (n, state) c' /\
                                      iteration (snd c') <= N) tr).
    { eapply List.Forall_impl; [| exact Hall].
      intros c'' [H1 H2]. unfold iteration_le in *. cbn in *. split; lia. }
    repeat split.
    + constructor; [| exact Hall']. unfold iteration_le. cbn in *. lia.
    + constructor; [exact Hsorted |].
      eapply List.Forall_impl; [| exact Hall']. now intros c'' [H1 _].
    + unfold entered in *. cbn [List.filter fst snd] in *.
      case_bool_decide; cbn [length] in *; lia.
Qed.

(** C2. In every run of the workflow whose state starts with an
    iteration counter between [0] and the budget [max_iterations]
    (the command starts it at [0]), the counter never decreases from
    one configuration to a later one, never exceeds the budget, and
    the reflection node is entered at most [max_iterations] times,
    whatever the reflector answers. *)
Theorem C2_iteration_within_budget (state0 : ResearchState) (tr : list Config) :
  0 <= iteration state0 <= max_iterations state0 ->
  execution (N_plan, state0) tr ->
  StronglySorted (fun c1 c2 => iteration (snd c1) <= iteration (snd c2)) tr /\
  Forall (fun c => iteration (snd c) <= max_iterations state0) tr /\
  Z.of_nat (entered N_reflect tr) <= max_iterations state0.
Proof.
  intros Hstart Hexec.
  destruct (execution_bounds (max_iterations state0) (N_plan, state0) tr)
    as (Hall & Hsorted & Hcount); [| exact Hexec |].
  { unfold within_budget. cbn. repeat split; [lia | discriminate]. }
  repeat split.
  - exact Hsorted.
  - eapply List.Forall_impl; [| exact Hall]. now intros c [_ H].
  - cbn in Hcount. lia.
Qed.

(** Every run ends: with [k] iterations left, no run is longer than
    [2 k + 5] configurations (plan, then research and reflect in turn
    while the budget lasts, then research, verify, write, END). *)
Definition steps_left (N : Z) (c : Config) : Z :=
  let k := N - iteration (snd c) in
  match fst c with
  | N_plan => 2 * k + 5
  | N_research => 2 * k + 4
  | N_reflect => 2 * k + 3
  | N_verify => 3
  | N_write => 2
  | N_END => 1
  end.

Lemma execution_length_bounded N c tr :
  within_budget N c -> execution c tr ->
  Z.of_nat (length tr) <= steps_left N c.
Proof.
  intros Hinv Hexec. induction Hexec as [c | c c' tr Hstep Hexec IH].
  - destruct Hinv as (Hmax & Hle & Hlt). destruct c as [[] state];
      unfold steps_left; cbn in *; lia.
  - pose proof (step_within_budget _ _ _ Hinv Hstep) as Hinv'.
    specialize (IH Hinv').
    destruct Hinv' as (Hmax' & Hle' & Hlt').
    destruct c as [n state], c' as [n' state'].
    pose proof Hstep as Hkind.
    apply step_iteration in Hstep as (_ & Hit & _).
    cbn [length]. rewrite Nat2Z.inj_succ.
    unfold steps_left in *. cbn [fst snd] in *.
    inversion Hkind as [s qs s1 Hp | s r s1 Hr | s r | s | s w s1 Hw]; subst;
      case_bool_decide; try congruence; unfold after_research in *;
      try (destruct (should_continue_researching state');
           try specialize (Hlt' eq_refl));
      cbn in *; lia.
Qed.

(** The run function follows the steps of the graph. *)
Lemma step_fun_step co i c c' : step_fun co i c = Some c' -> step c c'.
Proof.
  destruct c as [n state]. destruct n; cbn.
  - destruct (plan_node (planner_plan co) state) eqn:H; [| discriminate].
    intros [= <-]. now apply step_plan with (questions := planner_plan co).
  - destruct (run_research_node (researcher_research co i) state) eqn:H;
      [| discriminate].
    intros [= <-]. now apply step_research with (researcher := researcher_research co i).
  - intros [= <-]. apply step_reflect.
  - intros [= <-]. apply step_verify.
  - destruct (write_node (writer_write co) state) eqn:H; [| discriminate].
    intros [= <-]. now apply step_write with (written := writer_write co).
  - discriminate.
Qed.

Lemma run_execution fuel co i c : execution c (run fuel co i c).
Proof.
  revert i c. induction fuel as [| fuel IH]; intros i c; cbn.
  - constructor.
  - destruct (step_fun co i c) as [c' |] eqn:H.
    + apply exec_step with (c' := c'); [now apply step_fun_step in H | apply IH].
    + constructor.
Qed.

(** *** A run with budget 1 and a reflector that never says complete *)

Definition question (id text : string) (dependencies : list string) : ResearchQuestion :=
  {| q_id := id; q_question := text; q_priority := 3; q_keywords := [];
     q_rationale := EmptyString; q_category := "general";
     q_dependencies := dependencies; q_order := 0;
     q_search_strategy := GENERAL; q_search_operators := [] |}.

Definition question_A : ResearchQuestion := question "A" "What is a tide?" [].
Definition question_B : ResearchQuestion := question "B" "What moves the sea?" [].
Definition question_C : ResearchQuestion :=
  question "C" "Why are there two tides a day?" ["A"; "B"].

Definition initial_state (budget : Z) : ResearchState :=
  {| job_id := "1f0c9a2e"; topic := "tides"; depth := "quick"; status := PENDING;
     plan := []; current_question_index := 0; completed_question_ids := [];
     findings := []; search_history := []; iteration := 0;
     max_iterations := budget; reflection := None; verified_findings := [];
     conflicts := []; report := Some EmptyString; report_sections := [];
     error := None |}.

Definition never_complete : Collaborators :=
  {| planner_plan := [question_A; question_B; question_C];
     researcher_research := fun _ q =>
       Ok ([ {| f_question := q_question q; f_source := "https://sea.example.org";
                f_title := "Tides"; f_content := "the moon pulls the sea";
                f_credibility := 1 # 2; f_timestamp := "2026-01-05T10:00:00" |} ],
           {| sr_query := q_question q; sr_provider := "tavily";
              sr_results_count := 1; sr_timestamp := "2026-01-05T10:00:00" |});
     reflector_reflect := fun _ =>
       {| r_is_complete := false; r_gaps := ["more"]; r_new_questions := [];
          r_reasoning := "not yet" |};
     writer_write := "report" |}.

Lemma C2_witness_budget_one :
  let tr := run 20 never_complete 0 (N_plan, initial_state 1) in
  map (fun c => (fst c, iteration (snd c))) tr
  = [(N_plan, 0); (N_research, 0); (N_reflect, 0); (N_research, 1);
     (N_verify, 1); (N_write, 1); (N_END, 1)] /\
  (StronglySorted (fun c1 c2 => iteration (snd c1) <= iteration (snd c2)) tr /\
   Forall (fun c => iteration (snd c) <= 1) tr /\
   Z.of_nat (entered N_reflect tr) <= 1).
Proof.
  split; [vm_compute; reflexivity |].
  apply (C2_iteration_within_budget (initial_state 1)
           (run 20 never_complete 0 (N_plan, initial_state 1))).
  - cbn. lia.
  - apply run_execution.
Defined.

(** The third question waits for the two it depends on: with only [A]
    completed the node moves the cursor past it and calls nobody; with
    [A] and [B] completed it calls the researcher on it. *)
Definition at_question_C (completed : list string) : ResearchState :=
  {| job_id := "1f0c9a2e"; topic := "tides"; depth := "quick"; status := RUNNING;
     plan := [question_A; question_B; question_C];
     current_question_index := 2; completed_question_ids := completed;
     findings := []; search_history := []; iteration := 0;
     max_iterations := 5; reflection := None; verified_findings := [];
     conflicts := []; report := Some EmptyString; report_sections := [];
     error := None |}.

(** The budget comes first: with the budget reached the decision is
    [verify] although the cursor is still within the plan; below the
    budget the same state continues. *)
Definition mid_plan (done budget : Z) : ResearchState :=
  {| job_id := "1f0c9a2e"; topic := "tides"; depth := "quick"; status := RUNNING;
     plan := [question_A; question_B; question_C];
     current_question_index := 1; completed_question_ids := ["A"];
     findings := []; search_history := []; iteration := done;
     max_iterations := budget; reflection := None; verified_findings := [];
     conflicts := []; report := Some EmptyString; report_sections := [];
     error := None |}.

Example budget_before_plan :
  should_continue_researching (mid_plan 2 2) = verify /\
  should_continue_researching (mid_plan 1 2) = continue.
Proof. split; reflexivity. Qed.

Example research_node_defers_C :
  research_node (at_question_C ["A"])
  = Return (Ok (set_current_question_index 3 (at_question_C ["A"]))).
Proof. reflexivity. Qed.

Example research_node_runs_C :
  research_node (at_question_C ["A"; "B"])
  = Research question_C (researched (at_question_C ["A"; "B"]) question_C).
Proof. reflexivity. Qed.

End WorkflowProps.

(** ** The fact checker (deep_thinking/agents/fact_checker.py) *)

Module FactCheckerProps.
Import Thinking FactChecker.

(** C9. When the search service returns an empty list for a claim,
    [_verify_single_claim] gives the claim the status unverified (so
    not confirmed) with the note "No search results found", whatever
    the language model would have answered; the value comes from the
    block itself and not from its exception handler, so the empty
    list counts as an answer and not as an error. *)
Theorem C9_no_results_is_unverified (json_loads : string -> option json)
    (judged : result string) (claim claim_type search_query : string) :
  let vc := _verify_single_claim json_loads (Ok []) judged claim claim_type search_query in
  status vc = UNVERIFIED /\
  status vc <> CONFIRMED /\
  notes vc = "No search results found" /\
  Thinking.claim vc = claim /\
  verify_single_claim_body json_loads (Ok []) judged claim = Ok vc.
Proof.
  cbn. repeat split. discriminate.
Qed.

(** The same function never raises: a search that fails, or a
    judgement that cannot be read, also ends as unverified. *)
Lemma verify_single_claim_search_failure (json_loads : string -> option json)
    (e : exn) (judged : result string) (claim claim_type search_query : string) :
  status (_verify_single_claim json_loads (Raise e) judged claim claim_type search_query)
  = UNVERIFIED.
Proof. reflexivity. Qed.

End FactCheckerProps.

(** ** The verification engine (deepsearch/agents/verifier.py) *)

Module VerifierProps.
Import State Verifier.

(** The measure of [_content_similar] is symmetric. *)
Lemma content_similar_sym (a b : string) :
  _content_similar a b = _content_similar b a.
Proof.
  unfold _content_similar.
  rewrite (orb_comm (bool_decide (size (PyStr.word_set a) = 0%nat))).
  rewrite (Z.min_comm (Z.of_nat (size (PyStr.word_set a)))).
  now rewrite (comm_L (∩) (PyStr.word_set a)).
Qed.

(** The findings filed under a question. *)
Fixpoint lookup_group (q : string) (groups : list (string * list Finding))
  : list Finding :=
  match groups with
  | [] => []
  | (q', fs) :: rest => if String.eqb q' q then fs else lookup_group q rest
  end.

Definition answers (q : string) (f : Finding) : bool := String.eqb (f_question f) q.

Lemma lookup_group_add f q groups :
  lookup_group q (group_add f groups) =
  if answers q f then lookup_group q groups ++ [f] else lookup_group q groups.
Proof.
  unfold answers. induction groups as [| [q' fs] rest IH]; cbn.
  - now destruct (String.eqb (f_question f) q).
  - destruct (String.eqb q' (f_question f)) eqn:Hf; cbn;
      destruct (String.eqb q' q) eqn:Hq; try exact IH.
    + apply String.eqb_eq in Hf, Hq. subst.
      now rewrite String.eqb_refl.
    + apply String.eqb_eq in Hf. subst. now rewrite Hq.
    + apply String.eqb_eq in Hq. subst.
      now rewrite String.eqb_sym, Hf.
Qed.

Lemma keys_group_add f groups :
  map fst (group_add f groups) =
  if existsb (String.eqb (f_question f)) (map fst groups) then map fst groups
  else map fst groups ++ [f_question f].
Proof.
  induction groups as [| [q' fs] rest IH]; cbn; [reflexivity |].
  rewrite (String.eqb_sym (f_question f) q').
  destruct (String.eqb q' (f_question f)); cbn; [reflexivity |].
  rewrite IH. now destruct (existsb _ _).
Qed.

Lemma group_by_snoc fs f :
  group_by_question (fs ++ [f]) = group_add f (group_by_question fs).
Proof. unfold group_by_question. now rewrite fold_left_app. Qed.

Lemma existsb_eqb_In (q : string) (l : list string) :
  existsb (String.eqb q) l = true <-> In q l.
Proof.
  rewrite existsb_exists. split.
  - intros (x & Hin & Heq). apply String.eqb_eq in Heq. now subst.
  - intros Hin. exists q. split; [exact Hin | apply String.eqb_refl].
Qed.

(** The dict has one entry per question, and the entry of a question
    holds the findings that answer it, in the order of the input. *)
Lemma group_by_question_spec fs :
  NoDup (map fst (group_by_question fs)) /\
  (forall q, In q (map fst (group_by_question fs)) <->
             exists f, In f fs /\ f_question f = q) /\
  (forall q, lookup_group q (group_by_question fs) = List.filter (answers q) fs).
Proof.
  induction fs as [| f fs IH] using rev_ind.
  - cbn. repeat split; try constructor; try easy.
    now intros (f & [] & _).
  - destruct IH as (Hnodup & Hkeys & Hlook).
    rewrite group_by_snoc, keys_group_add.
    repeat split.
    + destruct (existsb _ _) eqn:Hex; [exact Hnodup |].
      apply NoDup_app; repeat split; [exact Hnodup | | apply NoDup_singleton].
      intros q Hq ->%list_elem_of_singleton.
      apply list_elem_of_In, existsb_eqb_In in Hq. congruence.
    + intros Hin.
      assert (Hcases : In q (map fst (group_by_question fs)) \/ q = f_question f).
      { destruct (existsb _ _); [now left |].
        apply in_app_or in Hin as [H | [<- | []]]; [now left | now right]. }
      destruct Hcases as [H | ->].
      * apply Hkeys in H as (g & Hg & Hq). exists g. split; [| exact Hq].
        apply in_or_app. now left.
      * exists f. split; [| reflexivity]. apply in_or_app. right. now left.
    + intros (g & Hg & <-).
      apply in_app_or in Hg as [Hg | [<- | []]].
      * assert (H : In (f_question g) (map fst (group_by_question fs)))
          by (apply Hkeys; now exists g).
        destruct (existsb _ _); [exact H | apply in_or_app; now left].
      * destruct (existsb _ _) eqn:Hex.
        -- now apply existsb_eqb_In in Hex.
        -- apply in_or_app. right. now left.
    + intros q. rewrite lookup_group_add, Hlook, List.filter_app. cbn.
      destruct (answers q f); [reflexivity | now rewrite app_nil_r].
Qed.

Lemma lookup_group_entry q g groups :
  NoDup (map fst groups) -> In (q, g) groups -> lookup_group q groups = g.
Proof.
  induction groups as [| [q' fs] rest IH]; cbn; [easy |].
  intros Hnodup [[= -> ->] | Hin].
  - now rewrite String.eqb_refl.
  - apply NoDup_cons in Hnodup as [Hnot Hnodup].
    destruct (String.eqb q' q) eqn:Hq.
    + apply String.eqb_eq in Hq. subst. exfalso. apply Hnot.
      apply list_elem_of_In, in_map_iff. now exists (q, g).
    + now apply IH.
Qed.

Lemma lookup_group_In q groups :
  In q (map fst groups) -> In (q, lookup_group q groups) groups.
Proof.
  induction groups as [| [q' fs] rest IH]; cbn; [easy |].
  destruct (String.eqb q' q) eqn:Hq.
  - apply String.eqb_eq in Hq. subst. now left.
  - intros [-> | Hin]; [now rewrite String.eqb_refl in Hq |].
    right. now apply IH.
Qed.

(** The verdicts of [verify] on more than three findings: one for
    each finding, computed in the group of its question. *)
Lemma verify_In findings vf :
  (3 < length findings)%nat ->
  In vf (verify findings) <->
  exists f, In f findings /\
            vf = verify_one (List.filter (answers (f_question f)) findings) f.
Proof.
  intros Hlen. unfold verify.
  destruct findings as [| f0 rest] eqn:Hfs; [cbn in Hlen; lia |].
  rewrite <- Hfs in *. clear Hfs f0 rest.
  destruct (length findings <=? 3)%nat eqn:Hle; [apply Nat.leb_le in Hle; lia |].
  destruct (group_by_question_spec findings) as (Hnodup & Hkeys & Hlook).
  rewrite in_concat. split.
  - intros (l & Hl & Hvf).
    apply in_map_iff in Hl as ([q g] & <- & Hg). cbn in Hvf.
    apply in_map_iff in Hvf as (f & <- & Hf).
    pose proof (lookup_group_entry _ _ _ Hnodup Hg) as Hgq.
    rewrite Hlook in Hgq. subst g.
    apply filter_In in Hf as [Hf Hq]. apply String.eqb_eq in Hq.
    exists f. split; [exact Hf | now rewrite Hq].
  - intros (f & Hf & ->).
    set (q := f_question f).
    exists (_verify_group (List.filter (answers q) findings)). split.
    + apply in_map_iff. exists (q, List.filter (answers q) findings). split; [reflexivity |].
      rewrite <- Hlook. apply lookup_group_In, Hkeys. now exists f.
    + apply in_map_iff. exists f. split; [reflexivity |].
      apply filter_In. split; [exact Hf | apply String.eqb_refl].
Qed.

Lemma group_status_confirmed n :
  group_status n = confirmed <-> (0 < n)%nat.
Proof.
  unfold group_status. destruct n as [| [| n]]; cbn; split; try lia; try easy.
Qed.

Lemma group_status_unverified n :
  group_status n = unverified <-> n = 0%nat.
Proof.
  unfold group_status. destruct n as [| [| n]]; cbn; split; try lia; try easy.
Qed.

(** A corroborating partner of [f] in a list: another source, similar
    content. *)
Definition corroborates (f g : Finding) : bool :=
  negb (String.eqb (f_source g) (f_source f))
  && _content_similar (f_content f) (f_content g).

Lemma supporting_length group f :
  (0 < length (supporting group f))%nat <-> exists g, In g group /\ corroborates f g = true.
Proof.
  unfold supporting. rewrite length_map. split.
  - destruct (List.filter _ group) as [| g l] eqn:Hfil; cbn; [lia |].
    intros _. exists g.
    assert (Hg : In g (List.filter (corroborates f) group))
      by (unfold corroborates; rewrite Hfil; now left).
    now apply filter_In in Hg.
  - intros (g & Hg & Hc).
    assert (Hin : In g (List.filter (corroborates f) group))
      by (apply filter_In; now split).
    unfold corroborates in Hin.
    destruct (List.filter _ group); [easy | cbn; lia].
Qed.

Lemma verify_few findings v :
  (length findings <= 3)%nat -> In v (verify findings) ->
  exists f, In f findings /\ v = unverified_of f.
Proof.
  intros Hlen. unfold verify. destruct findings as [| f0 rest] eqn:Hfs; [easy |].
  rewrite <- Hfs in *. apply Nat.leb_le in Hlen. rewrite Hlen.
  intros (f & <- & Hf)%in_map_iff. now exists f.
Qed.

Lemma verify_covers findings f :
  In f findings -> exists v, In v (verify findings) /\ vf_finding v = f.
Proof.
  intros Hf. destruct (Nat.le_gt_cases (length findings) 3) as [Hle | Hgt].
  - exists (unverified_of f). split; [| reflexivity].
    unfold verify. destruct findings as [| f0 rest] eqn:Hfs; [easy |].
    rewrite <- Hfs in *. apply Nat.leb_le in Hle. rewrite Hle.
    apply in_map_iff. now exists f.
  - exists (verify_one (List.filter (answers (f_question f)) findings) f).
    split; [| reflexivity]. apply verify_In; [exact Hgt |]. now exists f.
Qed.

(** Three findings, as in the scenario of the specification: two
    answer the same question from different sources with most of
    their words in common, the third stands alone. *)
Definition finding_a : Finding :=
  {| f_question := "How do solar panels work?";
     f_source := "https://energy.example.org/solar";
     f_title := "Solar basics";
     f_content := "solar panels convert sunlight into electricity";
     f_credibility := 1 # 2;
     f_timestamp := "2026-01-05T10:00:00" |}.

Definition finding_b : Finding :=
  {| f_question := "How do solar panels work?";
     f_source := "https://science.example.com/pv";
     f_title := "Photovoltaics";
     f_content := "Solar panels turn sunlight into power";
     f_credibility := 1 # 2;
     f_timestamp := "2026-01-05T10:00:01" |}.

Definition finding_c : Finding :=
  {| f_question := "What do solar panels cost?";
     f_source := "https://prices.example.net/solar";
     f_title := "Prices";
     f_content := "a rooftop system costs several thousand dollars";
     f_credibility := 1 # 2;
     f_timestamp := "2026-01-05T10:00:02" |}.

Definition finding_d : Finding :=
  {| f_question := "How long do solar panels last?";
     f_source := "https://durability.example.net/solar";
     f_title := "Lifetime";
     f_content := "most modules are guaranteed for twenty five years";
     f_credibility := 1 # 2;
     f_timestamp := "2026-01-05T10:00:03" |}.

(** On the three findings of the scenario the two corroborating
    findings are not marked confirmed: a list of at most three
    findings is returned unverified as a whole. *)
Lemma C1_counterexample_three_findings :
  In finding_a [finding_a; finding_b; finding_c] /\
  In finding_b [finding_a; finding_b; finding_c] /\
  f_question finding_a = f_question finding_b /\
  f_source finding_a <> f_source finding_b /\
  _content_similar (f_content finding_a) (f_content finding_b) = true /\
  map (fun v => (vf_finding v, vf_verification_status v))
      (verify [finding_a; finding_b; finding_c])
  = [(finding_a, unverified); (finding_b, unverified); (finding_c, unverified)].
Proof.
  split; [cbn; tauto |]. split; [cbn; tauto |]. split; [reflexivity |].
  split; [discriminate |]. split; vm_compute; reflexivity.
Qed.

(** C1 (amended). Over a list of more than three findings, any two
    findings that answer the same question, come from different
    sources and have similar contents (the words they share are more
    than 30% of the smaller of the two word sets) are both marked
    confirmed. Over any list, a finding with no such partner is marked
    unverified. Over a list of at most three findings every finding is
    marked unverified. *)
Theorem C1_corroboration (findings : list Finding) :
  ((3 < length findings)%nat ->
   forall f g, In f findings -> In g findings ->
     f_question f = f_question g ->
     f_source f <> f_source g ->
     _content_similar (f_content f) (f_content g) = true ->
     (exists v, In v (verify findings) /\ vf_finding v = f) /\
     (exists v, In v (verify findings) /\ vf_finding v = g) /\
     (forall v, In v (verify findings) ->
                vf_finding v = f \/ vf_finding v = g ->
                vf_verification_status v = confirmed)) /\
  (forall f, In f findings ->
     (forall g, In g findings ->
                f_question g = f_question f ->
                f_source g <> f_source f ->
                _content_similar (f_content f) (f_content g) = false) ->
     (exists v, In v (verify findings) /\ vf_finding v = f) /\
     (forall v, In v (verify findings) -> vf_finding v = f ->
                vf_verification_status v = unverified)) /\
  ((length findings <= 3)%nat ->
   forall v, In v (verify findings) -> vf_verification_status v = unverified).
Proof.
  split; [| split].
  - intros Hlen f g Hf Hg Hq Hsrc Hsim.
    split; [now apply verify_covers |]. split; [now apply verify_covers |].
    assert (Hpair : forall a b, In a findings -> In b findings ->
              f_question a = f_question b -> f_source a <> f_source b ->
              _content_similar (f_content a) (f_content b) = true ->
              forall v, In v (verify findings) -> vf_finding v = a ->
                        vf_verification_status v = confirmed).
    { intros a b Ha Hb Hqab Hsab Hsimab v Hv Hva.
      apply verify_In in Hv as (a' & Ha' & ->); [| exact Hlen]. cbn in Hva. subst a'.
      cbn. apply group_status_confirmed, supporting_length.
      exists b. split.
      - apply filter_In. split; [exact Hb |]. unfold answers.
        apply String.eqb_eq. now symmetry.
      - unfold corroborates. rewrite Hsimab, andb_true_r.
        apply negb_true_iff, String.eqb_neq. congruence. }
    intros v Hv [Hvf | Hvg].
    + now apply (Hpair f g).
    + apply (Hpair g f); try easy; try congruence.
      now rewrite content_similar_sym.
  - intros f Hf Halone. split; [now apply verify_covers |].
    intros v Hv Hvf.
    destruct (Nat.le_gt_cases (length findings) 3) as [Hle | Hgt].
    + apply verify_few in Hv as (f' & _ & ->); [reflexivity | exact Hle].
    + apply verify_In in Hv as (f' & Hf' & ->); [| exact Hgt]. cbn in Hvf. subst f'.
      cbn. apply group_status_unverified.
      destruct (length (supporting _ f)) eqn:Hn; [reflexivity | exfalso].
      assert (Hpos : (0 < length (supporting
                (List.filter (answers (f_question f)) findings) f))%nat) by lia.
      apply supporting_length in Hpos as (g & Hg & Hc).
      apply filter_In in Hg as [Hg Hq]. apply String.eqb_eq in Hq.
      apply andb_true_iff in Hc as [Hsrc Hsim].
      apply negb_true_iff, String.eqb_neq in Hsrc.
      rewrite (Halone g Hg Hq Hsrc) in Hsim. discriminate.
  - intros Hle v Hv. now apply verify_few in Hv as (f & _ & ->).
Qed.

(** With a fourth finding in the list, the two corroborating findings
    of the scenario are confirmed and the others are not. *)
Example verify_four_findings :
  map (fun v => (vf_finding v, vf_verification_status v))
      (verify [finding_a; finding_c; finding_b; finding_d])
  = [(finding_a, confirmed); (finding_b, confirmed);
     (finding_c, unverified); (finding_d, unverified)].
Proof. vm_compute. reflexivity. Qed.

End VerifierProps.


(** ** The persistence store (deepsearch/storage.py) *)

Module StorageProps.
Import State Storage.

(** *** A dumped model validates to itself *)

Lemma as_list_str (l : list string) :
  Pydantic.as_list Pydantic.as_str (map JStr l) = Ok l.
Proof. induction l as [| s l IH]; cbn; [reflexivity | now rewrite IH]. Qed.

Lemma as_str_list_dump (l : list string) :
  Pydantic.as_str_list (Models.dump_strs l) = Ok l.
Proof. apply as_list_str. Qed.

Lemma strategy_of_value (s : SearchStrategy) :
  Planner.strategy_of_json (JStr (Planner.strategy_value s)) = Some s.
Proof. now destruct s. Qed.

Lemma status_of_text (s : VerificationStatus) :
  Models.as_verification_status (JStr (Models.status_text s)) = Ok s.
Proof. now destruct s. Qed.

Lemma status_of_value (s : ResearchStatus) :
  status_of_string (status_value s) = Ok s.
Proof. now destruct s. Qed.

Ltac roundtrip :=
  repeat progress
    (cbn; unfold Models.as_strategy;
     rewrite ?as_list_str, ?strategy_of_value, ?status_of_text);
  try reflexivity.

Lemma validate_dump_question fresh_id (q : ResearchQuestion) :
  Models.kwargs (Models.dump_question q) ≫= Models.validate_question fresh_id = Ok q.
Proof. destruct q. roundtrip. Qed.

Lemma validate_dump_finding now (f : Finding) :
  Models.kwargs (Models.dump_finding f) ≫= Models.validate_finding now = Ok f.
Proof. destruct f. roundtrip. Qed.

Lemma validate_dump_search_record now (r : SearchRecord) :
  Models.kwargs (Models.dump_search_record r) ≫= Models.validate_search_record now = Ok r.
Proof. destruct r. roundtrip. Qed.

Lemma validate_dump_section (s : Section_) :
  Models.kwargs (Models.dump_section s) ≫= Models.validate_section = Ok s.
Proof. destruct s. roundtrip. Qed.

Lemma validate_dump_verified now (v : VerifiedFinding) :
  Models.kwargs (Models.dump_verified v) ≫= Models.validate_verified now = Ok v.
Proof. destruct v as [[] [] sup con notes]; roundtrip. Qed.

Lemma validate_dump_conflict now (c : Conflict) :
  Models.kwargs (Models.dump_conflict c) ≫= Models.validate_conflict now = Ok c.
Proof. destruct c as [[] [] d [r |]]; roundtrip. Qed.

Lemma validate_nested_question fresh_id (q : ResearchQuestion) :
  Models.nested (Models.dump_question q) ≫= Models.validate_question fresh_id = Ok q.
Proof. destruct q. roundtrip. Qed.

Lemma as_questions_dump fresh_id (qs : list ResearchQuestion) :
  Models.as_questions fresh_id (JList (map Models.dump_question qs)) = Ok qs.
Proof.
  unfold Models.as_questions. induction qs as [| q qs IH]; [reflexivity |].
  cbn [map Pydantic.as_list]. cbv beta.
  rewrite validate_nested_question. unfold mbind at 1, result_bind at 1.
  rewrite IH. reflexivity.
Qed.

Lemma validate_dump_reflection fresh_id (r : ReflectionResult) :
  Models.kwargs (Models.dump_reflection r) ≫= Models.validate_reflection fresh_id = Ok r.
Proof.
  destruct r as [c gaps qs reasoning].
  unfold Models.dump_reflection, Models.kwargs, Models.validate_reflection.
  cbn [mbind result_bind r_is_complete r_gaps r_new_questions r_reasoning].
  change (Json.get "new_questions" _ _) with (JList (map Models.dump_question qs)).
  rewrite as_questions_dump. cbn. now rewrite as_list_str.
Qed.

(** A column written by [serialize_list] reads back as the list. *)
Lemma models_of_serialize_list {A : Type} (dump : A -> json)
    (validate : list (string * json) -> result A) (items : list A) :
  (forall x, Models.kwargs (dump x) ≫= validate = Ok x) ->
  Models.models_of validate (loads_or_empty (Some (serialize_list dump items))) = Ok items.
Proof.
  intros Hrt. unfold Models.models_of, serialize_list, loads_or_empty.
  destruct items as [| x0 rest] eqn:Hitems; [reflexivity |].
  rewrite <- Hitems. clear Hitems x0 rest. cbn.
  induction items as [| x items IH]; [reflexivity |].
  cbn. specialize (Hrt x). cbn in Hrt. rewrite Hrt. cbn.
  now rewrite IH.
Qed.

Lemma sqlite_int_Ok z z' : sqlite_int z = Ok z' -> z' = z.
Proof. unfold sqlite_int. destruct (_ && _); [now intros [= <-] | discriminate]. Qed.

(** The state [load_state] builds from a row that [save_state] has just
    written for [state]: the state itself, but for the columns the
    UPDATE leaves alone (topic, depth, max_iterations) and the completed
    ids, which the table does not hold. *)
Definition reloaded (state : ResearchState) (row : Row) : ResearchState :=
  {| job_id := col_id row;
     topic := col_topic row;
     depth := col_depth row;
     status := status state;
     plan := plan state;
     current_question_index := current_question_index state;
     completed_question_ids := [];
     findings := findings state;
     search_history := search_history state;
     iteration := iteration state;
     max_iterations := col_max_iterations row;
     reflection := reflection state;
     verified_findings := verified_findings state;
     conflicts := conflicts state;
     report := report state;
     report_sections := report_sections state;
     error := error state |}.

Lemma row_to_state_updated CURRENT_TIMESTAMP fresh_id now state row :
  _row_to_state fresh_id now
    (updated_row CURRENT_TIMESTAMP state (current_question_index state)
       (iteration state) row)
  = Ok (reloaded state row).
Proof.
  unfold _row_to_state, updated_row, reloaded.
  cbn [col_id col_topic col_depth col_status col_plan_json col_current_question_index
       col_findings_json col_search_history_json col_iteration col_max_iterations
       col_reflection_json col_verified_findings_json col_conflicts_json col_report
       col_report_sections_json col_error].
  rewrite status_of_value.
  rewrite (models_of_serialize_list _ _ _ (validate_dump_question fresh_id)).
  rewrite (models_of_serialize_list _ _ _ (validate_dump_finding now)).
  rewrite (models_of_serialize_list _ _ _ (validate_dump_search_record now)).
  rewrite (models_of_serialize_list _ _ _ (validate_dump_verified now)).
  rewrite (models_of_serialize_list _ _ _ (validate_dump_conflict now)).
  rewrite (models_of_serialize_list _ _ _ validate_dump_section).
  destruct (reflection state) as [r |]; cbn [option_map mbind result_bind].
  - pose proof (validate_dump_reflection fresh_id r) as Hr.
    cbn [mbind result_bind] in Hr. now rewrite Hr.
  - reflexivity.
Qed.

Lemma save_state_Ok CURRENT_TIMESTAMP db state db' :
  save_state CURRENT_TIMESTAMP db state = Ok db' ->
  db' = alter (updated_row CURRENT_TIMESTAMP state (current_question_index state)
                 (iteration state)) (job_id state) db.
Proof.
  unfold save_state.
  destruct (sqlite_int (current_question_index state)) as [idx | e] eqn:Hidx;
    [| discriminate].
  destruct (sqlite_int (iteration state)) as [it | e] eqn:Hit; [| discriminate].
  apply sqlite_int_Ok in Hidx, Hit. subst. now intros [= <-].
Qed.

(** [save_state] returns (it does not raise) exactly when the two
    integers it binds fit SQLite's INTEGER. *)
Lemma save_state_returns CURRENT_TIMESTAMP db state :
  - 2 ^ 63 <= current_question_index state < 2 ^ 63 ->
  - 2 ^ 63 <= iteration state < 2 ^ 63 ->
  exists db', save_state CURRENT_TIMESTAMP db state = Ok db'.
Proof.
  intros Hidx Hit. unfold save_state, sqlite_int.
  assert (H1 : (- 2 ^ 63 <=? current_question_index state)
               && (current_question_index state <? 2 ^ 63) = true)
    by (apply andb_true_iff; split; [apply Z.leb_le | apply Z.ltb_lt]; lia).
  assert (H2 : (- 2 ^ 63 <=? iteration state) && (iteration state <? 2 ^ 63) = true)
    by (apply andb_true_iff; split; [apply Z.leb_le | apply Z.ltb_lt]; lia).
  rewrite H1. cbn [mbind result_bind]. rewrite H2. cbn [mbind result_bind]. eauto.
Qed.

(** [save_state] adds no row and removes none. *)
Lemma save_state_dom CURRENT_TIMESTAMP (db : Table) state (db' : Table) :
  save_state CURRENT_TIMESTAMP db state = Ok db' -> dom db' = dom db.
Proof.
  intros ->%save_state_Ok. apply set_eq. intros k.
  rewrite !elem_of_dom, lookup_alter. case_decide as Hk; [| reflexivity].
  subst k. now rewrite fmap_is_Some.
Qed.

Lemma load_after_save CURRENT_TIMESTAMP fresh_id now (db : Table) state row (db' : Table) :
  db !! job_id state = Some row ->
  save_state CURRENT_TIMESTAMP db state = Ok db' ->
  load_state fresh_id now db' (job_id state) = Ok (Some (reloaded state row)).
Proof.
  intros Hrow ->%save_state_Ok. unfold load_state.
  rewrite lookup_alter_eq, Hrow. cbn [fmap option_fmap option_map].
  now rewrite row_to_state_updated.
Qed.

(** C3. When the table holds a record for the job id of a state and
    [save_state] has saved the state, [load_state] with the same job id
    returns a state with the same plan length, the same iteration count
    and the same status (indeed the same plan). *)
Theorem C3_save_load_round_trip CURRENT_TIMESTAMP fresh_id now
    (db : Table) state (db' : Table) :
  is_Some (db !! job_id state) ->
  save_state CURRENT_TIMESTAMP db state = Ok db' ->
  exists state',
    load_state fresh_id now db' (job_id state) = Ok (Some state') /\
    length (plan state') = length (plan state) /\
    iteration state' = iteration state /\
    status state' = status state /\
    plan state' = plan state.
Proof.
  intros [row Hrow] Hsave. exists (reloaded state row).
  split; [now apply load_after_save with (CURRENT_TIMESTAMP := CURRENT_TIMESTAMP) (db := db) |].
  repeat split.
Qed.

(** C10. When the table holds no record for the job id of a state (no
    [create_job] inserted one), [save_state] leaves the table as it
    was: its UPDATE matches no row and creates none (and when it
    raises, it has written nothing); [load_state] with that job id
    then returns [None], so nothing of the saved state comes back. *)
Theorem C10_save_without_record CURRENT_TIMESTAMP fresh_id now
    (db : Table) state :
  db !! job_id state = None ->
  (forall db', save_state CURRENT_TIMESTAMP db state = Ok db' ->
     db' = db /\ load_state fresh_id now db' (job_id state) = Ok None) /\
  load_state fresh_id now db (job_id state) = Ok None.
Proof.
  intros Hnone.
  assert (Hload : load_state fresh_id now db (job_id state) = Ok None)
    by (unfold load_state; now rewrite Hnone).
  split; [| exact Hload].
  intros db' ->%save_state_Ok.
  assert (Hsame : alter (updated_row CURRENT_TIMESTAMP state
                           (current_question_index state) (iteration state))
                        (job_id state) db = db).
  { apply map_eq. intros k. rewrite lookup_alter.
    case_decide as Hk; [| reflexivity]. subst k. now rewrite Hnone. }
  rewrite Hsame. now split.
Qed.

(** A record is there once [create_job] returned its id. *)
Lemma create_job_inserts new_job_id CURRENT_TIMESTAMP (db : Table)
    topic depth max_iterations job_id (db' : Table) :
  create_job new_job_id CURRENT_TIMESTAMP db topic depth max_iterations = Ok (job_id, db') ->
  job_id = new_job_id /\ db !! job_id = None /\ is_Some (db' !! job_id).
Proof.
  unfold create_job. destruct (sqlite_int max_iterations); [| discriminate].
  cbn [mbind result_bind].
  destruct (db !! new_job_id) eqn:Hfree; [discriminate |].
  intros [= <- <-]. repeat split; [exact Hfree |].
  rewrite lookup_insert_eq. eauto.
Qed.

(** *** A job that is created, saved and loaded; and a save without a
    record *)

Definition created : Table :=
  match create_job "1f0c9a2e" "2026-01-05 10:00:00" ∅ "tides" "quick" 5 with
  | Ok (_, db) => db
  | Raise _ => ∅
  end.

Definition running_state (id : string) : ResearchState :=
  {| job_id := id; topic := "tides"; depth := "quick"; status := PAUSED;
     plan := [WorkflowProps.question_A; WorkflowProps.question_B;
              WorkflowProps.question_C];
     current_question_index := 2; completed_question_ids := ["A"; "B"];
     findings := [VerifierProps.finding_a]; search_history := [];
     iteration := 1; max_iterations := 5;
     reflection := Some {| r_is_complete := false; r_gaps := ["more"];
                           r_new_questions := [WorkflowProps.question_C];
                           r_reasoning := "not yet" |};
     verified_findings := [Verifier.unverified_of VerifierProps.finding_a];
     conflicts := []; report := Some EmptyString; report_sections := [];
     error := None |}.

Definition saved (db : Table) (state : ResearchState) : Table :=
  match save_state "2026-01-05 10:05:00" db state with
  | Ok db' => db'
  | Raise _ => db
  end.

Lemma C3_witness_created_job :
  is_Some (created !! "1f0c9a2e") /\
  save_state "2026-01-05 10:05:00" created (running_state "1f0c9a2e")
    = Ok (saved created (running_state "1f0c9a2e")) /\
  exists state',
    load_state "q_0" "2026-01-05T10:06:00" (saved created (running_state "1f0c9a2e"))
      "1f0c9a2e" = Ok (Some state') /\
    length (plan state') = 3%nat /\
    iteration state' = 1 /\
    status state' = PAUSED /\
    plan state' = plan (running_state "1f0c9a2e").
Proof.
  assert (H1 : is_Some (created !! job_id (running_state "1f0c9a2e")))
    by (vm_compute; eauto).
  assert (H2 : save_state "2026-01-05 10:05:00" created (running_state "1f0c9a2e")
               = Ok (saved created (running_state "1f0c9a2e")))
    by (vm_compute; reflexivity).
  split; [exact H1 |]. split; [exact H2 |].
  exact (C3_save_load_round_trip "2026-01-05 10:05:00" "q_0" "2026-01-05T10:06:00"
           created (running_state "1f0c9a2e")
           (saved created (running_state "1f0c9a2e")) H1 H2).
Defined.

Lemma C10_witness_unknown_job :
  created !! "0badc0de" = None /\
  save_state "2026-01-05 10:05:00" created (running_state "0badc0de")
    = Ok (saved created (running_state "0badc0de")) /\
  saved created (running_state "0badc0de") = created /\
  load_state "q_0" "2026-01-05T10:06:00" (saved created (running_state "0badc0de"))
    "0badc0de" = Ok None.
Proof.
  assert (H1 : created !! job_id (running_state "0badc0de") = None)
    by (vm_compute; reflexivity).
  assert (H2 : save_state "2026-01-05 10:05:00" created (running_state "0badc0de")
               = Ok (saved created (running_state "0badc0de")))
    by (vm_compute; reflexivity).
  split; [exact H1 |]. split; [exact H2 |].
  exact (proj1 (C10_save_without_record "2026-01-05 10:05:00" "q_0"
                  "2026-01-05T10:06:00" created (running_state "0badc0de") H1)
           (saved created (running_state "0badc0de")) H2).
Defined.

End StorageProps.


(** ** The phase state machine (deep_thinking) *)

Module ThinkingProps.
Import Thinking.

(** *** The phases an operation assigns

    [assigns m task L]: run on [task], the operation [m] leaves the task
    in the last phase it assigned (or the phase it had); when it returns
    it has assigned the phases [L], in order, and when it raises it has
    assigned a prefix of [L]. *)
Definition assigns {A : Type} (m : Op A) (task : ThinkingTask)
    (L : list ThinkingPhase) : Prop :=
  let '(task', assigned, r) := m task in
  phase task' = List.last assigned (phase task) /\
  match r with
  | Ok _ => assigned = L
  | Raise _ => assigned `prefix_of` L
  end.

Lemma last_app_default {A : Type} (l1 l2 : list A) (d : A) :
  List.last (l1 ++ l2) d = List.last l2 (List.last l1 d).
Proof.
  destruct l2 as [| a l2 _] using rev_ind.
  - now rewrite app_nil_r.
  - now rewrite app_assoc, !List.last_last.
Qed.

Lemma assigns_bind {A B : Type} (m : Op A) (k : A -> Op B) task L1 L2 L :
  L = L1 ++ L2 ->
  assigns m task L1 ->
  (forall a task1, phase task1 = List.last L1 (phase task) -> assigns (k a) task1 L2) ->
  assigns (op_bind m k) task L.
Proof.
  intros -> Hm Hk. unfold assigns, op_bind in *.
  destruct (m task) as [[task1 assigned1] [a | e]]; destruct Hm as [Hphase Hm].
  - subst assigned1. specialize (Hk a task1 Hphase).
    destruct (k a task1) as [[task2 assigned2] r]. destruct Hk as [Hphase2 Hr].
    split.
    + now rewrite last_app_default, <- Hphase.
    + destruct r; [now subst | now apply prefix_app].
  - split; [exact Hphase | now apply prefix_app_r].
Qed.

Lemma assigns_get_bind {B : Type} (k : ThinkingTask -> Op B) task L :
  assigns (k task) task L -> assigns (op_bind get k) task L.
Proof.
  unfold assigns, op_bind, get. now destruct (k task task) as [[task2 assigned2] r].
Qed.

Lemma assigns_ret {A : Type} (a : A) task : assigns (op_ret a) task [].
Proof. now split. Qed.

Lemma assigns_await {A : Type} (r : result A) task : assigns (await r) task [].
Proof. unfold assigns, await. split; [reflexivity |]. destruct r; [reflexivity | apply prefix_nil]. Qed.

Lemma assigns_assign (f : ThinkingTask -> ThinkingTask) task :
  phase (f task) = phase task -> assigns (assign f) task [].
Proof. now split. Qed.

Lemma assigns_set_phase p task : assigns (set_phase p) task [p].
Proof. now split. Qed.

(** An operation that leaves the phase alone fits in front of any other. *)
Lemma assigns_then {A B : Type} (m : Op A) (k : A -> Op B) task L :
  assigns m task [] ->
  (forall a task1, phase task1 = phase task -> assigns (k a) task1 L) ->
  assigns (op_bind m k) task L.
Proof. intros Hm Hk. now apply assigns_bind with (L1 := []) (L2 := L). Qed.

Lemma assigns_when_silent (b : bool) (m : Op unit) task :
  assigns m task [] -> assigns (when b m) task [].
Proof. destruct b; [easy | intros _; apply assigns_ret]. Qed.

Create HintDb phases.
#[local] Hint Resolve assigns_ret assigns_await assigns_set_phase : phases.
#[local] Hint Extern 1 (assigns (assign _) _ _) =>
  apply assigns_assign; reflexivity : phases.

Ltac silent_step :=
  apply assigns_then; [auto with phases | intros ? ? ?].

Lemma anchor_single_task_assigns domain task :
  assigns (anchor_single_task domain) task [].
Proof.
  unfold anchor_single_task.
  apply assigns_get_bind. apply assigns_then.
  - apply assigns_when_silent. destruct domain; auto with phases.
  - intros _ task1 H1. apply assigns_get_bind.
    destruct domain, (anchors task1); auto with phases.
Qed.

Lemma run_phase_a_b_assigns domain generated task :
  assigns (run_phase_a_b domain generated) task [ANCHORED; GENERATED].
Proof.
  unfold run_phase_a_b.
  apply assigns_then; [apply anchor_single_task_assigns | intros ? ? ?].
  apply assigns_bind with (L1 := [ANCHORED]) (L2 := [GENERATED]);
    [reflexivity | auto with phases | intros ? ? ?].
  silent_step. silent_step. auto with phases.
Qed.

Lemma run_phase_c_assigns critiqued council task :
  assigns (run_phase_c critiqued council) task [CRITIQUED].
Proof.
  unfold run_phase_c. silent_step. destruct a as [[critique_points confidence] should_council].
  silent_step. apply assigns_then.
  - apply assigns_when_silent. silent_step. silent_step. auto with phases.
  - intros ? ? ?.
    apply assigns_bind with (L1 := [CRITIQUED]) (L2 := []);
      [reflexivity | auto with phases | intros ? ? ?]. auto with phases.
Qed.

Lemma run_phase_d_assigns checked oppositions task :
  assigns (run_phase_d checked oppositions) task [VERIFIED].
Proof.
  unfold run_phase_d. silent_step. silent_step. silent_step. silent_step.
  auto with phases.
Qed.

Lemma run_phase_e_assigns parse_float today synthesized task :
  assigns (run_phase_e parse_float today synthesized) task [SYNTHESIZED].
Proof.
  unfold run_phase_e. silent_step. apply assigns_then.
  - destruct (rsplit_once _ a) as [[before after] |]; [| auto with phases].
    silent_step. destruct (parse_float _); auto with phases.
  - intros ? ? ?.
    apply assigns_bind with (L1 := [SYNTHESIZED]) (L2 := []);
      [reflexivity | auto with phases | intros ? ? ?]. auto with phases.
Qed.

(** *** The task loop *)

(** The phases the loop body still has to assign to a task that it
    finds in phase [p]. *)
Definition remaining (p : ThinkingPhase) : list ThinkingPhase :=
  match p with
  | PENDING | ANCHORED => [ANCHORED; GENERATED; CRITIQUED; VERIFIED; SYNTHESIZED]
  | GENERATED => [CRITIQUED; VERIFIED; SYNTHESIZED]
  | CRITIQUED => [VERIFIED; SYNTHESIZED]
  | VERIFIED => [SYNTHESIZED]
  | SYNTHESIZED => []
  end.

Ltac read_guard :=
  apply assigns_get_bind;
  repeat match goal with
         | H : phase ?t = _ |- context [phase ?t] => rewrite H
         end;
  repeat (case_bool_decide; try congruence); cbn [orb when].

Ltac taken lem :=
  eapply assigns_bind; [ | apply lem | ];
  [reflexivity | let H := fresh "Hphase" in intros ? ? H; cbn in H].

Ltac skipped :=
  apply assigns_then;
  [apply assigns_ret | let H := fresh "Hphase" in intros ? ? H; cbn in H].

Lemma run_phase_c_unit critiqued council task :
  assigns (op_bind (run_phase_c critiqued council) (fun _ => op_ret tt)) task [CRITIQUED].
Proof.
  eapply assigns_bind with (L2 := []); [ | apply run_phase_c_assigns | ];
    [reflexivity | intros ? ? ?; apply assigns_ret].
Qed.

Lemma process_task_assigns domain parse_float today a task :
  assigns (process_task domain parse_float today a) task (remaining (phase task)).
Proof.
  unfold process_task.
  destruct (phase task) eqn:Hp; cbn [remaining].
  - read_guard. taken run_phase_a_b_assigns.
    read_guard. taken run_phase_c_unit.
    read_guard. taken run_phase_d_assigns.
    read_guard. apply run_phase_e_assigns.
  - read_guard. taken run_phase_a_b_assigns.
    read_guard. taken run_phase_c_unit.
    read_guard. taken run_phase_d_assigns.
    read_guard. apply run_phase_e_assigns.
  - read_guard. skipped.
    read_guard. taken run_phase_c_unit.
    read_guard. taken run_phase_d_assigns.
    read_guard. apply run_phase_e_assigns.
  - read_guard. skipped.
    read_guard. skipped.
    read_guard. taken run_phase_d_assigns.
    read_guard. apply run_phase_e_assigns.
  - read_guard. skipped.
    read_guard. skipped.
    read_guard. skipped.
    read_guard. apply run_phase_e_assigns.
  - read_guard. skipped.
    read_guard. skipped.
    read_guard. skipped.
    read_guard. apply assigns_ret.
Qed.

(** The fixed order of the phases; [rank] is the place in it. *)
Definition pipeline_order : list ThinkingPhase :=
  [PENDING; ANCHORED; GENERATED; CRITIQUED; VERIFIED; SYNTHESIZED].

Lemma rank_in_order (p : ThinkingPhase) : pipeline_order !! rank p = Some p.
Proof. now destruct p. Qed.

(** An assignment keeps the phase or moves it to the next one of the
    order. *)
Definition forward (p q : ThinkingPhase) : Prop :=
  q = p \/ rank q = S (rank p).

Lemma prefix_cons_cases {A : Type} (l : list A) (x : A) (L : list A) :
  l `prefix_of` (x :: L) -> l = [] \/ exists l', l = x :: l' /\ l' `prefix_of` L.
Proof.
  intros [k Hk]. destruct l as [| y l]; [now left | right].
  cbn in Hk. injection Hk as <- ->. exists l. split; [reflexivity | now exists k].
Qed.

Ltac enumerate_prefixes H :=
  repeat (apply prefix_cons_cases in H as [-> | (? & -> & H)]);
  try (apply prefix_nil_inv in H as ->).

Ltac check_chain :=
  repeat first [ apply SSorted_nil | apply SSorted_cons
               | apply Sorted_nil | apply Sorted_cons
               | apply HdRel_nil | apply HdRel_cons
               | apply List.Forall_nil | apply List.Forall_cons ];
  try (unfold forward; cbn; first [lia | left; reflexivity | right; reflexivity]).

(** C7. While the task loop processes a task, the values of the task's
    phase, in the order in which they are observed (the phase the task
    had, then each phase assigned), never decrease in the order
    PENDING, ANCHORED, GENERATED, CRITIQUED, VERIFIED, SYNTHESIZED; each
    assignment keeps the phase or moves it to the next phase of that
    order; the task ends in the last phase assigned; and when no
    collaborator raises, it ends SYNTHESIZED. *)
Theorem C7_phase_moves_forward (domain : option DomainPlugin)
    (parse_float : string -> option Q) (today : string) (a : Answers)
    (task : ThinkingTask) :
  let run := process_task domain parse_float today a task in
  let observed := observed_phases (process_task domain parse_float today a) task in
  StronglySorted (fun p q => (rank p <= rank q)%nat) observed /\
  Sorted forward observed /\
  phase (fst (fst run)) = List.last observed (phase task) /\
  (forall u, snd run = Ok u -> phase (fst (fst run)) = SYNTHESIZED).
Proof.
  cbv zeta. unfold observed_phases.
  pose proof (process_task_assigns domain parse_float today a task) as H.
  unfold assigns in H.
  destruct (process_task domain parse_float today a task) as [[task' assigned] r].
  cbn [fst snd]. destruct H as [Hlast Hr].
  assert (Hlast' : List.last (phase task :: assigned) (phase task)
                   = List.last assigned (phase task)).
  { now destruct assigned. }
  rewrite Hlast', Hlast. clear Hlast' Hlast.
  destruct r as [[] | e].
  - subst assigned. destruct (phase task); cbn [remaining].
    all: repeat split; try (intros; reflexivity); check_chain.
  - destruct (phase task); cbn [remaining] in Hr; enumerate_prefixes Hr.
    all: repeat split; try discriminate; check_chain.
Qed.

(** Each phase operation, called as the loop calls it (under the guard
    on the phase the task has), moves the phase forward only. *)
Lemma phase_operations_forward (domain : option DomainPlugin)
    (parse_float : string -> option Q) (today : string) (a : Answers)
    (task : ThinkingTask) :
  (phase task = PENDING \/ phase task = ANCHORED ->
   Sorted forward (observed_phases (run_phase_a_b domain (generated a)) task)) /\
  (phase task = GENERATED ->
   Sorted forward (observed_phases (run_phase_c (critiqued a) (council a)) task)) /\
  (phase task = CRITIQUED ->
   Sorted forward (observed_phases (run_phase_d (checked a) (oppositions a)) task)) /\
  (phase task = VERIFIED ->
   Sorted forward (observed_phases (run_phase_e parse_float today (synthesized a)) task)).
Proof.
  unfold observed_phases.
  pose proof (run_phase_a_b_assigns domain (generated a) task) as Hab.
  pose proof (run_phase_c_assigns (critiqued a) (council a) task) as Hc.
  pose proof (run_phase_d_assigns (checked a) (oppositions a) task) as Hd.
  pose proof (run_phase_e_assigns parse_float today (synthesized a) task) as He.
  unfold assigns in *.
  destruct (run_phase_a_b _ _ task) as [[t1 l1] r1], (run_phase_c _ _ task) as [[t2 l2] r2],
    (run_phase_d _ _ task) as [[t3 l3] r3], (run_phase_e _ _ _ task) as [[t4 l4] r4].
  cbn [fst snd].
  destruct Hab as [_ Hab], Hc as [_ Hc], Hd as [_ Hd], He as [_ He].
  repeat split.
  - intros [-> | ->]; destruct r1; [subst l1 | enumerate_prefixes Hab
                                   | subst l1 | enumerate_prefixes Hab]; check_chain.
  - intros ->; destruct r2; [subst l2 | enumerate_prefixes Hc]; check_chain.
  - intros ->; destruct r3; [subst l3 | enumerate_prefixes Hd]; check_chain.
  - intros ->; destruct r4; [subst l4 | enumerate_prefixes He]; check_chain.
Qed.

(** A task taken through the loop body from PENDING: with every
    collaborator answering, it passes through all the phases; when the
    critique raises, it stays GENERATED. *)
Definition pending_task : ThinkingTask :=
  {| id := "t1"; topic := "tides"; anchors := []; phase := PENDING;
     confidence := None; unverified_claims := []; council_triggered := false;
     completed_at := None; anchor_output := None; generation_output := None;
     critique_points := []; council_positions := []; verified_claims := [];
     synthesis := None |}.

Definition all_answer : Answers :=
  {| generated := Ok "The moon pulls the sea.";
     critiqued := Ok ([ {| severity := "low"; critique := "no sources";
                           suggestion := "cite one" |} ], Some (1 # 2), true);
     council := Ok [];
     checked := Ok ([], []);
     oppositions := Ok ["tides also depend on the sun"];
     synthesized := Ok "The moon and the sun pull the sea. CONFIDENCE: 0.8" |}.

Definition critique_fails : Answers :=
  {| generated := Ok "The moon pulls the sea.";
     critiqued := Raise ServiceError;
     council := Ok [];
     checked := Ok ([], []);
     oppositions := Ok [];
     synthesized := Ok "unused" |}.

Example process_task_all_phases :
  observed_phases (process_task None (fun _ => Some (4 # 5)) "2026-01-05" all_answer)
    pending_task
  = [PENDING; ANCHORED; GENERATED; CRITIQUED; VERIFIED; SYNTHESIZED].
Proof. reflexivity. Qed.

Example process_task_critique_fails :
  observed_phases (process_task None (fun _ => None) "2026-01-05" critique_fails)
    pending_task
  = [PENDING; ANCHORED; GENERATED] /\
  snd (process_task None (fun _ => None) "2026-01-05" critique_fails pending_task)
  = Raise ServiceError.
Proof. split; reflexivity. Qed.

(** Outside the loop's guards an operation is not monotone: the
    operations assign their phase whatever phase the task has. *)
Example run_phase_c_unguarded (task : ThinkingTask) :
  phase task = SYNTHESIZED ->
  observed_phases (run_phase_c (Ok ([], None, false)) (Ok [])) task
  = [SYNTHESIZED; CRITIQUED].
Proof. intros H. unfold observed_phases. cbn. now rewrite H. Qed.

End ThinkingProps.


(** ** The graph builder (deepsearch/agents/planner.py) *)

Module PlannerProps.
Import State Planner.

(** *** The traversal of [_sort_questions] *)

Section Visit.

Variable question_map : gmap string ResearchQuestion.

(** Every question is filed under its own id. *)
Hypothesis keyed : forall id q, question_map !! id = Some q -> q_id q = id.

(** [st'] continues [st]: questions of the map were appended to the
    result, and their ids were added to [visited]. *)
Definition extends (st st' : visit_state) : Prop :=
  exists new,
    sorted st' = sorted st ++ new /\
    Forall (fun q => question_map !! q_id q = Some q) new /\
    visited st' = visited st ∪ list_to_set (map q_id new).

Lemma extends_same st st' :
  sorted st' = sorted st -> visited st' = visited st -> extends st st'.
Proof.
  intros Hs Hv. exists []. rewrite app_nil_r, Hs, Hv.
  repeat split; [constructor | set_solver].
Qed.

Lemma extends_refl st : extends st st.
Proof. now apply extends_same. Qed.

Lemma extends_trans st1 st2 st3 : extends st1 st2 -> extends st2 st3 -> extends st1 st3.
Proof.
  intros (n1 & Hs1 & Hf1 & Hv1) (n2 & Hs2 & Hf2 & Hv2).
  exists (n1 ++ n2). repeat split.
  - now rewrite Hs2, Hs1, app_assoc.
  - now apply Forall_app.
  - rewrite Hv2, Hv1, map_app, list_to_set_app_L. set_solver.
Qed.

(** The ids of the map that are not on the path: a nested call has one
    less. *)
Definition room (p : gset string) : nat := size (dom question_map ∖ p).

Definition visit_ok (fuel : nat) : Prop :=
  forall q_id st,
    (room (path st) < fuel)%nat ->
    exists st',
      visit fuel question_map q_id st = Some st' /\
      path st' = path st /\
      extends st st' /\
      (q_id ∈ dom question_map -> q_id ∉ path st -> q_id ∈ visited st').

Lemma visit_deps_ok fuel deps st :
  visit_ok fuel ->
  (room (path st) < fuel)%nat ->
  exists st',
    fold_left (fun acc dep_id => acc ≫= visit fuel question_map dep_id) deps (Some st)
      = Some st' /\
    path st' = path st /\ extends st st'.
Proof.
  intros Hok. revert st. induction deps as [| dep deps IH]; intros st Hroom; cbn.
  - exists st. repeat split. apply extends_refl.
  - destruct (Hok dep st Hroom) as (st1 & Hv & Hp & He & _). rewrite Hv.
    destruct (IH st1) as (st2 & Hf & Hp2 & He2); [now rewrite Hp |].
    exists st2. repeat split; [exact Hf | congruence | now apply extends_trans with st1].
Qed.

Lemma visit_returns fuel : visit_ok fuel.
Proof.
  induction fuel as [| fuel IH]; intros id st Hroom; [lia |].
  cbn [visit]. case_bool_decide as Hvisited.
  { exists st. repeat split; [apply extends_refl | easy]. }
  case_bool_decide as Hpath.
  { exists st. repeat split; [apply extends_refl | easy]. }
  destruct (question_map !! id) as [q |] eqn:Hq.
  - destruct (visit_deps_ok fuel (q_dependencies q)
                (mkVisit (visited st) (sorted st) ({[ id ]} ∪ path st)) IH)
      as (st2 & Hfold & Hp2 & new & Hs & Hf & Hv).
    { cbn [path]. unfold room in *.
      assert (Hlt : (size (dom question_map ∖ ({[id]} ∪ path st))
                     < size (dom question_map ∖ path st))%nat).
      { apply subset_size. apply elem_of_dom_2 in Hq. set_solver. }
      lia. }
    cbn [path visited sorted] in *. rewrite Hfold. cbn.
    eexists. split; [reflexivity |]. cbn [path visited sorted]. repeat split.
    + rewrite Hp2. set_solver.
    + exists (new ++ [q]). repeat split.
      * now rewrite Hs, app_assoc.
      * apply Forall_app. split; [exact Hf |]. constructor; [| constructor].
        now rewrite (keyed _ _ Hq).
      * rewrite Hv, map_app, list_to_set_app_L. cbn. rewrite (keyed _ _ Hq). set_solver.
    + intros _ _. set_solver.
  - cbn. eexists. split; [reflexivity |]. cbn [path visited sorted]. repeat split.
    + set_solver.
    + now apply extends_same.
    + intros Hdom. apply elem_of_dom in Hdom as [q' Hq']. congruence.
Qed.

End Visit.

Lemma visit_all_returns (M : gmap string ResearchQuestion) (fuel : nat)
    (questions : list ResearchQuestion) :
  (forall id q, M !! id = Some q -> q_id q = id) ->
  (size (dom M) < fuel)%nat ->
  exists st,
    visit_all fuel M questions = Some st /\
    Forall (fun q => M !! q_id q = Some q) (sorted st) /\
    visited st = list_to_set (map q_id (sorted st)) /\
    (forall q, q ∈ questions -> q_id q ∈ dom M -> q_id q ∈ visited st).
Proof.
  intros Hkeyed Hfuel. unfold visit_all.
  assert (Hgen : forall st0,
    Forall (fun q => M !! q_id q = Some q) (sorted st0) ->
    visited st0 = list_to_set (map q_id (sorted st0)) ->
    exists st,
      fold_left
        (fun acc q =>
           st ← acc; visit fuel M (q_id q) (mkVisit (visited st) (sorted st) ∅))
        questions (Some st0) = Some st /\
      Forall (fun q => M !! q_id q = Some q) (sorted st) /\
      visited st = list_to_set (map q_id (sorted st)) /\
      visited st0 ⊆ visited st /\
      (forall q, q ∈ questions -> q_id q ∈ dom M -> q_id q ∈ visited st)).
  { induction questions as [| q questions IH]; intros st0 Hf0 Hv0; cbn [fold_left].
    - exists st0. repeat split; try easy.
      all: try (intros q Hq; now apply elem_of_nil in Hq).
    - cbn [mbind option_bind].
      destruct (visit_returns M Hkeyed fuel (q_id q)
                  (mkVisit (visited st0) (sorted st0) ∅))
        as (st1 & Hvisit & _ & (new & Hs & Hf & Hv) & Hin).
      { unfold room. cbn [path].
        assert (size (dom M ∖ ∅) <= size (dom M))%nat
          by (apply subseteq_size; set_solver).
        lia. }
      cbn [path visited sorted] in *. rewrite Hvisit.
      destruct (IH st1) as (st & Hfold & Hfs & Hvs & Hsub & Hall).
      { rewrite Hs. now apply Forall_app. }
      { rewrite Hv, Hs, map_app, list_to_set_app_L, Hv0. reflexivity. }
      exists st. repeat split; try easy.
      + rewrite Hv in Hsub. set_solver.
      + intros q' [-> | Hq']%elem_of_cons Hdom.
        * apply Hsub, Hin; [exact Hdom | set_solver].
        * now apply Hall. }
  destruct (Hgen (mkVisit ∅ [] ∅)) as (st & Hfold & Hf & Hv & _ & Hall);
    [constructor | reflexivity |].
  exists st. repeat split; easy.
Qed.

(** The map of the questions: every question is filed under its id, the
    entry of an id is one of the questions with that id, and there are
    no more entries than questions. *)
Lemma build_question_map_spec (questions : list ResearchQuestion) :
  let M := build_question_map questions in
  (forall id q, M !! id = Some q -> q_id q = id /\ q ∈ questions) /\
  (forall q, q ∈ questions -> q_id q ∈ dom M) /\
  (size (dom M) <= length questions)%nat.
Proof.
  unfold build_question_map.
  induction questions as [| q questions IH] using rev_ind.
  - cbn. split; [| split].
    + intros k q H. now rewrite lookup_empty in H.
    + intros q H. now apply elem_of_nil in H.
    + now rewrite dom_empty_L, size_empty.
  - rewrite fold_left_app. cbn [fold_left].
    destruct IH as (Hkey & Hdom & Hsize). split; [| split].
    + intros k q' [[<- <-] | [Hne Hq']]%lookup_insert_Some.
      * split; [reflexivity | set_solver].
      * destruct (Hkey k q' Hq') as [H1 H2]. split; [exact H1 | set_solver].
    + intros q' [Hq' | ->%list_elem_of_singleton]%elem_of_app; rewrite dom_insert_L.
      * specialize (Hdom q' Hq'). set_solver.
      * set_solver.
    + set (M' := fold_left _ questions ∅) in *.
      rewrite dom_insert_L, length_app, size_union_alt, size_singleton. cbn.
      assert (size (dom M' ∖ {[q_id q]}) <= size (dom M'))%nat
        by (apply subseteq_size; set_solver).
      lia.
Qed.

Lemma insert_by_key_perm x l : insert_by_key x l ≡ₚ x :: l.
Proof.
  induction l as [| y l IH]; cbn; [reflexivity |].
  destruct (key_le x y); [reflexivity |].
  rewrite IH. apply perm_swap.
Qed.

Lemma sort_by_key_perm l : sort_by_key l ≡ₚ l.
Proof.
  unfold sort_by_key. induction l as [| x l IH]; cbn; [reflexivity |].
  now rewrite insert_by_key_perm, IH.
Qed.

(** [_sort_questions] returns: the fuel of the model is enough. What it
    returns holds questions of its argument only, and a question for
    every id of its argument. *)
Lemma sort_questions_returns (questions : list ResearchQuestion) :
  exists result,
    _sort_questions questions = Some result /\
    (forall q, q ∈ result -> q ∈ questions) /\
    (forall q, q ∈ questions -> q_id q ∈ map q_id result).
Proof.
  unfold _sort_questions, sort_questions_fuel.
  destruct questions as [| q0 rest] eqn:Hqs.
  { exists []. repeat split; easy. }
  rewrite <- Hqs. clear Hqs q0 rest.
  destruct (build_question_map_spec questions) as (Hkey & Hdom & Hsize).
  destruct (visit_all_returns (build_question_map questions) (S (length questions)) questions)
    as (st & Hvisit & Hsorted & Hvisited & Hall).
  { intros k q Hq. now apply Hkey in Hq. }
  { lia. }
  rewrite Hvisit. cbn. eexists. split; [reflexivity |]. split.
  - intros q Hq. rewrite sort_by_key_perm in Hq.
    rewrite List.Forall_forall in Hsorted.
    apply list_elem_of_In, Hsorted, Hkey in Hq. easy.
  - intros q Hq. rewrite sort_by_key_perm.
    specialize (Hall q Hq (Hdom q Hq)). rewrite Hvisited in Hall.
    now apply elem_of_list_to_set in Hall.
Qed.

(** *** Dependencies that name no question of the plan *)

(** Every id in a dependencies list of the plan is the id of a question
    of the plan. *)
Definition no_dangling (questions : list ResearchQuestion) : Prop :=
  forall q dep_id,
    q ∈ questions -> dep_id ∈ q_dependencies q -> dep_id ∈ map q_id questions.

(** [json.loads] on the one text an example uses. *)
Definition loads_only (text : string) (value : json) : string -> option json :=
  fun s => if String.eqb s text then Some value else None.

(** An answer of the model with one question, which depends on an id
    that the answer does not define. *)
Definition dangling_answer : json :=
  JObj [ ("questions",
          JList [ JObj [ ("id", JStr "q1");
                         ("question", JStr "Why are there two tides a day?");
                         ("dependencies", JList [JStr "q0"]) ] ]) ].

Definition dangling_text : string := default EmptyString (Json.render dangling_answer).

Lemma C8_counterexample_dangling_dependency :
  Json.render dangling_answer = Some dangling_text /\
  plan (loads_only dangling_text dangling_answer) (fun _ => "q_0") "after:2025"
       (Ok ("Here is the plan: " +:+ dangling_text)) "tides" QUICK
  = Ok [ {| q_id := "q1"; q_question := "Why are there two tides a day?";
            q_priority := 3; q_keywords := []; q_rationale := EmptyString;
            q_category := "general"; q_dependencies := ["q0"]; q_order := 0;
            q_search_strategy := GENERAL; q_search_operators := [] |} ] /\
  ~ no_dangling
      [ {| q_id := "q1"; q_question := "Why are there two tides a day?";
           q_priority := 3; q_keywords := []; q_rationale := EmptyString;
           q_category := "general"; q_dependencies := ["q0"]; q_order := 0;
           q_search_strategy := GENERAL; q_search_operators := [] |} ].
Proof.
  split; [reflexivity |]. split; [vm_compute; reflexivity |].
  intros H. specialize (H _ "q0" ltac:(left) ltac:(left)).
  cbn in H. apply list_elem_of_singleton in H. discriminate.
Qed.

(** The questions the ordering step of [plan] starts from: the
    deduplicated questions of the answer, or the plan of the [except]
    branch. *)
Definition kept_questions (json_loads : string -> option json) (fresh_id : nat -> string)
    (after_last_year : string) (response : result string) (topic : string)
  : list ResearchQuestion :=
  match parse_questions json_loads fresh_id after_last_year response (_detect_domain topic) with
  | Ok questions => _deduplicate_questions questions
  | Raise _ => fallback_plan fresh_id topic (_detect_domain topic)
  end.

(** C8 (amended). For every plan that [plan] returns, a question of the
    plan is one of the questions kept by deduplication, with its
    dependencies list as it was, and every id of a kept question is the
    id of a question of the plan. So a dependency id that names a kept
    question names a question of the plan, and the plan has no dangling
    reference when the kept questions have none. (An id that the answer
    of the model made up, or the id of a question removed as a
    duplicate, is not checked and stays in the dependencies list.) *)
Theorem C8_plan_keeps_references (json_loads : string -> option json)
    (fresh_id : nat -> string) (after_last_year : string) (response : result string)
    (topic : string) (depth : ResearchDepth) (questions : list ResearchQuestion) :
  plan json_loads fresh_id after_last_year response topic depth = Ok questions ->
  let kept := kept_questions json_loads fresh_id after_last_year response topic in
  (forall q, q ∈ questions -> q ∈ kept) /\
  (forall q, q ∈ kept -> q_id q ∈ map q_id questions) /\
  (forall q dep_id, q ∈ questions -> dep_id ∈ q_dependencies q ->
     dep_id ∈ map q_id kept -> dep_id ∈ map q_id questions) /\
  (no_dangling kept -> no_dangling questions).
Proof.
  intros Hplan kept.
  assert (Hcore : (forall q, q ∈ questions -> q ∈ kept) /\
                  (forall q, q ∈ kept -> q_id q ∈ map q_id questions)).
  { subst kept. unfold plan, try_except, plan_body, kept_questions in *.
    destruct (parse_questions _ _ _ response _) as [parsed | e]; cbn in Hplan.
    - destruct (sort_questions_returns (_deduplicate_questions parsed))
        as (r & Hsort & Hsub & Hids).
      rewrite Hsort in Hplan. cbn in Hplan. injection Hplan as <-. now split.
    - destruct (plan_catches e); [| discriminate]. injection Hplan as <-.
      split; [easy |]. intros q Hq. apply list_elem_of_fmap. now exists q. }
  destruct Hcore as [Hsub Hids].
  assert (Hdep : forall q dep_id, q ∈ questions -> dep_id ∈ q_dependencies q ->
                   dep_id ∈ map q_id kept -> dep_id ∈ map q_id questions).
  { intros q dep_id _ _ (q' & -> & Hq')%list_elem_of_fmap. now apply Hids. }
  repeat split; try assumption.
  intros Hkept q dep_id Hq Hd. apply (Hdep q dep_id Hq Hd).
  apply (Hkept q dep_id); [now apply Hsub | exact Hd].
Qed.

(** An answer with two questions, the second depending on the first. *)
Definition chained_answer : json :=
  JObj [ ("categories", JList [JStr "background"; JStr "technical"]);
         ("questions",
          JList [ JObj [ ("id", JStr "q2");
                         ("question", JStr "Why are there two tides a day?");
                         ("priority", JInt 4);
                         ("category", JStr "technical");
                         ("dependencies", JList [JStr "q1"]);
                         ("order", JInt 2) ];
                  JObj [ ("id", JStr "q1");
                         ("question", JStr "What is a tide?");
                         ("priority", JInt 5);
                         ("category", JStr "background");
                         ("dependencies", JList []);
                         ("order", JInt 1) ] ]) ].

Definition chained_text : string := default EmptyString (Json.render chained_answer).

Definition chained_plan : list ResearchQuestion :=
  match plan (loads_only chained_text chained_answer) (fun _ => "q_0") "after:2025"
             (Ok chained_text) "tides" QUICK with
  | Ok questions => questions
  | Raise _ => []
  end.

Lemma C8_witness_chained_plan :
  plan (loads_only chained_text chained_answer) (fun _ => "q_0") "after:2025"
       (Ok chained_text) "tides" QUICK = Ok chained_plan /\
  map q_id chained_plan = ["q1"; "q2"] /\
  let kept := kept_questions (loads_only chained_text chained_answer) (fun _ => "q_0")
                "after:2025" (Ok chained_text) "tides" in
  (forall q, q ∈ chained_plan -> q ∈ kept) /\
  (forall q, q ∈ kept -> q_id q ∈ map q_id chained_plan) /\
  (forall q dep_id, q ∈ chained_plan -> dep_id ∈ q_dependencies q ->
     dep_id ∈ map q_id kept -> dep_id ∈ map q_id chained_plan) /\
  (no_dangling kept -> no_dangling chained_plan).
Proof.
  assert (H : plan (loads_only chained_text chained_answer) (fun _ => "q_0") "after:2025"
                (Ok chained_text) "tides" QUICK = Ok chained_plan)
    by (vm_compute; reflexivity).
  split; [exact H |]. split; [vm_compute; reflexivity |].
  exact (C8_plan_keeps_references _ _ _ _ _ _ _ H).
Defined.

(** Deduplication itself can leave a reference dangling: the question
    it removes may be one that another question depends on. *)
Example dedup_leaves_dangling :
  map (fun q => (q_id q, q_dependencies q))
    (_deduplicate_questions
       [ WorkflowProps.question "q1" "What is a tide?" [];
         WorkflowProps.question "q2" "what is a TIDE" [];
         WorkflowProps.question "q3" "Why are there two tides a day?" ["q2"] ])
  = [("q1", []); ("q3", ["q2"])].
Proof. vm_compute. reflexivity. Qed.

(** *** Answers that cannot be read *)

(** When [json.loads] rejects the text, [plan] returns the plan of its
    [except] branch. *)
Lemma plan_falls_back_when_undecodable json_loads fresh_id after_last_year
    content topic depth :
  json_loads (PyStr.extract_json content) = None ->
  plan json_loads fresh_id after_last_year (Ok content) topic depth
  = Ok (fallback_plan fresh_id topic (_detect_domain topic)).
Proof.
  intros Hloads. unfold plan, plan_body, parse_questions. cbn. now rewrite Hloads.
Qed.

(** That plan is one question about the topic, with no dependencies. *)
Lemma fallback_plan_is_root fresh_id topic strategy :
  exists q, fallback_plan fresh_id topic strategy = [q] /\
            q_dependencies q = [] /\
            q_question q = "What is " +:+ topic +:+ "?" /\
            q_keywords q = [topic].
Proof. eexists. repeat split. Qed.

(** What [plan] raises is an exception its [except] clause does not
    name. *)
Lemma plan_raises_uncaught json_loads fresh_id after_last_year response topic depth e :
  plan json_loads fresh_id after_last_year response topic depth = Raise e ->
  plan_catches e = false.
Proof.
  unfold plan, try_except.
  destruct (plan_body _ _ _ _ _) as [qs | e']; [discriminate |].
  destruct (plan_catches e') eqn:Hc; [discriminate |]. now intros [= <-].
Qed.

(** C6 (the code at the failing input). When the answer of the model is
    the JSON text of an empty array, which [json.loads] reads without
    error, [plan] raises [AttributeError] to its caller: the array has
    no [get], and the [except] clause names [JSONDecodeError],
    [TypeError] and [KeyError] only. *)
Theorem C6_plan_raises_on_json_array (json_loads : string -> option json)
    (fresh_id : nat -> string) (after_last_year : string) (topic : string)
    (depth : ResearchDepth) :
  json_loads "[]" = Some (JList []) ->
  plan json_loads fresh_id after_last_year (Ok "[]") topic depth = Raise AttributeError.
Proof.
  intros Hloads. unfold plan, plan_body, parse_questions.
  change (PyStr.extract_json "[]") with "[]". cbn. now rewrite Hloads.
Qed.

Lemma C6_witness_json_array :
  loads_only "[]" (JList []) "[]" = Some (JList []) /\
  plan (loads_only "[]" (JList [])) (fun _ => "q_0") "after:2025" (Ok "[]") "tides" QUICK
  = Raise AttributeError.
Proof.
  split; [reflexivity |].
  apply (C6_plan_raises_on_json_array (loads_only "[]" (JList []))). reflexivity.
Defined.

(** An answer that is an object without questions gives an empty plan,
    not the fallback. *)
Example plan_of_empty_object :
  plan (loads_only "{}" (JObj [])) (fun _ => "q_0") "after:2025" (Ok "{}") "tides" QUICK
  = Ok [].
Proof. vm_compute. reflexivity. Qed.

End PlannerProps.


(** * Further properties of the code *)

(** ** The similarity test and the verdicts of [verify] *)

Module VerifierMore.
Import State Verifier VerifierProps.





(** The findings of the groups, one group after the other, are the
    findings of the input. *)
Lemma concat_group_add f groups :
  concat (map snd (group_add f groups)) ≡ₚ f :: concat (map snd groups).
Proof.
  induction groups as [| [q fs] rest IH]; cbn; [reflexivity |].
  destruct (String.eqb q (f_question f)); cbn.
  - rewrite <- app_assoc. cbn. symmetry. apply Permutation_middle.
  - rewrite IH. symmetry. apply Permutation_middle.
Qed.

Lemma concat_group_by fs : concat (map snd (group_by_question fs)) ≡ₚ fs.
Proof.
  induction fs as [| f fs IH] using rev_ind; [reflexivity |].
  rewrite group_by_snoc, concat_group_add, IH.
  now rewrite Permutation_cons_append.
Qed.

Lemma verify_group_findings group : map vf_finding (_verify_group group) = group.
Proof.
  unfold _verify_group. rewrite map_map. cbn. apply map_id.
Qed.

Lemma verify_findings fs : map vf_finding (verify fs) ≡ₚ fs.
Proof.
  unfold verify. destruct fs as [| f0 rest] eqn:Hfs; [reflexivity |].
  rewrite <- Hfs. clear Hfs f0 rest.
  destruct (length fs <=? 3)%nat.
  - rewrite map_map. cbn. now rewrite map_id.
  - rewrite <- (concat_group_by fs) at 2.
    generalize (group_by_question fs). intros groups.
    induction groups as [| [q g] groups IH]; cbn [map concat snd]; [reflexivity |].
    rewrite map_app, verify_group_findings. now rewrite IH.
Qed.

(** X2. [verify] gives exactly one verdict per finding: the findings of
    its verdicts are the findings of the input, each as often as it
    occurs there (grouped by question, so possibly in another order).
    No verdict is 'disputed' and none lists a conflicting source. *)
Theorem X2_verify_one_verdict_each (findings : list Finding) :
  map vf_finding (verify findings) ≡ₚ findings /\
  length (verify findings) = length findings /\
  Forall (fun v => vf_verification_status v <> disputed /\
                   vf_conflicting_sources v = []) (verify findings).
Proof.
  split; [apply verify_findings |]. split.
  - rewrite <- (length_map vf_finding). apply Permutation_length, verify_findings.
  - apply List.Forall_forall. intros v Hv.
    destruct (Nat.le_gt_cases (length findings) 3) as [Hle | Hgt].
    + apply verify_few in Hv as (f & _ & ->); [| exact Hle]. now split.
    + apply verify_In in Hv as (f & _ & ->); [| exact Hgt]. split; [| reflexivity].
      cbn. unfold group_status.
      destruct (length (supporting _ _)) as [| [| n]]; cbn; discriminate.
Qed.

(** X3. A verdict is 'confirmed' exactly when it lists a supporting
    source, and every supporting source is the source of another
    finding of the input that answers the same question, has similar
    content and comes from a source other than the finding's own. *)
Theorem X3_supporting_sources (findings : list Finding) (v : VerifiedFinding) :
  In v (verify findings) ->
  (vf_verification_status v = confirmed <-> vf_supporting_sources v <> []) /\
  (forall s, In s (vf_supporting_sources v) ->
     s <> f_source (vf_finding v) /\
     exists g, In g findings /\ f_source g = s /\
               f_question g = f_question (vf_finding v) /\
               _content_similar (f_content (vf_finding v)) (f_content g) = true).
Proof.
  intros Hv.
  destruct (Nat.le_gt_cases (length findings) 3) as [Hle | Hgt].
  - apply verify_few in Hv as (f & _ & ->); [| exact Hle]. cbn. split; [easy | easy].
  - apply verify_In in Hv as (f & Hf & ->); [| exact Hgt]. cbn. split.
    + rewrite group_status_confirmed.
      destruct (supporting _ f); cbn; split; try easy; lia.
    + intros s Hs. unfold supporting in Hs.
      apply in_map_iff in Hs as (g & <- & Hg).
      apply filter_In in Hg as [Hg Hc].
      apply filter_In in Hg as [Hg Hq]. apply String.eqb_eq in Hq.
      apply andb_true_iff in Hc as [Hsrc Hsim].
      apply negb_true_iff, String.eqb_neq in Hsrc.
      split; [exact Hsrc |]. now exists g.
Qed.

Lemma X3_witness_four_findings :
  In (verify_one [finding_a; finding_b] finding_a)
     (verify [finding_a; finding_c; finding_b; finding_d]) /\
  vf_supporting_sources (verify_one [finding_a; finding_b] finding_a)
  = [f_source finding_b] /\
  ((vf_verification_status (verify_one [finding_a; finding_b] finding_a) = confirmed <->
    vf_supporting_sources (verify_one [finding_a; finding_b] finding_a) <> []) /\
   (forall s, In s (vf_supporting_sources (verify_one [finding_a; finding_b] finding_a)) ->
      s <> f_source (vf_finding (verify_one [finding_a; finding_b] finding_a)) /\
      exists g, In g [finding_a; finding_c; finding_b; finding_d] /\ f_source g = s /\
                f_question g = f_question (vf_finding (verify_one [finding_a; finding_b] finding_a)) /\
                _content_similar
                  (f_content (vf_finding (verify_one [finding_a; finding_b] finding_a)))
                  (f_content g) = true)).
Proof.
  assert (H : In (verify_one [finding_a; finding_b] finding_a)
                 (verify [finding_a; finding_c; finding_b; finding_d]))
    by (vm_compute; left; reflexivity).
  split; [exact H |]. split; [vm_compute; reflexivity |].
  exact (X3_supporting_sources [finding_a; finding_c; finding_b; finding_d]
           (verify_one [finding_a; finding_b] finding_a) H).
Defined.

End VerifierMore.

(** ** The ordering and the deduplication of the planner *)

Module PlannerMore.
Import State Planner PlannerProps.

(** *** [_sort_questions]: no id twice *)

Section VisitOnce.

Variable question_map : gmap string ResearchQuestion.
Hypothesis keyed : forall k q, question_map !! k = Some q -> q_id q = k.

(** [st'] continues [st] with questions of the map whose ids are new:
    not visited before, not on the path, and no two the same. *)
Definition extends_fresh (st st' : visit_state) : Prop :=
  exists new,
    sorted st' = sorted st ++ new /\
    Forall (fun q => question_map !! q_id q = Some q) new /\
    visited st' = visited st ∪ list_to_set (map q_id new) /\
    NoDup (map q_id new) /\
    (forall k, k ∈ map q_id new -> (k ∉ visited st) /\ (k ∉ path st)).

Lemma extends_fresh_same st st' :
  sorted st' = sorted st -> visited st' = visited st -> extends_fresh st st'.
Proof.
  intros Hs Hv. exists []. rewrite app_nil_r, Hs, Hv. cbn.
  split; [reflexivity |]. split; [constructor |]. split; [set_solver |].
  split; [constructor |]. intros k Hk. now apply elem_of_nil in Hk.
Qed.

Lemma extends_fresh_trans st1 st2 st3 :
  path st2 = path st1 ->
  extends_fresh st1 st2 -> extends_fresh st2 st3 -> extends_fresh st1 st3.
Proof.
  intros Hp (n1 & Hs1 & Hf1 & Hv1 & Hd1 & Hn1) (n2 & Hs2 & Hf2 & Hv2 & Hd2 & Hn2).
  exists (n1 ++ n2). split; [now rewrite Hs2, Hs1, app_assoc |].
  split; [now apply Forall_app |].
  split; [rewrite Hv2, Hv1, map_app, list_to_set_app_L; set_solver |].
  split.
  - rewrite map_app. apply NoDup_app. split; [exact Hd1 |]. split; [| exact Hd2].
    intros k Hk1 Hk2. destruct (Hn2 k Hk2) as [Hnot _]. apply Hnot.
    rewrite Hv1. apply elem_of_union_r. now apply elem_of_list_to_set.
  - intros k Hk. rewrite map_app in Hk. apply elem_of_app in Hk as [Hk | Hk].
    + now apply Hn1.
    + destruct (Hn2 k Hk) as [Hv Hpa]. split.
      * intros Hin. apply Hv. rewrite Hv1. now apply elem_of_union_l.
      * now rewrite <- Hp.
Qed.

Definition visit_fresh (fuel : nat) : Prop :=
  forall k st,
    (room question_map (path st) < fuel)%nat ->
    exists st',
      visit fuel question_map k st = Some st' /\
      path st' = path st /\
      extends_fresh st st'.

Lemma visit_deps_fresh fuel deps st :
  visit_fresh fuel ->
  (room question_map (path st) < fuel)%nat ->
  exists st',
    fold_left (fun acc dep_id => acc ≫= visit fuel question_map dep_id) deps (Some st)
      = Some st' /\
    path st' = path st /\ extends_fresh st st'.
Proof.
  intros Hok. revert st. induction deps as [| dep deps IH]; intros st Hroom; cbn.
  - exists st. repeat split. now apply extends_fresh_same.
  - destruct (Hok dep st Hroom) as (st1 & Hv & Hp & He). rewrite Hv.
    destruct (IH st1) as (st2 & Hf & Hp2 & He2); [now rewrite Hp |].
    exists st2. split; [exact Hf |]. split; [congruence |].
    now apply extends_fresh_trans with st1.
Qed.

Lemma visit_is_fresh fuel : visit_fresh fuel.
Proof.
  induction fuel as [| fuel IH]; intros k st Hroom; [lia |].
  cbn [visit]. case_bool_decide as Hvisited.
  { exists st. repeat split. now apply extends_fresh_same. }
  case_bool_decide as Hpath.
  { exists st. repeat split. now apply extends_fresh_same. }
  destruct (question_map !! k) as [q |] eqn:Hq.
  - destruct (visit_deps_fresh fuel (q_dependencies q)
                (mkVisit (visited st) (sorted st) ({[ k ]} ∪ path st)) IH)
      as (st2 & Hfold & Hp2 & new & Hs & Hf & Hv & Hd & Hn).
    { cbn [path]. unfold room in *.
      assert (Hlt : (size (dom question_map ∖ ({[k]} ∪ path st))
                     < size (dom question_map ∖ path st))%nat).
      { apply subset_size. apply elem_of_dom_2 in Hq. set_solver. }
      lia. }
    cbn [path visited sorted] in *. rewrite Hfold. cbn.
    eexists. split; [reflexivity |]. cbn [path visited sorted].
    split; [rewrite Hp2; set_solver |].
    assert (Hknew : k ∉ map q_id new).
    { intros Hk. destruct (Hn k Hk) as [_ Hnp]. set_solver. }
    exists (new ++ [q]).
    split; [now rewrite Hs, app_assoc |].
    split; [apply Forall_app; split; [exact Hf |];
            constructor; [now rewrite (keyed _ _ Hq) | constructor] |].
    split; [rewrite Hv, map_app, list_to_set_app_L; cbn;
            rewrite (keyed _ _ Hq); set_solver |].
    split.
    + rewrite map_app. cbn. rewrite (keyed _ _ Hq).
      apply NoDup_app. split; [exact Hd |]. split; [| apply NoDup_singleton].
      intros x Hx ->%list_elem_of_singleton. contradiction.
    + intros x Hx. rewrite map_app in Hx. cbn in Hx. rewrite (keyed _ _ Hq) in Hx.
      apply elem_of_app in Hx as [Hx | ->%list_elem_of_singleton].
      * destruct (Hn x Hx) as [H1 H2]. split; [exact H1 | set_solver].
      * now split.
  - cbn. eexists. split; [reflexivity |]. cbn [path visited sorted].
    split; [set_solver |]. now apply extends_fresh_same.
Qed.

End VisitOnce.

Lemma visit_all_distinct (M : gmap string ResearchQuestion) (fuel : nat)
    (questions : list ResearchQuestion) st :
  (forall k q, M !! k = Some q -> q_id q = k) ->
  (size (dom M) < fuel)%nat ->
  visit_all fuel M questions = Some st ->
  NoDup (map q_id (sorted st)).
Proof.
  intros Hkeyed Hfuel. unfold visit_all.
  assert (Hgen : forall st0 st1,
    NoDup (map q_id (sorted st0)) ->
    visited st0 = list_to_set (map q_id (sorted st0)) ->
    fold_left
      (fun acc q =>
         st ← acc; visit fuel M (q_id q) (mkVisit (visited st) (sorted st) ∅))
      questions (Some st0) = Some st1 ->
    NoDup (map q_id (sorted st1))).
  { induction questions as [| q questions IH]; intros st0 st1 Hd0 Hv0; cbn [fold_left].
    - now intros [= <-].
    - cbn [mbind option_bind].
      destruct (visit_is_fresh M Hkeyed fuel (q_id q)
                  (mkVisit (visited st0) (sorted st0) ∅))
        as (st' & Hvisit & _ & (new & Hs & Hf & Hv & Hd & Hn)).
      { unfold room. cbn [path].
        assert (size (dom M ∖ ∅) <= size (dom M))%nat
          by (apply subseteq_size; set_solver).
        lia. }
      cbn [path visited sorted] in *. rewrite Hvisit.
      apply IH.
      + rewrite Hs, map_app. apply NoDup_app. split; [exact Hd0 |]. split; [| exact Hd].
        intros k Hk Hk'. destruct (Hn k Hk') as [Hnot _]. apply Hnot.
        rewrite Hv0. now apply elem_of_list_to_set.
      + rewrite Hv, Hs, map_app, list_to_set_app_L, Hv0. reflexivity. }
  apply Hgen; [constructor | reflexivity].
Qed.

Lemma sort_questions_distinct (questions : list ResearchQuestion) :
  exists result,
    _sort_questions questions = Some result /\
    (forall q, q ∈ result -> q ∈ questions) /\
    (forall q, q ∈ questions -> q_id q ∈ map q_id result) /\
    NoDup (map q_id result).
Proof.
  destruct (sort_questions_returns questions) as (r & Hsort & Hsub & Hids).
  exists r. split; [exact Hsort |]. split; [exact Hsub |]. split; [exact Hids |].
  unfold _sort_questions, sort_questions_fuel in Hsort.
  destruct questions as [| q0 rest] eqn:Hqs;
    [injection Hsort as <-; constructor |].
  rewrite <- Hqs in *. clear Hqs q0 rest.
  destruct (build_question_map_spec questions) as (Hkey & Hdom & Hsize).
  destruct (visit_all (S (length questions)) (build_question_map questions) questions)
    as [st |] eqn:Hvisit; [| discriminate].
  cbn in Hsort. injection Hsort as <-.
  rewrite sort_by_key_perm.
  apply (visit_all_distinct _ _ _ _ (fun k q H => proj1 (Hkey k q H))) in Hvisit;
    [exact Hvisit | lia].
Qed.

(** X4. [_sort_questions] always returns, also when the dependencies
    form a cycle or name unknown ids. The result holds questions of the
    input only, one for every id of the input and none of an id twice;
    so when the ids of the input are pairwise distinct the result is a
    permutation of the input. *)
Theorem X4_sort_questions_keeps_questions (questions : list ResearchQuestion) :
  exists result,
    _sort_questions questions = Some result /\
    (forall q, q ∈ result -> q ∈ questions) /\
    (forall q, q ∈ questions -> q_id q ∈ map q_id result) /\
    NoDup (map q_id result) /\
    (NoDup (map q_id questions) -> result ≡ₚ questions).
Proof.
  destruct (sort_questions_distinct questions) as (r & Hsort & Hsub & Hids & Hdistinct).
  exists r. split; [exact Hsort |]. split; [exact Hsub |]. split; [exact Hids |].
  split; [exact Hdistinct |].
  intros Hnodup.
  apply NoDup_Permutation.
  - now apply NoDup_fmap_1 in Hdistinct.
  - now apply NoDup_fmap_1 in Hnodup.
  - intros q. split; [apply Hsub |]. intros Hq.
    specialize (Hids q Hq). apply list_elem_of_fmap in Hids as (q' & Heq & Hq').
    assert (q = q'); [| now subst].
    pose proof (Hsub q' Hq') as Hq'in.
    apply list_elem_of_lookup in Hq as [i Hi].
    apply list_elem_of_lookup in Hq'in as [j Hj].
    assert (i = j).
    { apply (NoDup_lookup _ _ _ (q_id q) Hnodup); rewrite list_lookup_fmap.
      - now rewrite Hi.
      - rewrite Hj. cbn. now rewrite Heq. }
    subst j. congruence.
Qed.

(** *** [_sort_questions]: the order of the result *)

Lemma key_le_total x y : key_le x y = false -> key_le y x = true.
Proof.
  unfold key_le. rewrite (String.compare_antisym (q_category x) (q_category y)).
  destruct (String.compare (q_category y) (q_category x)); cbn; try easy.
  destruct (q_order x <? q_order y) eqn:H1; [easy |].
  destruct (q_order y <? q_order x) eqn:H2; [easy |].
  intros H. apply Z.leb_gt in H. apply Z.leb_le. lia.
Qed.

Lemma insert_by_key_sorted x l :
  Sorted (fun a b => key_le a b = true) l ->
  Sorted (fun a b => key_le a b = true) (insert_by_key x l).
Proof.
  induction l as [| y l IH]; cbn; intros Hs.
  - repeat constructor.
  - destruct (key_le x y) eqn:Hxy.
    + constructor; [exact Hs | now constructor].
    + apply Sorted_inv in Hs as [Hs Hhd]. constructor; [now apply IH |].
      destruct l as [| z l]; cbn.
      * constructor. now apply key_le_total.
      * destruct (key_le x z); constructor.
        -- now apply key_le_total.
        -- now apply HdRel_inv in Hhd.
Qed.

Lemma sort_by_key_sorted l : Sorted (fun a b => key_le a b = true) (sort_by_key l).
Proof.
  unfold sort_by_key. induction l as [| x l IH]; cbn; [constructor |].
  now apply insert_by_key_sorted.
Qed.

(** The order of the sort key, read off the tuple
    [(category, order, -priority)]. *)
Definition key_before (a b : ResearchQuestion) : Prop :=
  String.compare (q_category a) (q_category b) = Lt \/
  (q_category a = q_category b /\
   (q_order a < q_order b \/
    (q_order a = q_order b /\ q_priority b <= q_priority a))).

Lemma key_le_before a b : key_le a b = true <-> key_before a b.
Proof.
  unfold key_le, key_before.
  destruct (String.compare (q_category a) (q_category b)) eqn:Hc.
  - apply String.compare_eq_iff in Hc.
    destruct (q_order a <? q_order b) eqn:H1.
    { apply Z.ltb_lt in H1. split; [intros _; right; split; [exact Hc | now left] | easy]. }
    destruct (q_order b <? q_order a) eqn:H2.
    { apply Z.ltb_lt in H2. split; [discriminate |].
      intros [Hlt | [_ [Hlt | [Heq _]]]]; [discriminate | lia | lia]. }
    apply Z.ltb_ge in H1, H2. rewrite Z.leb_le. split.
    + intros H. right. split; [exact Hc |]. right. lia.
    + intros [Hlt | [_ [Hlt | [_ Hpr]]]]; [discriminate | lia | lia].
  - split; [now left | reflexivity].
  - split; [discriminate |].
    intros [Hlt | [Heq _]]; [discriminate |].
    rewrite Heq in Hc.
    pose proof (String.compare_antisym (q_category b) (q_category b)) as Hanti.
    rewrite Hc in Hanti. discriminate.
Qed.

(** X5. The plan [_sort_questions] returns is ordered by category
    (compared as strings), then by order within the category, then by
    descending priority. This final sort alone decides the order, so a
    question may come before one it depends on. *)
Theorem X5_sort_questions_ordered_by_key (questions : list ResearchQuestion) :
  exists result,
    _sort_questions questions = Some result /\ Sorted key_before result.
Proof.
  destruct (sort_questions_returns questions) as (r & Hsort & _).
  exists r. split; [exact Hsort |].
  assert (Hs : Sorted (fun a b => key_le a b = true) r).
  { unfold _sort_questions, sort_questions_fuel in Hsort.
    destruct questions as [| q0 rest]; [injection Hsort as <-; constructor |].
    destruct (visit_all _ _ _) as [st |]; [| discriminate].
    cbn in Hsort. injection Hsort as <-. apply sort_by_key_sorted. }
  clear Hsort. induction Hs as [| a l Hs IH Hhd]; constructor.
  - exact IH.
  - destruct Hhd; constructor. now apply key_le_before.
Qed.

(** *** [_deduplicate_questions] *)

Lemma dedup_loop_acc questions seen unique_questions :
  dedup_loop questions seen unique_questions
  = unique_questions ++ dedup_loop questions seen [].
Proof.
  revert seen unique_questions.
  induction questions as [| q rest IH]; intros seen uq; cbn.
  - now rewrite app_nil_r.
  - destruct (existsb _ _); [apply IH |].
    rewrite (IH _ (uq ++ [q])), (IH _ [q]). now rewrite <- app_assoc.
Qed.

Lemma dedup_loop_sublist questions seen :
  sublist (dedup_loop questions seen []) questions.
Proof.
  revert seen. induction questions as [| q rest IH]; intros seen; cbn.
  - constructor.
  - destruct (existsb _ _).
    + apply sublist_cons, IH.
    + rewrite dedup_loop_acc. cbn. apply sublist_skip, IH.
Qed.

Lemma dedup_loop_unseen questions seen q s :
  q ∈ dedup_loop questions seen [] -> s ∈ seen ->
  similar_signature (signature (q_question q)) s = false.
Proof.
  revert seen. induction questions as [| q0 rest IH]; intros seen; cbn.
  - intros Hq. now apply elem_of_nil in Hq.
  - destruct (existsb _ _) eqn:Hdup; [apply IH |].
    rewrite dedup_loop_acc. cbn. intros Hq Hs.
    apply elem_of_cons in Hq as [-> | Hq].
    + destruct (similar_signature _ s) eqn:Hsim; [| reflexivity].
      assert (existsb (similar_signature (signature (q_question q0))) (elements seen) = true);
        [| congruence].
      apply existsb_exists. exists s. split; [| exact Hsim].
      apply list_elem_of_In. now apply elem_of_elements.
    + apply (IH _ Hq). now apply elem_of_union_r.
Qed.

Lemma dedup_loop_apart questions seen :
  StronglySorted
    (fun q q' =>
       similar_signature (signature (q_question q')) (signature (q_question q)) = false)
    (dedup_loop questions seen []).
Proof.
  revert seen. induction questions as [| q0 rest IH]; intros seen; cbn.
  - constructor.
  - destruct (existsb _ _); [apply IH |].
    rewrite dedup_loop_acc. cbn. constructor; [apply IH |].
    apply List.Forall_forall. intros q Hq. apply list_elem_of_In in Hq.
    apply (dedup_loop_unseen _ _ _ _ Hq). now apply elem_of_union_l, elem_of_singleton.
Qed.

Lemma dedup_loop_again questions seen seen' :
  seen' ⊆ seen ->
  dedup_loop (dedup_loop questions seen []) seen' [] = dedup_loop questions seen [].
Proof.
  revert seen seen'. induction questions as [| q0 rest IH]; intros seen seen' Hsub; cbn.
  - reflexivity.
  - destruct (existsb _ (elements seen)) eqn:Hdup; [now apply IH |].
    rewrite (dedup_loop_acc rest _ [q0]). cbn [app].
    assert (Hdup' : existsb (similar_signature (signature (q_question q0))) (elements seen')
                    = false).
    { destruct (existsb _ (elements seen')) eqn:He; [| reflexivity].
      apply existsb_exists in He as (s & Hs & Hsim).
      assert (existsb (similar_signature (signature (q_question q0))) (elements seen) = true);
        [| congruence].
      apply existsb_exists. exists s. split; [| exact Hsim].
      apply list_elem_of_In, elem_of_elements, Hsub.
      now apply elem_of_elements, list_elem_of_In. }
    cbn [dedup_loop]. rewrite Hdup'. rewrite (dedup_loop_acc _ _ [q0]). cbn [app]. f_equal.
    apply IH. set_solver.
Qed.

(** X6. [_deduplicate_questions] keeps a subsequence of the questions,
    in their order, starting with the first question. No kept question
    is similar to one kept before it, so deduplicating the result again
    changes nothing. *)
Theorem X6_deduplicate_questions_keeps_apart (questions : list ResearchQuestion) :
  let unique_questions := _deduplicate_questions questions in
  sublist unique_questions questions /\
  head unique_questions = head questions /\
  StronglySorted
    (fun q q' =>
       similar_signature (signature (q_question q')) (signature (q_question q)) = false)
    unique_questions /\
  _deduplicate_questions unique_questions = unique_questions.
Proof.
  unfold _deduplicate_questions. cbn zeta.
  split; [apply dedup_loop_sublist |].
  split.
  { destruct questions as [| q rest]; [reflexivity |].
    cbn. rewrite elements_empty. cbn. now rewrite dedup_loop_acc. }
  split; [apply dedup_loop_apart |].
  now apply dedup_loop_again.
Qed.







(** *** [_build_search_operators] *)

Lemma existsb_snoc {A} (f : A -> bool) l x : existsb f (l ++ [x]) = existsb f l || f x.
Proof. rewrite existsb_app. cbn. now rewrite orb_false_r. Qed.

(** X8. [_build_search_operators] keeps the operators of the question
    in front and appends at most one. For the strategies 'academic' and
    'technical' the appended operator itself stops a second append, so
    the function is idempotent there; for the other strategies but
    'news' it changes nothing. *)
Theorem X8_build_search_operators (after_last_year : string)
    (search_operators : list string) (strategy : SearchStrategy) :
  let operators := _build_search_operators after_last_year search_operators strategy in
  search_operators `prefix_of` operators /\
  (length operators <= S (length search_operators))%nat /\
  (strategy <> NEWS ->
   _build_search_operators after_last_year operators strategy = operators) /\
  (strategy <> ACADEMIC -> strategy <> TECHNICAL -> strategy <> NEWS ->
   operators = search_operators).
Proof.
  cbn zeta. unfold _build_search_operators.
  destruct strategy; cbn [negb];
    try (split; [reflexivity |]; split; [lia |]; split; [reflexivity | reflexivity]).
  - (* ACADEMIC *)
    destruct (existsb (PyStr.contains "arxiv") search_operators) eqn:He; cbn [negb].
    + rewrite He. cbn. split; [reflexivity |]. split; [lia |]. split; [reflexivity | easy].
    + rewrite existsb_snoc, He. cbn [negb orb].
      split; [now apply prefix_app_r |]. split; [rewrite length_app; cbn; lia |].
      split; [reflexivity | easy].
  - (* NEWS *)
    destruct (existsb (PyStr.contains "site:") search_operators) eqn:He; cbn [negb].
    + split; [reflexivity |]. split; [lia |]. split; easy.
    + split; [now apply prefix_app_r |]. split; [rewrite length_app; cbn; lia |].
      split; easy.
  - (* TECHNICAL *)
    destruct (existsb (PyStr.contains "github") search_operators) eqn:He; cbn [negb].
    + rewrite He. cbn. split; [reflexivity |]. split; [lia |]. split; [reflexivity | easy].
    + rewrite existsb_snoc, He. cbn [negb orb].
      split; [now apply prefix_app_r |]. split; [rewrite length_app; cbn; lia |].
      split; [reflexivity | easy].
Qed.

(** *** [plan] *)

(** X9. What [plan] returns or raises. A returned plan never holds two
    questions of the same id; it is the one-question fallback, or it
    holds questions parsed from the answer only. The ordering step
    never fails, so what [plan] raises was raised while the answer was
    parsed, and is none of the exceptions the [except] clause names. *)
Theorem X9_plan_outcomes (json_loads : string -> option json) (fresh_id : nat -> string)
    (after_last_year : string) (response : result string) (topic : string)
    (depth : ResearchDepth) :
  let parsed := parse_questions json_loads fresh_id after_last_year response
                  (_detect_domain topic) in
  match plan json_loads fresh_id after_last_year response topic depth with
  | Ok questions =>
      NoDup (map q_id questions) /\
      (questions = fallback_plan fresh_id topic (_detect_domain topic) \/
       exists parsed_questions,
         parsed = Ok parsed_questions /\
         (forall q, q ∈ questions -> q ∈ parsed_questions) /\
         (length questions <= length parsed_questions)%nat)
  | Raise e => plan_catches e = false /\ parsed = Raise e
  end.
Proof.
  cbn zeta. unfold plan, plan_body, try_except.
  destruct (parse_questions _ _ _ _ _) as [qs | e]; cbn.
  - destruct (sort_questions_distinct (_deduplicate_questions qs))
      as (r & Hsort & Hsub & _ & Hnodup).
    rewrite Hsort. cbn. split; [exact Hnodup |]. right.
    exists qs. split; [reflexivity |].
    pose proof (dedup_loop_sublist qs ∅) as Hsl. fold (_deduplicate_questions qs) in Hsl.
    split.
    + intros q Hq. apply Hsub in Hq. eapply elem_of_sublist; eauto.
    + transitivity (length (_deduplicate_questions qs)).
      * apply submseteq_length, NoDup_submseteq; [| exact Hsub].
        now apply NoDup_fmap_1 in Hnodup.
      * now apply sublist_length.
  - destruct (plan_catches e) eqn:Hc; cbn.
    + split; [| now left]. repeat constructor. now intros H%elem_of_nil.
    + now split.
Qed.

End PlannerMore.

(** ** Runs of the research workflow *)

Module WorkflowMore.
Import State Workflow WorkflowProps.

(** *** What one research step does *)

Lemma nth_error_lookup {A} (l : list A) (n : nat) : nth_error l n = l !! n.
Proof. revert n. induction l as [| x l IH]; intros [| n]; cbn; auto. Qed.

Lemma py_index_within {A} (l : list A) (i : Z) :
  0 <= i < Z.of_nat (length l) ->
  py_index l i = of_option IndexError (l !! Z.to_nat i) /\
  is_Some (l !! Z.to_nat i).
Proof.
  intros Hi. unfold py_index.
  assert (H1 : (0 <=? i) && (i <? Z.of_nat (length l)) = true)
    by (apply andb_true_iff; split; [apply Z.leb_le | apply Z.ltb_lt]; lia).
  rewrite H1, nth_error_lookup. split; [reflexivity |].
  apply lookup_lt_is_Some. lia.
Qed.

(** The three ways [research_node] returns: the cursor is past the
    plan and the state is returned as it is; the question at the cursor
    waits for a dependency and only the cursor moves; or the question
    is researched. *)
Inductive research_outcome
    (researcher : ResearchQuestion -> result (list Finding * SearchRecord))
    (state : ResearchState) : ResearchState -> Prop :=
  | outcome_idle :
      Z.of_nat (length (plan state)) <= current_question_index state ->
      research_outcome researcher state state
  | outcome_skipped question :
      current_question_index state < Z.of_nat (length (plan state)) ->
      py_index (plan state) (current_question_index state) = Ok question ->
      q_dependencies question <> [] ->
      deps_satisfied (completed_question_ids state) question = false ->
      research_outcome researcher state
        (set_current_question_index (current_question_index state + 1) state)
  | outcome_researched question answer :
      current_question_index state < Z.of_nat (length (plan state)) ->
      py_index (plan state) (current_question_index state) = Ok question ->
      researcher question = Ok answer ->
      research_outcome researcher state (researched state question answer).

Lemma run_research_node_outcome researcher state state' :
  run_research_node researcher state = Ok state' ->
  research_outcome researcher state state'.
Proof.
  unfold run_research_node, research_node.
  destruct (Z.of_nat (length (plan state)) <=? current_question_index state) eqn:Hpast.
  { intros [= <-]. apply outcome_idle. now apply Z.leb_le. }
  apply Z.leb_gt in Hpast.
  destruct (py_index (plan state) (current_question_index state)) as [q | e] eqn:Hq;
    [| discriminate].
  destruct (negb (bool_decide (q_dependencies q = []))
            && negb (deps_satisfied (completed_question_ids state) q)) eqn:Hwait.
  - intros [= <-]. apply andb_true_iff in Hwait as [Hdeps Hsat].
    apply negb_true_iff in Hdeps, Hsat. apply bool_decide_eq_false in Hdeps.
    now apply outcome_skipped with (question := q).
  - cbn. destruct (researcher q) as [answer | e] eqn:Hr; [| discriminate].
    cbn. intros [= <-]. now apply outcome_researched.
Qed.

(** *** How long a run is *)

Lemma entered_cons n c tr :
  entered n (c :: tr)
  = ((if bool_decide (fst c = n) then 1 else 0) + entered n tr)%nat.
Proof. unfold entered. cbn [List.filter]. now case_bool_decide. Qed.

(** How often [research] can still be entered. *)
Definition research_left (N : Z) (c : Config) : Z :=
  let k := N - iteration (snd c) in
  match fst c with
  | N_plan | N_research => k + 1
  | N_reflect => k
  | _ => 0
  end.

Lemma execution_research_bounded N c tr :
  within_budget N c -> execution c tr ->
  Z.of_nat (entered N_research tr) <= research_left N c.
Proof.
  intros Hinv Hexec. induction Hexec as [c | c c' tr Hstep Hexec IH].
  - destruct Hinv as (Hmax & Hle & Hlt). rewrite entered_cons.
    destruct c as [[] state]; unfold research_left, entered; cbn [fst snd] in *;
      case_bool_decide; try congruence; cbn [List.filter length Nat.add]; lia.
  - pose proof (step_within_budget _ _ _ Hinv Hstep) as Hinv'.
    specialize (IH Hinv').
    destruct Hinv' as (Hmax' & Hle' & Hlt').
    destruct c as [n state], c' as [n' state'].
    pose proof Hstep as Hkind.
    apply step_iteration in Hstep as (_ & Hit & _).
    rewrite entered_cons.
    unfold research_left in *. cbn [fst snd] in *.
    inversion Hkind as [s qs s1 Hp | s r s1 Hr | s r | s | s w s1 Hw]; subst;
      repeat case_bool_decide; try congruence; unfold after_research in *;
      try (destruct (should_continue_researching state');
           try specialize (Hlt' eq_refl));
      cbn in *; lia.
Qed.

(** How often the nodes outside the loop can still be entered. *)
Definition once_left (n : Node) (c : Config) : nat :=
  match n, fst c with
  | N_plan, N_plan => 1
  | N_verify, (N_plan | N_research | N_reflect | N_verify) => 1
  | N_write, (N_plan | N_research | N_reflect | N_verify | N_write) => 1
  | N_END, _ => 1
  | _, _ => 0
  end.

Lemma execution_once n c tr :
  n <> N_research -> n <> N_reflect ->
  execution c tr -> (entered n tr <= once_left n c)%nat.
Proof.
  intros Hn1 Hn2 Hexec. induction Hexec as [c | c c' tr Hstep Hexec IH].
  - rewrite entered_cons. unfold entered. cbn [List.filter length].
    destruct n; try congruence; destruct c as [[] state]; cbn [fst once_left];
      case_bool_decide; try congruence; cbn; lia.
  - rewrite entered_cons. destruct c as [m state], c' as [m' state'].
    destruct n; try congruence;
      inversion Hstep as [s qs s1 Hp | s r s1 Hr | s r | s | s w s1 Hw]; subst;
      cbn [fst once_left] in *;
      try (unfold after_research in *; destruct (should_continue_researching state'));
      case_bool_decide; try congruence; cbn in *; lia.
Qed.

(** The completed ids and the entries of [research] that are left
    never add up to more than they did after the plan step. *)
Lemma execution_completed_bounded N K c tr :
  within_budget N c -> fst c <> N_plan ->
  Z.of_nat (length (completed_question_ids (snd c))) + research_left N c <= K ->
  execution c tr ->
  Forall (fun c' => Z.of_nat (length (completed_question_ids (snd c'))) <= K) tr.
Proof.
  intros Hinv Hnode Hsum Hexec. induction Hexec as [c | c c' tr Hstep Hexec IH].
  - constructor; [| constructor].
    destruct Hinv as (Hmax & Hle & Hlt).
    destruct c as [[] state]; unfold research_left in *; cbn in *;
      try specialize (Hlt eq_refl); lia.
  - pose proof (step_within_budget _ _ _ Hinv Hstep) as Hinv'.
    assert (Hhere : Z.of_nat (length (completed_question_ids (snd c))) <= K).
    { destruct Hinv as (Hmax & Hle & Hlt).
      destruct c as [[] state]; unfold research_left in *; cbn in *;
        try specialize (Hlt eq_refl); lia. }
    constructor; [exact Hhere |]. apply IH; [exact Hinv' | |].
    + inversion Hstep; subst; cbn; try discriminate.
      unfold after_research. now destruct (should_continue_researching _).
    + destruct Hinv' as (Hmax' & Hle' & Hlt').
      destruct c as [n state], c' as [n' state'].
      pose proof Hstep as Hkind.
      apply step_iteration in Hstep as (_ & Hit & _).
      unfold research_left in *. cbn [fst snd] in *.
      inversion Hkind as [s qs s1 Hp | s r s1 Hr | s r | s | s w s1 Hw]; subst.
      * contradiction.
      * apply run_research_node_outcome in Hr.
        case_bool_decide; [congruence |].
        unfold after_research in *.
        destruct Hr as [Hidle | q Hin Hq Hdeps Hsat | q answer Hin Hq Hans];
          destruct (should_continue_researching _);
          try specialize (Hlt' eq_refl);
          cbn [completed_question_ids researched set_current_question_index] in *;
          rewrite ?length_app in *; cbn [length] in *; lia.
      * case_bool_decide; [| congruence]. cbn in *. lia.
      * cbn in *. lia.
      * unfold write_node in Hw. destruct (depth_of_string _); [| discriminate].
        injection Hw as <-. cbn in *. lia.
Qed.

Lemma plan_node_fields questions state state' :
  plan_node questions state = Ok state' ->
  plan state' = questions /\ current_question_index state' = 0 /\
  completed_question_ids state' = [] /\
  findings state' = findings state /\ search_history state' = search_history state /\
  job_id state' = job_id state /\ topic state' = topic state /\
  depth state' = depth state.
Proof.
  unfold plan_node. destruct (depth_of_string (depth state)); [| discriminate].
  intros [= <-]. repeat split.
Qed.

(** X10. Every run of the workflow ends. Started at [plan] with an
    iteration counter between [0] and the budget, a run has at most
    [2 (max_iterations - iteration) + 5] configurations; [research] is
    entered at most [max_iterations - iteration + 1] times, so no
    state of the run lists more completed questions than that; and
    [plan], [verify] and [write] are entered at most once each. *)
Theorem X10_run_is_bounded (state0 : ResearchState) (tr : list Config) :
  0 <= iteration state0 <= max_iterations state0 ->
  execution (N_plan, state0) tr ->
  let k := max_iterations state0 - iteration state0 in
  Z.of_nat (length tr) <= 2 * k + 5 /\
  Z.of_nat (entered N_research tr) <= k + 1 /\
  Forall (fun c => Z.of_nat (length (completed_question_ids (snd c))) <= k + 1)
         (tail tr) /\
  (entered N_plan tr <= 1 /\ entered N_verify tr <= 1 /\ entered N_write tr <= 1)%nat.
Proof.
  intros Hstart Hexec. cbn zeta.
  assert (Hinv : within_budget (max_iterations state0) (N_plan, state0)).
  { unfold within_budget. cbn. repeat split; [lia | discriminate]. }
  split; [exact (execution_length_bounded _ _ _ Hinv Hexec) |].
  split; [exact (execution_research_bounded _ _ _ Hinv Hexec) |].
  split.
  - inversion Hexec as [c | c c' tr' Hstep Hexec']; subst; [constructor |].
    cbn [tail].
    pose proof (step_within_budget _ _ _ Hinv Hstep) as Hinv'.
    inversion Hstep as [s qs s1 Hp | | | |]; subst.
    pose proof (plan_node_iteration _ _ _ Hp) as [Hit Hmax].
    apply plan_node_fields in Hp as (_ & _ & Hdone & _).
    apply (execution_completed_bounded (max_iterations state0) _ _ _ Hinv');
      [discriminate | | exact Hexec'].
    unfold research_left. cbn [fst snd]. rewrite Hdone, Hit. cbn. lia.
  - split; [| split].
    + now apply (execution_once N_plan) in Hexec.
    + now apply (execution_once N_verify) in Hexec.
    + now apply (execution_once N_write) in Hexec.
Qed.

Lemma X10_witness_budget_one_run :
  let tr := run 20 never_complete 0 (N_plan, initial_state 1) in
  length tr = 7%nat /\
  (Z.of_nat (length tr) <= 2 * (1 - 0) + 5 /\
   Z.of_nat (entered N_research tr) <= (1 - 0) + 1 /\
   Forall (fun c => Z.of_nat (length (completed_question_ids (snd c))) <= (1 - 0) + 1)
          (tail tr) /\
   (entered N_plan tr <= 1 /\ entered N_verify tr <= 1 /\ entered N_write tr <= 1)%nat).
Proof.
  split; [vm_compute; reflexivity |].
  apply (X10_run_is_bounded (initial_state 1)
           (run 20 never_complete 0 (N_plan, initial_state 1))).
  - cbn. lia.
  - apply run_execution.
Defined.

(** *** The cursor and the completed questions *)

(** The cursor stays within the plan, and the completed ids are ids of
    questions before the cursor, in the order of the plan. *)
Definition cursor_ok (state : ResearchState) : Prop :=
  0 <= current_question_index state <= Z.of_nat (length (plan state)) /\
  sublist (completed_question_ids state)
          (map q_id (take (Z.to_nat (current_question_index state)) (plan state))).

Lemma take_next {A} (l : list A) (i : Z) (x : A) :
  0 <= i < Z.of_nat (length l) -> py_index l i = Ok x ->
  take (Z.to_nat (i + 1)) l = take (Z.to_nat i) l ++ [x].
Proof.
  intros Hi Hx. destruct (py_index_within l i Hi) as [Heq [y Hy]].
  rewrite Heq, Hy in Hx. cbn in Hx. injection Hx as ->.
  replace (Z.to_nat (i + 1)) with (S (Z.to_nat i)) by lia.
  now apply take_S_r.
Qed.

Lemma research_outcome_cursor researcher state state' :
  research_outcome researcher state state' -> cursor_ok state -> cursor_ok state'.
Proof.
  intros Hout [Hidx Hsub].
  destruct Hout as [Hidle | q Hin Hq Hdeps Hsat | q answer Hin Hq Hans].
  - now split.
  - unfold cursor_ok. cbn [current_question_index plan completed_question_ids
                           set_current_question_index].
    split; [lia |].
    rewrite (take_next _ _ q) by (try exact Hq; lia).
    rewrite map_app. now apply sublist_inserts_r.
  - unfold cursor_ok. cbn [current_question_index plan completed_question_ids researched].
    split; [lia |].
    rewrite (take_next _ _ q) by (try exact Hq; lia).
    rewrite map_app. cbn [map]. now apply sublist_app.
Qed.

Lemma step_cursor n state n' state' :
  step (n, state) (n', state') ->
  (n = N_plan \/ cursor_ok state) -> cursor_ok state'.
Proof.
  intros Hstep Hpre.
  inversion Hstep as [s qs s1 Hp | s r s1 Hr | s r | s | s w s1 Hw]; subst.
  - apply plan_node_fields in Hp as (Hplan & Hidx & Hdone & _).
    unfold cursor_ok. rewrite Hidx, Hdone. split; [lia |]. apply sublist_nil_l.
  - destruct Hpre as [| Hok]; [discriminate |].
    apply run_research_node_outcome in Hr.
    now apply (research_outcome_cursor _ _ _ Hr).
  - destruct Hpre as [| [Hidx Hsub]]; [discriminate |].
    unfold cursor_ok, reflect_node.
    cbn [current_question_index plan completed_question_ids].
    destruct (r_new_questions r) as [| q qs] eqn:Hnew; [now split |].
    rewrite length_app, take_app_le by lia. split; [lia | exact Hsub].
  - destruct Hpre as [| Hok]; [discriminate | exact Hok].
  - destruct Hpre as [| Hok]; [discriminate |].
    unfold write_node in Hw. destruct (depth_of_string _); [| discriminate].
    now injection Hw as <-.
Qed.

Lemma execution_cursor c tr :
  cursor_ok (snd c) -> execution c tr -> Forall (fun c' => cursor_ok (snd c')) tr.
Proof.
  intros Hok Hexec. induction Hexec as [c | c c' tr Hstep Hexec IH].
  - constructor; [exact Hok | constructor].
  - constructor; [exact Hok |]. apply IH.
    destruct c as [n state], c' as [n' state'].
    apply (step_cursor _ _ _ _ Hstep). now right.
Qed.

(** X11. In every run started at [plan], from the plan step on, the
    cursor stays between [0] and the length of the plan, and the
    completed ids are a subsequence of the ids of the questions before
    the cursor: a question is researched at most once, in plan order,
    and one that was passed over is not taken up again. So
    [research_node] never fails on its index, and what it raises is
    what the researcher raised. *)
Theorem X11_cursor_within_plan (state0 : ResearchState) (tr : list Config) :
  execution (N_plan, state0) tr ->
  Forall (fun c =>
            cursor_ok (snd c) /\
            (forall e, research_node (snd c) <> Return (Raise e)) /\
            (forall researcher e,
               run_research_node researcher (snd c) = Raise e ->
               exists question,
                 py_index (plan (snd c)) (current_question_index (snd c)) = Ok question /\
                 researcher question = Raise e))
         (tail tr).
Proof.
  intros Hexec.
  assert (Hall : Forall (fun c => cursor_ok (snd c)) (tail tr)).
  { inversion Hexec as [c | c c' tr' Hstep Hexec']; subst; [constructor |].
    cbn [tail]. apply (execution_cursor c'); [| exact Hexec'].
    destruct c' as [n' state']. apply (step_cursor _ _ _ _ Hstep). now left. }
  eapply List.Forall_impl; [| exact Hall].
  intros [n state] Hok. cbn [snd] in *. split; [exact Hok |].
  destruct Hok as [Hidx _].
  assert (Hnode : forall e, research_node state <> Return (Raise e)).
  { intros e. unfold research_node.
    destruct (Z.of_nat (length (plan state)) <=? current_question_index state) eqn:Hpast;
      [discriminate |].
    apply Z.leb_gt in Hpast.
    destruct (py_index_within (plan state) (current_question_index state)) as [Heq [q Hq]];
      [lia |].
    rewrite Heq, Hq. cbn. now destruct (_ && _). }
  split; [exact Hnode |].
  intros researcher e. unfold run_research_node.
  specialize (Hnode e). revert Hnode. unfold research_node.
  destruct (Z.of_nat (length (plan state)) <=? current_question_index state);
    [discriminate |].
  destruct (py_index (plan state) (current_question_index state)) as [q | e'];
    [| intros Hne [= ->]; now contradiction Hne].
  destruct (_ && _); [discriminate |].
  intros _. cbn. destruct (researcher q) as [answer | e'] eqn:Hr; [discriminate |].
  cbn. intros [= ->]. now exists q.
Qed.

Lemma X11_witness_budget_one_run :
  let tr := run 20 never_complete 0 (N_plan, initial_state 1) in
  map (fun c => (current_question_index (snd c), completed_question_ids (snd c))) tr
  = [(0, []); (0, []); (1, ["A"]); (1, ["A"]); (2, ["A"; "B"]); (2, ["A"; "B"]);
     (2, ["A"; "B"])] /\
  Forall (fun c =>
            cursor_ok (snd c) /\
            (forall e, research_node (snd c) <> Return (Raise e)) /\
            (forall researcher e,
               run_research_node researcher (snd c) = Raise e ->
               exists question,
                 py_index (plan (snd c)) (current_question_index (snd c)) = Ok question /\
                 researcher question = Raise e))
         (tail tr).
Proof.
  split; [vm_compute; reflexivity |].
  apply (X11_cursor_within_plan (initial_state 1)
           (run 20 never_complete 0 (N_plan, initial_state 1))).
  apply run_execution.
Defined.

(** *** What a run keeps *)

(** From [state] to [state']: the job, its topic, depth and budget are
    the same, and the findings and the search history are continued. *)
Definition continues (state state' : ResearchState) : Prop :=
  job_id state' = job_id state /\ topic state' = topic state /\
  depth state' = depth state /\ max_iterations state' = max_iterations state /\
  findings state `prefix_of` findings state' /\
  search_history state `prefix_of` search_history state'.

(** After the plan step the plan and the completed ids are continued
    as well, and the cursor does not move back. *)
Definition continues_plan (state state' : ResearchState) : Prop :=
  plan state `prefix_of` plan state' /\
  completed_question_ids state `prefix_of` completed_question_ids state' /\
  current_question_index state <= current_question_index state'.

Lemma continues_refl state : continues state state.
Proof. unfold continues. repeat (split; [reflexivity |]). reflexivity. Qed.

Lemma continues_trans s1 s2 s3 : continues s1 s2 -> continues s2 s3 -> continues s1 s3.
Proof.
  intros (H1 & H2 & H3 & H4 & H5 & H6) (K1 & K2 & K3 & K4 & K5 & K6).
  unfold continues. repeat (split; [congruence |]).
  split; etransitivity; eassumption.
Qed.

Lemma continues_plan_refl state : continues_plan state state.
Proof. split; [reflexivity |]. split; [reflexivity | lia]. Qed.

Lemma continues_plan_trans s1 s2 s3 :
  continues_plan s1 s2 -> continues_plan s2 s3 -> continues_plan s1 s3.
Proof.
  intros (H1 & H2 & H3) (K1 & K2 & K3).
  split; [etransitivity; eassumption |]. split; [etransitivity; eassumption | lia].
Qed.

Ltac same_fields :=
  unfold continues; cbn; repeat (split; [reflexivity |]); reflexivity.

Lemma step_continues n state n' state' :
  step (n, state) (n', state') ->
  continues state state' /\ n' <> N_plan /\ (n <> N_plan -> continues_plan state state').
Proof.
  intros Hstep.
  inversion Hstep as [s qs s1 Hp | s r s1 Hr | s r | s | s w s1 Hw]; subst.
  - apply plan_node_iteration in Hp as Hit. destruct Hit as [_ Hmax].
    apply plan_node_fields in Hp as (_ & _ & _ & Hf & Hh & Hj & Ht & Hd).
    split; [| split; [discriminate | intros Hn; now contradiction Hn]].
    unfold continues. rewrite Hf, Hh.
    split; [exact Hj |]. split; [exact Ht |]. split; [exact Hd |].
    split; [exact Hmax |]. split; reflexivity.
  - apply run_research_node_outcome in Hr.
    split; [| split].
    + destruct Hr as [Hidle | q Hin Hq Hdeps Hsat | q answer Hin Hq Hans];
        [apply continues_refl | same_fields |].
      unfold continues; cbn. repeat (split; [reflexivity |]).
      split; now apply prefix_app_r.
    + unfold after_research. now destruct (should_continue_researching _).
    + intros _.
      destruct Hr as [Hidle | q Hin Hq Hdeps Hsat | q answer Hin Hq Hans].
      * apply continues_plan_refl.
      * unfold continues_plan. cbn. split; [reflexivity |]. split; [reflexivity | lia].
      * unfold continues_plan. cbn.
        split; [reflexivity |]. split; [now apply prefix_app_r | lia].
  - split; [same_fields |]. split; [discriminate |]. intros _.
    unfold continues_plan, reflect_node. cbn.
    destruct (r_new_questions r);
      (split; [first [reflexivity | now apply prefix_app_r] |]);
      (split; [reflexivity | lia]).
  - split; [same_fields |]. split; [discriminate |]. intros _.
    unfold continues_plan. cbn. split; [reflexivity |]. split; [reflexivity | lia].
  - unfold write_node in Hw. destruct (depth_of_string _); [| discriminate].
    injection Hw as <-.
    split; [same_fields |]. split; [discriminate |]. intros _.
    unfold continues_plan. cbn. split; [reflexivity |]. split; [reflexivity | lia].
Qed.

Lemma execution_continues c tr :
  execution c tr ->
  Forall (fun c' => continues (snd c) (snd c')) tr /\
  (fst c <> N_plan -> Forall (fun c' => continues_plan (snd c) (snd c')) tr).
Proof.
  intros Hexec. induction Hexec as [c | c c' tr Hstep Hexec IH].
  - split; [| intros _]; (constructor; [| constructor]);
      [apply continues_refl | apply continues_plan_refl].
  - destruct IH as [IH1 IH2]. destruct c as [n state], c' as [n' state'].
    apply step_continues in Hstep as (Hc & Hn' & Hp). cbn [fst snd] in *.
    split.
    + constructor; [apply continues_refl |].
      eapply List.Forall_impl; [| exact IH1].
      intros c'' Hc''. now apply continues_trans with state'.
    + intros Hn. constructor; [apply continues_plan_refl |].
      eapply List.Forall_impl; [| exact (IH2 Hn')].
      intros c'' Hc''. apply continues_plan_trans with state'; [now apply Hp | exact Hc''].
Qed.

Lemma execution_sorted_plan c tr :
  fst c <> N_plan -> execution c tr ->
  StronglySorted (fun c1 c2 => continues_plan (snd c1) (snd c2)) tr.
Proof.
  intros Hc Hexec. induction Hexec as [c | c c' tr Hstep Hexec IH].
  - repeat constructor.
  - destruct c as [n state], c' as [n' state']. cbn [fst] in *.
    apply step_continues in Hstep as (_ & Hn' & Hp).
    constructor; [now apply IH |].
    destruct (execution_continues _ _ Hexec) as [_ H2]. cbn [fst snd] in *.
    eapply List.Forall_impl; [| exact (H2 Hn')].
    intros c'' Hc''. apply continues_plan_trans with state'; [now apply Hp | exact Hc''].
Qed.

(** X12. A run never rewrites what it has gathered. Along every run
    the job id, topic, depth and budget stay the same and the findings
    and the search history only grow at their end; from any
    configuration other than [plan] on, the plan and the completed ids
    only grow at their end too, and the cursor never moves back. *)
Theorem X12_run_only_appends (c : Config) (tr : list Config) :
  execution c tr ->
  Forall (fun c' => continues (snd c) (snd c')) tr /\
  (fst c <> N_plan ->
   Forall (fun c' => continues_plan (snd c) (snd c')) tr) /\
  StronglySorted (fun c1 c2 => continues (snd c1) (snd c2)) tr /\
  StronglySorted (fun c1 c2 => continues_plan (snd c1) (snd c2)) (tail tr).
Proof.
  intros Hexec.
  destruct (execution_continues c tr Hexec) as [H1 H2].
  split; [exact H1 |]. split; [exact H2 |].
  split.
  - clear H1 H2. induction Hexec as [c | c c' tr Hstep Hexec IH].
    + repeat constructor.
    + constructor; [exact IH |].
      destruct (execution_continues c' tr Hexec) as [H1 _].
      destruct c as [n state], c' as [n' state'].
      apply step_continues in Hstep as (Hc & _).
      eapply List.Forall_impl; [| exact H1].
      intros c'' Hc''. now apply continues_trans with state'.
  - clear H1 H2. inversion Hexec as [c0 | c0 c' tr' Hstep Hexec']; subst;
      [constructor |].
    cbn [tail]. apply (execution_sorted_plan c'); [| exact Hexec'].
    destruct c as [n state], c' as [n' state'].
    now apply step_continues in Hstep as (_ & Hn' & _).
Qed.

Lemma X12_witness_budget_one_run :
  let c := (N_plan, initial_state 1) in
  let tr := run 20 never_complete 0 c in
  map (fun c' => length (findings (snd c'))) tr = [0; 0; 1; 1; 2; 2; 2]%nat /\
  (Forall (fun c' => continues (snd c) (snd c')) tr /\
   (fst c <> N_plan ->
    Forall (fun c' => continues_plan (snd c) (snd c')) tr) /\
   StronglySorted (fun c1 c2 => continues (snd c1) (snd c2)) tr /\
   StronglySorted (fun c1 c2 => continues_plan (snd c1) (snd c2)) (tail tr)).
Proof.
  split; [vm_compute; reflexivity |].
  apply (X12_run_only_appends (N_plan, initial_state 1)
           (run 20 never_complete 0 (N_plan, initial_state 1))).
  apply run_execution.
Defined.

(** *** The state at the end *)

(** What holds of the state once [verify] has run, and once [write]
    has. *)
Definition verified_ok (n : Node) (state : ResearchState) : Prop :=
  (n = N_write \/ n = N_END ->
   verified_findings state = Verifier.verify (findings state)) /\
  (n = N_END -> status state = COMPLETED /\ is_Some (report state)).

Lemma step_verified n state n' state' :
  step (n, state) (n', state') ->
  n <> N_END -> verified_ok n state -> verified_ok n' state'.
Proof.
  intros Hstep Hn [Hv Hend].
  inversion Hstep as [s qs s1 Hp | s r s1 Hr | s r | s | s w s1 Hw]; subst.
  - split; [intros [|]; discriminate | discriminate].
  - unfold after_research. destruct (should_continue_researching _);
      (split; [intros [|]; discriminate | discriminate]).
  - split; [intros [|]; discriminate | discriminate].
  - split; [intros _; reflexivity | discriminate].
  - unfold write_node in Hw. destruct (depth_of_string _); [| discriminate].
    injection Hw as <-. cbn. split; [intros _; apply Hv; now left |].
    intros _. split; [reflexivity | eauto].
Qed.

Lemma execution_verified c tr :
  fst c <> N_END -> verified_ok (fst c) (snd c) -> execution c tr ->
  Forall (fun c' => verified_ok (fst c') (snd c')) tr.
Proof.
  intros Hn Hok Hexec. induction Hexec as [c | c c' tr Hstep Hexec IH].
  - constructor; [exact Hok | constructor].
  - constructor; [exact Hok |].
    destruct c as [n state], c' as [n' state']. cbn [fst snd] in *.
    pose proof (step_verified _ _ _ _ Hstep Hn Hok) as Hok'.
    inversion Hexec as [c0 | c0 c'' tr' Hstep' Hexec']; subst.
    + constructor; [exact Hok' | constructor].
    + apply IH; [| exact Hok']. cbn [fst]. intros ->. inversion Hstep'.
Qed.

(** X13. A run started at [plan] that reaches [END] ends completed:
    its state has status COMPLETED and a report, and its verified
    findings are the verdicts of [verify] on all the findings the run
    gathered, one verdict for each finding. *)
Theorem X13_run_ends_completed (state0 : ResearchState) (tr : list Config)
    (state : ResearchState) :
  execution (N_plan, state0) tr ->
  (N_END, state) ∈ tr ->
  status state = COMPLETED /\ is_Some (report state) /\
  verified_findings state = Verifier.verify (findings state) /\
  map vf_finding (verified_findings state) ≡ₚ findings state /\
  findings state0 `prefix_of` findings state.
Proof.
  intros Hexec Hin.
  assert (Hall : Forall (fun c' => verified_ok (fst c') (snd c')) tr).
  { apply (execution_verified (N_plan, state0)); [discriminate | | exact Hexec].
    split; [intros [|]; discriminate | discriminate]. }
  rewrite Forall_forall in Hall. destruct (Hall _ Hin) as [Hv Hend]. cbn [fst snd] in *.
  destruct (Hend eq_refl) as [Hstatus Hreport].
  specialize (Hv (or_intror eq_refl)).
  split; [exact Hstatus |]. split; [exact Hreport |]. split; [exact Hv |].
  split; [rewrite Hv; apply VerifierMore.verify_findings |].
  destruct (execution_continues _ _ Hexec) as [Hc _].
  rewrite Forall_forall in Hc. now destruct (Hc _ Hin) as (_ & _ & _ & _ & Hf & _).
Qed.

Definition end_of_budget_one_run : ResearchState :=
  snd (List.last (run 20 never_complete 0 (N_plan, initial_state 1))
                 (N_plan, initial_state 1)).

Lemma X13_witness_budget_one_run :
  (N_END, end_of_budget_one_run) ∈ run 20 never_complete 0 (N_plan, initial_state 1) /\
  length (findings end_of_budget_one_run) = 2%nat /\
  (status end_of_budget_one_run = COMPLETED /\ is_Some (report end_of_budget_one_run) /\
   verified_findings end_of_budget_one_run
   = Verifier.verify (findings end_of_budget_one_run) /\
   map vf_finding (verified_findings end_of_budget_one_run)
   ≡ₚ findings end_of_budget_one_run /\
   findings (initial_state 1) `prefix_of` findings end_of_budget_one_run).
Proof.
  assert (Hin : (N_END, end_of_budget_one_run)
                ∈ run 20 never_complete 0 (N_plan, initial_state 1)).
  { apply list_elem_of_In. vm_compute. do 6 right. left. reflexivity. }
  split; [exact Hin |]. split; [vm_compute; reflexivity |].
  apply (X13_run_ends_completed (initial_state 1)
           (run 20 never_complete 0 (N_plan, initial_state 1))).
  - apply run_execution.
  - exact Hin.
Defined.

End WorkflowMore.

(** ** The table of jobs *)

Module StorageMore.
Import State Storage StorageProps.

(** X14. What a save keeps and what it drops. When the table holds a
    row for the job of [state] and [save_state] returned, [load_state]
    returns a state with the status, plan, cursor, findings, search
    history, iteration, reflection, verified findings, conflicts,
    report, report sections and error of [state]; its topic, depth and
    budget are those of the row (the UPDATE does not write them), and
    its completed question ids are empty, whatever [state] held. *)
Theorem X14_load_after_save_fields CURRENT_TIMESTAMP fresh_id now
    (db : Table) (state : ResearchState) (row : Row) (db' : Table) :
  db !! job_id state = Some row ->
  save_state CURRENT_TIMESTAMP db state = Ok db' ->
  exists state',
    load_state fresh_id now db' (job_id state) = Ok (Some state') /\
    (status state' = status state /\ plan state' = plan state /\
     current_question_index state' = current_question_index state /\
     findings state' = findings state /\
     search_history state' = search_history state /\
     iteration state' = iteration state /\ reflection state' = reflection state /\
     verified_findings state' = verified_findings state /\
     conflicts state' = conflicts state /\ report state' = report state /\
     report_sections state' = report_sections state /\ error state' = error state) /\
    (job_id state' = col_id row /\ topic state' = col_topic row /\
     depth state' = col_depth row /\ max_iterations state' = col_max_iterations row) /\
    completed_question_ids state' = [] /\
    (state' = state <->
     col_id row = job_id state /\ col_topic row = topic state /\
     col_depth row = depth state /\ col_max_iterations row = max_iterations state /\
     completed_question_ids state = []).
Proof.
  intros Hrow Hsave. exists (reloaded state row).
  split; [exact (load_after_save _ fresh_id now _ _ _ _ Hrow Hsave) |].
  split; [repeat split |]. split; [repeat split |]. split; [reflexivity |].
  unfold reloaded. split.
  - intros Heq. destruct state. cbn in *. injection Heq as -> -> -> -> ->.
    repeat split.
  - intros (H1 & H2 & H3 & H4 & H5). destruct state. cbn in *. now subst.
Qed.

Lemma X14_witness_created_job :
  created !! "1f0c9a2e" = Some
    {| col_id := "1f0c9a2e"; col_topic := "tides"; col_depth := "quick";
       col_status := "pending"; col_plan_json := None;
       col_current_question_index := 0; col_findings_json := None;
       col_search_history_json := None; col_iteration := 0;
       col_max_iterations := 5; col_reflection_json := None;
       col_verified_findings_json := None; col_conflicts_json := None;
       col_report := None; col_report_sections_json := None; col_error := None;
       col_created_at := "2026-01-05 10:00:00";
       col_updated_at := "2026-01-05 10:00:00" |} /\
  exists state',
    load_state "q_0" "2026-01-05T10:06:00" (saved created (running_state "1f0c9a2e"))
      "1f0c9a2e" = Ok (Some state') /\
    completed_question_ids (running_state "1f0c9a2e") = ["A"; "B"] /\
    completed_question_ids state' = [] /\
    plan state' = plan (running_state "1f0c9a2e").
Proof.
  assert (H1 : created !! job_id (running_state "1f0c9a2e") = Some
    {| col_id := "1f0c9a2e"; col_topic := "tides"; col_depth := "quick";
       col_status := "pending"; col_plan_json := None;
       col_current_question_index := 0; col_findings_json := None;
       col_search_history_json := None; col_iteration := 0;
       col_max_iterations := 5; col_reflection_json := None;
       col_verified_findings_json := None; col_conflicts_json := None;
       col_report := None; col_report_sections_json := None; col_error := None;
       col_created_at := "2026-01-05 10:00:00";
       col_updated_at := "2026-01-05 10:00:00" |})
    by (vm_compute; reflexivity).
  assert (H2 : save_state "2026-01-05 10:05:00" created (running_state "1f0c9a2e")
               = Ok (saved created (running_state "1f0c9a2e")))
    by (vm_compute; reflexivity).
  split; [exact H1 |].
  destruct (X14_load_after_save_fields "2026-01-05 10:05:00" "q_0" "2026-01-05T10:06:00"
              created (running_state "1f0c9a2e") _
              (saved created (running_state "1f0c9a2e")) H1 H2)
    as (state' & Hload & Hsame & _ & Hdone & _).
  exists state'. split; [exact Hload |]. split; [reflexivity |].
  split; [exact Hdone |]. exact (proj1 (proj2 Hsame)).
Defined.

(** The UPDATE of [save_state] writes every column it names, so the
    row it leaves does not depend on what an earlier save wrote. *)
Lemma updated_row_twice ts1 ts2 s1 s2 i1 k1 i2 k2 row :
  updated_row ts2 s2 i2 k2 (updated_row ts1 s1 i1 k1 row) = updated_row ts2 s2 i2 k2 row.
Proof. reflexivity. Qed.

(** X15. Saves of one job do not add up: the last one wins. After
    [save_state] of [state1] and then of [state2], both for the same
    job, the table is the one a single save of [state2] leaves; and a
    save touches no row of another job and neither adds nor removes a
    row. *)
Theorem X15_last_save_wins ts1 ts2 (db db1 db2 : Table) (state1 state2 : ResearchState) :
  job_id state1 = job_id state2 ->
  save_state ts1 db state1 = Ok db1 ->
  save_state ts2 db1 state2 = Ok db2 ->
  save_state ts2 db state2 = Ok db2 /\
  dom db2 = dom db /\
  (forall other, other <> job_id state2 -> db2 !! other = db !! other).
Proof.
  intros Hid H1 H2.
  pose proof (save_state_Ok _ _ _ _ H1) as E1.
  pose proof (save_state_Ok _ _ _ _ H2) as E2.
  assert (Hone : db2 = alter (updated_row ts2 state2 (current_question_index state2)
                                (iteration state2)) (job_id state2) db).
  { rewrite E2, E1, Hid. apply map_eq. intros k.
    destruct (decide (job_id state2 = k)) as [<- | Hk].
    - rewrite !lookup_alter_eq.
      destruct (db !! job_id state2) as [row |]; [| reflexivity]. cbn.
      now rewrite updated_row_twice.
    - now rewrite !lookup_alter_ne. }
  split.
  - unfold save_state in *.
    destruct (sqlite_int (current_question_index state2)) as [i |] eqn:Hi;
      [| discriminate].
    destruct (sqlite_int (iteration state2)) as [k |] eqn:Hk; [| discriminate].
    apply sqlite_int_Ok in Hi, Hk. subst i k. cbn. now rewrite Hone.
  - split.
    + rewrite (save_state_dom _ _ _ _ H2). exact (save_state_dom _ _ _ _ H1).
    + intros other Hother. rewrite Hone. now rewrite lookup_alter_ne.
Qed.

Lemma X15_witness_two_saves :
  let state1 := running_state "1f0c9a2e" in
  let state2 := WorkflowProps.initial_state 1 in
  let db1 := saved created state1 in
  let db2 := saved db1 state2 in
  job_id state1 = job_id state2 /\
  save_state "2026-01-05 10:05:00" created state1 = Ok db1 /\
  save_state "2026-01-05 10:05:00" db1 state2 = Ok db2 /\
  (save_state "2026-01-05 10:05:00" created state2 = Ok db2 /\
   dom db2 = dom created /\
   (forall other, other <> job_id state2 -> db2 !! other = created !! other)).
Proof.
  cbn zeta.
  assert (H0 : job_id (running_state "1f0c9a2e") = job_id (WorkflowProps.initial_state 1))
    by reflexivity.
  assert (H1 : save_state "2026-01-05 10:05:00" created (running_state "1f0c9a2e")
               = Ok (saved created (running_state "1f0c9a2e")))
    by (vm_compute; reflexivity).
  assert (H2 : save_state "2026-01-05 10:05:00" (saved created (running_state "1f0c9a2e"))
                 (WorkflowProps.initial_state 1)
               = Ok (saved (saved created (running_state "1f0c9a2e"))
                       (WorkflowProps.initial_state 1)))
    by (vm_compute; reflexivity).
  split; [exact H0 |]. split; [exact H1 |]. split; [exact H2 |].
  exact (X15_last_save_wins _ _ _ _ _ _ _ H0 H1 H2).
Defined.

(** The state of a job that was created and not yet saved. *)
Definition pending_state (job_id topic depth : string) (max_iterations : Z)
  : ResearchState :=
  {| job_id := job_id; topic := topic; depth := depth; status := PENDING;
     plan := []; current_question_index := 0; completed_question_ids := [];
     findings := []; search_history := []; iteration := 0;
     max_iterations := max_iterations; reflection := None;
     verified_findings := []; conflicts := []; report := None;
     report_sections := []; error := None |}.

(** X16. [create_job] returns exactly when the budget fits SQLite's
    64-bit INTEGER and the id it drew is not yet a key of the table
    (otherwise it raises OverflowError, or IntegrityError, and the
    table is not changed). The job it inserts loads as a pending state
    with the given topic, depth and budget, an empty plan, no
    findings, iteration 0 and no report; the other rows are as they
    were. *)
Theorem X16_create_job_then_load new_job_id CURRENT_TIMESTAMP fresh_id now
    (db : Table) (topic depth : string) (max_iterations : Z) :
  match create_job new_job_id CURRENT_TIMESTAMP db topic depth max_iterations with
  | Ok (job_id, db') =>
      job_id = new_job_id /\ db !! job_id = None /\
      - 2 ^ 63 <= max_iterations < 2 ^ 63 /\
      load_state fresh_id now db' job_id
      = Ok (Some (pending_state job_id topic depth max_iterations)) /\
      (forall other, other <> job_id -> db' !! other = db !! other)
  | Raise e =>
      (e = OverflowError /\ ~ (- 2 ^ 63 <= max_iterations < 2 ^ 63)) \/
      (e = IntegrityError /\ is_Some (db !! new_job_id))
  end.
Proof.
  unfold create_job, sqlite_int.
  destruct ((- 2 ^ 63 <=? max_iterations) && (max_iterations <? 2 ^ 63)) eqn:Hfit;
    cbn [mbind result_bind].
  - apply andb_true_iff in Hfit as [Hlo%Z.leb_le Hhi%Z.ltb_lt].
    destruct (db !! new_job_id) as [row |] eqn:Hfree; [right; eauto |].
    split; [reflexivity |]. split; [exact Hfree |]. split; [lia |].
    split.
    + unfold load_state. rewrite lookup_insert_eq. reflexivity.
    + intros other Hother. now rewrite lookup_insert_ne.
  - left. split; [reflexivity |]. intros [Hlo Hhi].
    apply andb_false_iff in Hfit as [H%Z.leb_gt | H%Z.ltb_ge]; lia.
Qed.

(** [_row_to_state] reads the status column only for the status. *)
Definition with_status (status : ResearchStatus) (state : ResearchState)
  : ResearchState :=
  {| job_id := job_id state; topic := topic state; depth := depth state;
     status := status; plan := plan state;
     current_question_index := current_question_index state;
     completed_question_ids := completed_question_ids state;
     findings := findings state; search_history := search_history state;
     iteration := iteration state; max_iterations := max_iterations state;
     reflection := reflection state;
     verified_findings := verified_findings state;
     conflicts := conflicts state; report := report state;
     report_sections := report_sections state; error := error state |}.

(** X17. [update_status] changes the status and nothing else: a job
    that loaded as [state] before loads as [state] with the new status
    afterwards; no other job is touched, and for an id without a row
    the table stays as it was. *)
Theorem X17_update_status_only_status CURRENT_TIMESTAMP fresh_id now
    (db : Table) (job : string) (new_status : ResearchStatus) :
  let db' := update_status CURRENT_TIMESTAMP db job new_status in
  (forall state,
     load_state fresh_id now db job = Ok (Some state) ->
     load_state fresh_id now db' job = Ok (Some (with_status new_status state))) /\
  (forall other, other <> job -> db' !! other = db !! other) /\
  (db !! job = None -> db' = db).
Proof.
  cbn zeta. unfold update_status. split; [| split].
  - intros state. unfold load_state. rewrite lookup_alter_eq.
    destruct (db !! job) as [row |]; [| discriminate]. cbn [fmap option_fmap option_map].
    unfold _row_to_state.
    cbn [col_id col_topic col_depth col_status col_plan_json col_current_question_index
         col_findings_json col_search_history_json col_iteration col_max_iterations
         col_reflection_json col_verified_findings_json col_conflicts_json col_report
         col_report_sections_json col_error].
    rewrite status_of_value.
    destruct (status_of_string (col_status row)); [| discriminate].
    cbn [mbind result_bind].
    destruct (Models.models_of _ (loads_or_empty (col_plan_json row))); [| discriminate].
    cbn [mbind result_bind].
    destruct (Models.models_of _ (loads_or_empty (col_findings_json row)));
      [| discriminate].
    cbn [mbind result_bind].
    destruct (Models.models_of _ (loads_or_empty (col_search_history_json row)));
      [| discriminate].
    cbn [mbind result_bind].
    destruct (match col_reflection_json row with Some _ => _ | None => _ end);
      [| discriminate].
    cbn [mbind result_bind].
    destruct (Models.models_of _ (loads_or_empty (col_verified_findings_json row)));
      [| discriminate].
    cbn [mbind result_bind].
    destruct (Models.models_of _ (loads_or_empty (col_conflicts_json row)));
      [| discriminate].
    cbn [mbind result_bind].
    destruct (Models.models_of _ (loads_or_empty (col_report_sections_json row)));
      [| discriminate].
    cbn [mbind result_bind]. now intros [= <-].
  - intros other Hother. now rewrite lookup_alter_ne.
  - intros Hnone. apply map_eq. intros k. rewrite lookup_alter.
    case_decide as Hk; [| reflexivity]. subst k. now rewrite Hnone.
Qed.

End StorageMore.

(** ** deepsearch/agents/reflector.py *)

Module Reflector.
Import State.

Section Reflect.

(** [json.loads]: [None] stands for [JSONDecodeError]. *)
Variable json_loads : string -> option json.
(** The default id of a new question that comes without one. *)
Variable fresh_id : string.

(** The answer of the first [if]. *)
Definition limit_reached : ReflectionResult :=
  {| r_is_complete := true; r_gaps := []; r_new_questions := [];
     r_reasoning := "Maximum iterations reached" |}.

(** The answer of the [except] branch. *)
Definition fallback_reflection (findings : list Finding) (iteration max_iterations : Z)
  : ReflectionResult :=
  {| r_is_complete := (0 <? length findings)%nat || (max_iterations - 1 <=? iteration);
     r_gaps := []; r_new_questions := [];
     r_reasoning := "Fallback completion check" |}.

(** [except (json.JSONDecodeError, TypeError)] *)
Definition reflect_catches (e : exn) : bool :=
  match e with
  | JSONDecodeError | TypeError => true
  | _ => false
  end.

(** The [try] block of [reflect]; [response] is what [llm.ainvoke]
    returned (the content of the message) or raised. The result is
    built from the decoded value unpacked into keyword arguments. *)
Definition reflect_body (response : result string) : result ReflectionResult :=
  content ← response;
  let content := PyStr.extract_json content in
  data ← of_option JSONDecodeError (json_loads content);
  Models.kwargs data ≫= Models.validate_reflection fresh_id.

(** [reflect]. The model is asked only past the first [if]. *)
Definition reflect (response : result string) (findings : list Finding)
    (plan : list ResearchQuestion) (iteration max_iterations : Z)
  : result ReflectionResult :=
  if max_iterations <=? iteration then Ok limit_reached
  else
    try_except (reflect_body response) reflect_catches
      (Ok (fallback_reflection findings iteration max_iterations)).

End Reflect.

End Reflector.

Module ReflectorProps.
Import State Reflector.

Lemma as_list_raises {A} (item : json -> result A) l e :
  (forall j e', item j = Raise e' -> e' = ValidationError) ->
  Pydantic.as_list item l = Raise e -> e = ValidationError.
Proof.
  intros Hitem. induction l as [| j l IH]; cbn; [discriminate |].
  destruct (item j) as [a | e'] eqn:Hj; cbn.
  - destruct (Pydantic.as_list item l) as [r | e'']; cbn; [discriminate |].
    intros [= <-]. now apply IH.
  - intros [= <-]. now apply Hitem in Hj.
Qed.

Lemma bind_raises {A B} (m : result A) (k : A -> result B) (e : exn) :
  m ≫= k = Raise e -> m = Raise e \/ exists a, m = Ok a /\ k a = Raise e.
Proof.
  destruct m as [a | e']; intros H.
  - right. exists a. split; [reflexivity | exact H].
  - left. cbn in H. now injection H as ->.
Qed.

Lemma as_str_raises j e : Pydantic.as_str j = Raise e -> e = ValidationError.
Proof. destruct j; cbn; congruence. Qed.

Lemma as_int_raises j e : Pydantic.as_int j = Raise e -> e = ValidationError.
Proof. destruct j; cbn; congruence. Qed.

Lemma as_bool_raises j e : Pydantic.as_bool j = Raise e -> e = ValidationError.
Proof. destruct j; cbn; congruence. Qed.

Lemma as_str_list_raises j e : Pydantic.as_str_list j = Raise e -> e = ValidationError.
Proof.
  destruct j; cbn; try congruence.
  apply as_list_raises. intros j e'. apply as_str_raises.
Qed.

Lemma as_strategy_raises j e : Models.as_strategy j = Raise e -> e = ValidationError.
Proof. unfold Models.as_strategy. destruct (Planner.strategy_of_json j); cbn; congruence. Qed.

Lemma required_raises k d e : Models.required k d = Raise e -> e = ValidationError.
Proof. unfold Models.required. destruct (Json.assoc k d); cbn; congruence. Qed.

Lemma nested_raises j e : Models.nested j = Raise e -> e = ValidationError.
Proof. destruct j; cbn; congruence. Qed.

Create HintDb validation.

#[local] Hint Resolve as_str_raises as_int_raises as_bool_raises as_str_list_raises
  as_strategy_raises required_raises nested_raises : validation.

(** Which exception a chain of validations raised. *)
Ltac raises H :=
  first [ discriminate H
        | solve [eauto with validation]
        | apply bind_raises in H as [H | (? & _ & H)]; [raises H | raises H] ].

(** Validation of a model raises nothing but [ValidationError]. *)
Lemma validate_question_raises fresh_id d e :
  Models.validate_question fresh_id d = Raise e -> e = ValidationError.
Proof. unfold Models.validate_question. intros H. raises H. Qed.

Lemma as_questions_raises fresh_id j e :
  Models.as_questions fresh_id j = Raise e -> e = ValidationError.
Proof.
  destruct j; cbn; try congruence.
  apply as_list_raises. intros j e' H.
  pose proof (validate_question_raises fresh_id) as Hq. raises H.
Qed.

Lemma validate_reflection_raises fresh_id d e :
  Models.validate_reflection fresh_id d = Raise e -> e = ValidationError.
Proof.
  unfold Models.validate_reflection. intros H.
  pose proof (as_questions_raises fresh_id) as Hq. raises H.
Qed.

(** X18. What [reflect] returns or raises. At or past the budget it
    answers 'complete' without looking at the model's answer. It
    proposes new questions only below the budget and only when the
    answer held a JSON object (the fallback proposes none). It never
    raises JSONDecodeError or TypeError: what it raises is what the
    model call raised, or the ValidationError of a JSON object that
    does not fit the result model, which the [except] clause does not
    name. *)
Theorem X18_reflect_outcomes (json_loads : string -> option json) (fresh_id : string)
    (response : result string) (findings : list Finding)
    (plan : list ResearchQuestion) (iteration max_iterations : Z) :
  match reflect json_loads fresh_id response findings plan iteration max_iterations with
  | Ok r =>
      (max_iterations <= iteration -> r = limit_reached) /\
      (r_new_questions r <> [] ->
       iteration < max_iterations /\
       exists content d,
         response = Ok content /\
         json_loads (PyStr.extract_json content) = Some (JObj d) /\
         Models.validate_reflection fresh_id d = Ok r)
  | Raise e =>
      iteration < max_iterations /\ reflect_catches e = false /\
      (response = Raise e \/
       e = ValidationError /\
       exists content d,
         response = Ok content /\
         json_loads (PyStr.extract_json content) = Some (JObj d) /\
         Models.validate_reflection fresh_id d = Raise ValidationError)
  end.
Proof.
  unfold reflect.
  destruct (max_iterations <=? iteration) eqn:Hlimit.
  { apply Z.leb_le in Hlimit. split; [reflexivity |]. cbn. congruence. }
  apply Z.leb_gt in Hlimit.
  unfold try_except, reflect_body.
  destruct response as [content | e]; cbn [mbind result_bind].
  - destruct (json_loads (PyStr.extract_json content)) as [data |] eqn:Hloads;
      cbn [of_option mbind result_bind].
    + destruct data as [| b | z | q | s | l | d];
        cbn [Models.kwargs mbind result_bind reflect_catches];
        try (split; [lia | cbn; congruence]).
      destruct (Models.validate_reflection fresh_id d) as [r | e] eqn:Hvalid.
      * split; [lia |]. intros _. split; [exact Hlimit |]. eauto.
      * pose proof (validate_reflection_raises _ _ _ Hvalid) as ->. cbn.
        split; [exact Hlimit |]. split; [reflexivity |]. right.
        split; [reflexivity |]. eauto.
    + cbn. split; [lia | congruence].
  - destruct (reflect_catches e) eqn:Hc.
    + split; [lia | cbn; congruence].
    + split; [exact Hlimit |]. split; [exact Hc |]. now left.
Qed.

(** X19. The fallback. Below the budget, an answer of the model that
    is not JSON, or is JSON but not an object, gives the fallback
    result: no gaps, no new questions, and 'complete' exactly when
    there is at least one finding or this is the last iteration of the
    budget. *)
Theorem X19_reflect_falls_back (json_loads : string -> option json) (fresh_id : string)
    (content : string) (findings : list Finding) (plan : list ResearchQuestion)
    (iteration max_iterations : Z) :
  iteration < max_iterations ->
  (forall d, json_loads (PyStr.extract_json content) <> Some (JObj d)) ->
  exists r,
    reflect json_loads fresh_id (Ok content) findings plan iteration max_iterations = Ok r /\
    r_gaps r = [] /\ r_new_questions r = [] /\
    (r_is_complete r = true <-> findings <> [] \/ iteration = max_iterations - 1).
Proof.
  intros Hlimit Hobj. exists (fallback_reflection findings iteration max_iterations).
  split.
  - unfold reflect. apply Z.leb_gt in Hlimit. rewrite Hlimit.
    unfold try_except, reflect_body. cbn [mbind result_bind].
    destruct (json_loads (PyStr.extract_json content)) as [data |] eqn:Hloads;
      cbn [of_option mbind result_bind]; [| reflexivity].
    destruct data as [| b | z | q | s | l | d]; try reflexivity.
    now contradiction (Hobj d).
  - split; [reflexivity |]. split; [reflexivity |].
    unfold fallback_reflection. cbn [r_is_complete].
    rewrite orb_true_iff, Nat.ltb_lt, Z.leb_le. split.
    + intros [Hlen | Hlast]; [left; destruct findings; [cbn in Hlen; lia | discriminate]
                             | right; lia].
    + intros [Hne | Hlast]; [left; destruct findings; [contradiction | cbn; lia]
                            | right; lia].
Qed.

Lemma X19_witness_json_array :
  let loads := PlannerProps.loads_only "[]" (JList []) in
  0 < 5 /\
  (forall d, loads (PyStr.extract_json "[]") <> Some (JObj d)) /\
  exists r,
    reflect loads "q_0" (Ok "[]") [] [] 0 5 = Ok r /\
    r_gaps r = [] /\ r_new_questions r = [] /\
    (r_is_complete r = true <-> @nil Finding <> [] \/ 0 = 5 - 1).
Proof.
  cbn zeta.
  assert (H1 : 0 < 5) by lia.
  assert (H2 : forall d, PlannerProps.loads_only "[]" (JList []) (PyStr.extract_json "[]")
                         <> Some (JObj d))
    by (intros d; vm_compute; discriminate).
  split; [exact H1 |]. split; [exact H2 |].
  exact (X19_reflect_falls_back _ "q_0" "[]" [] [] 0 5 H1 H2).
Defined.

Lemma execution_reflect_below c tr :
  (fst c = Workflow.N_reflect -> iteration (snd c) < max_iterations (snd c)) ->
  Workflow.execution c tr ->
  Forall (fun c' => fst c' = Workflow.N_reflect ->
                    iteration (snd c') < max_iterations (snd c')) tr.
Proof.
  intros Hc Hexec. induction Hexec as [c | c c' tr Hstep Hexec IH].
  - constructor; [exact Hc | constructor].
  - constructor; [exact Hc |]. apply IH.
    destruct c as [n state], c' as [n' state'].
    now apply WorkflowProps.step_iteration in Hstep as (_ & _ & Hnext).
Qed.

(** X20. In a run of the workflow the reflector is never asked at or
    past the budget: whenever [reflect] is the next node the iteration
    counter is below [max_iterations], so [reflect] does not take its
    'Maximum iterations reached' branch but asks the model. *)
Theorem X20_reflect_entered_below_budget (json_loads : string -> option json)
    (fresh_id : string) (state0 : ResearchState) (tr : list Workflow.Config) :
  Workflow.execution (Workflow.N_plan, state0) tr ->
  Forall (fun c =>
            fst c = Workflow.N_reflect ->
            iteration (snd c) < max_iterations (snd c) /\
            forall response,
              reflect json_loads fresh_id response (findings (snd c)) (plan (snd c))
                (iteration (snd c)) (max_iterations (snd c))
              = try_except (reflect_body json_loads fresh_id response) reflect_catches
                  (Ok (fallback_reflection (findings (snd c)) (iteration (snd c))
                         (max_iterations (snd c)))))
         tr.
Proof.
  intros Hexec.
  assert (Hall : Forall (fun c => fst c = Workflow.N_reflect ->
                                  iteration (snd c) < max_iterations (snd c)) tr).
  { apply (execution_reflect_below (Workflow.N_plan, state0)); [discriminate | exact Hexec]. }
  eapply List.Forall_impl; [| exact Hall].
  intros c Hc Hn. specialize (Hc Hn). split; [exact Hc |].
  intros response. unfold reflect. apply Z.leb_gt in Hc. now rewrite Hc.
Qed.

Lemma X20_witness_budget_one_run :
  let tr := Workflow.run 20 WorkflowProps.never_complete 0
              (Workflow.N_plan, WorkflowProps.initial_state 1) in
  map (fun c => (fst c, iteration (snd c), max_iterations (snd c))) tr
  = [(Workflow.N_plan, 0, 1); (Workflow.N_research, 0, 1); (Workflow.N_reflect, 0, 1);
     (Workflow.N_research, 1, 1); (Workflow.N_verify, 1, 1); (Workflow.N_write, 1, 1);
     (Workflow.N_END, 1, 1)] /\
  Forall (fun c =>
            fst c = Workflow.N_reflect ->
            iteration (snd c) < max_iterations (snd c) /\
            forall response,
              reflect (PlannerProps.loads_only "[]" (JList [])) "q_0" response
                (findings (snd c)) (plan (snd c))
                (iteration (snd c)) (max_iterations (snd c))
              = try_except
                  (reflect_body (PlannerProps.loads_only "[]" (JList [])) "q_0" response)
                  reflect_catches
                  (Ok (fallback_reflection (findings (snd c)) (iteration (snd c))
                         (max_iterations (snd c)))))
         tr.
Proof.
  split; [vm_compute; reflexivity |].
  apply (X20_reflect_entered_below_budget (PlannerProps.loads_only "[]" (JList [])) "q_0"
           (WorkflowProps.initial_state 1)).
  apply WorkflowProps.run_execution.
Defined.

End ReflectorProps.

(** ** deepsearch/agents/researcher.py *)

Module Researcher.
Import State.

(** [l[:n]] for a Python [int] [n]: a negative one drops from the
    end. *)
Definition slice_to {A : Type} (n : Z) (l : list A) : list A :=
  if 0 <=? n then take (Z.to_nat n) l
  else take (length l - Z.to_nat (- n)) l.

Record DepthConfig : Type := mkDepthConfig {
  max_results_per_query : Z;
  max_queries : Z;
  max_findings : Z
}.

(** [DEPTH_CONFIG.get(self.depth, DEPTH_CONFIG[ResearchDepth.BALANCED])] *)
Definition DEPTH_CONFIG (depth : ResearchDepth) : DepthConfig :=
  match depth with
  | QUICK => mkDepthConfig 3 1 3
  | BALANCED => mkDepthConfig 5 2 5
  | COMPREHENSIVE => mkDepthConfig 8 3 8
  end.

(** [q.lower().strip()] *)
Definition normalized (q : string) : string := PyStr.strip (PyStr.lower q).

(** The loop 'deduplicate while preserving order' of
    [_build_queries]. *)
Fixpoint unique_loop (queries : list string) (seen : gset string)
    (unique_queries : list string) : list string :=
  match queries with
  | [] => unique_queries
  | q :: rest =>
      let normalized := normalized q in
      if negb (bool_decide (normalized ∈ seen)) && negb (PyStr.is_empty normalized)
      then unique_loop rest ({[ normalized ]} ∪ seen) (unique_queries ++ [q])
      else unique_loop rest seen unique_queries
  end.

(** [_build_queries] *)
Definition _build_queries (question : ResearchQuestion) (max_queries : Z) : list string :=
  let base_query := q_question question in
  let operators :=
    match q_search_operators question with
    | [] => EmptyString
    | search_operators => Json.join " " search_operators
    end in
  let enhanced (words : string) : list string :=
    PyStr.strip (base_query +:+ " " +:+ operators)
    :: match q_keywords question with
       | [] => []
       | keywords =>
           [PyStr.strip (Json.join " " (take 3 keywords) +:+ words +:+ operators)]
       end in
  let queries :=
    match q_search_strategy question with
    | ACADEMIC => enhanced " paper research "
    | NEWS => enhanced " latest news "
    | TECHNICAL => enhanced " documentation tutorial "
    | _ =>
        base_query
        :: match q_keywords question with
           | [] => []
           | keywords =>
               let keyword_query := Json.join " " (take 3 keywords) in
               if negb (String.eqb keyword_query base_query)
               then [PyStr.strip (keyword_query +:+ " " +:+ operators)]
               else []
           end
    end in
  slice_to max_queries (unique_loop queries ∅ []).

(** The loop 'remove duplicates by URL' of [_synthesize_findings]. *)
Fixpoint unique_by_url (results : list FactChecker.SearchResult) (seen_urls : gset string)
    (unique_results : list FactChecker.SearchResult) : list FactChecker.SearchResult :=
  match results with
  | [] => unique_results
  | r :: rest =>
      if negb (bool_decide (FactChecker.sr_url r ∈ seen_urls))
      then unique_by_url rest ({[ FactChecker.sr_url r ]} ∪ seen_urls) (unique_results ++ [r])
      else unique_by_url rest seen_urls unique_results
  end.

(** [max(0.5, 0.9 - (i * 0.05))], as a fraction. *)
Definition credibility (i : nat) : Q :=
  let c := ((9 # 10) - inject_Z (Z.of_nat i) * (5 # 100))%Q in
  if Qle_bool c (1 # 2) then (1 # 2)%Q else c.

Section Research.

(** [datetime.now()], the default of the timestamps. *)
Variable now : datetime.

(** The body of the loop over [enumerate(unique_results[:max_findings])],
    starting at index [i]. *)
Fixpoint findings_from (question : ResearchQuestion) (i : nat)
    (results : list FactChecker.SearchResult) : list Finding :=
  match results with
  | [] => []
  | result :: rest =>
      {| f_question := q_question question;
         f_source := FactChecker.sr_url result;
         f_title := FactChecker.sr_title result;
         f_content := FactChecker.sr_snippet result;
         f_credibility := credibility i;
         f_timestamp := now |}
      :: findings_from question (S i) rest
  end.

(** [_synthesize_findings] *)
Definition _synthesize_findings (question : ResearchQuestion)
    (results : list FactChecker.SearchResult) (max_findings : Z) : list Finding :=
  match results with
  | [] => []
  | _ =>
      let unique_results := unique_by_url results ∅ [] in
      findings_from question 0 (slice_to max_findings unique_results)
  end.

(** The loop over [queries] of [research]: [search] is
    [search_tool.search]; the first search that raises ends it. *)
Fixpoint search_all (search : string -> Z -> result (list FactChecker.SearchResult))
    (max_results : Z) (queries : list string)
    (all_results : list FactChecker.SearchResult)
  : result (list FactChecker.SearchResult) :=
  match queries with
  | [] => Ok all_results
  | query :: rest =>
      results ← search query max_results;
      search_all search max_results rest (all_results ++ results)
  end.

(** [research]; [provider] is [search_tool.get_name()]. *)
Definition research (search : string -> Z -> result (list FactChecker.SearchResult))
    (provider : string) (depth : ResearchDepth) (question : ResearchQuestion)
  : result (list Finding * SearchRecord) :=
  let config := DEPTH_CONFIG depth in
  let queries := _build_queries question (max_queries config) in
  all_results ← search_all search (max_results_per_query config) queries [];
  let search_record :=
    {| sr_query := q_question question;
       sr_provider := provider;
       sr_results_count := Z.of_nat (length all_results);
       sr_timestamp := now |} in
  let findings := _synthesize_findings question all_results (max_findings config) in
  Ok (findings, search_record).

End Research.

End Researcher.

Module ResearcherProps.
Import State Researcher.

Lemma slice_to_sublist {A} (n : Z) (l : list A) : sublist (slice_to n l) l.
Proof. unfold slice_to. destruct (0 <=? n); apply sublist_take. Qed.

Lemma slice_to_prefix {A} (n : Z) (l : list A) : slice_to n l `prefix_of` l.
Proof. unfold slice_to. destruct (0 <=? n); apply prefix_take. Qed.

Lemma slice_to_length {A} (n : Z) (l : list A) :
  0 <= n -> Z.of_nat (length (slice_to n l)) <= n.
Proof.
  intros Hn. unfold slice_to. apply Z.leb_le in Hn as Hb. rewrite Hb.
  rewrite length_take. lia.
Qed.

(** *** [_build_queries] *)

Lemma unique_loop_acc queries seen unique_queries :
  unique_loop queries seen unique_queries
  = unique_queries ++ unique_loop queries seen [].
Proof.
  revert seen unique_queries.
  induction queries as [| q rest IH]; intros seen uq; cbn.
  - now rewrite app_nil_r.
  - destruct (_ && _); [| apply IH].
    rewrite (IH _ (uq ++ [q])), (IH _ [q]). now rewrite <- app_assoc.
Qed.

Lemma unique_loop_spec queries seen :
  let kept := unique_loop queries seen [] in
  sublist kept queries /\
  NoDup (map normalized kept) /\
  Forall (fun q => normalized q <> EmptyString /\ normalized q ∉ seen) kept.
Proof.
  revert seen. induction queries as [| q rest IH]; intros seen; cbn zeta; cbn [unique_loop].
  - split; [constructor |]. split; constructor.
  - destruct (negb (bool_decide (normalized q ∈ seen))
              && negb (PyStr.is_empty (normalized q))) eqn:Hkeep.
    + apply andb_true_iff in Hkeep as [Hnew Hblank].
      apply negb_true_iff, bool_decide_eq_false in Hnew.
      apply negb_true_iff in Hblank.
      rewrite (unique_loop_acc rest _ [q]). cbn [app].
      destruct (IH ({[ normalized q ]} ∪ seen)) as (Hsub & Hnodup & Hall).
      split; [now apply sublist_skip |]. cbn [map].
      split.
      * apply NoDup_cons. split; [| exact Hnodup].
        intros Hin. apply list_elem_of_fmap in Hin as (q' & Heq & Hq').
        rewrite Forall_forall in Hall. destruct (Hall _ Hq') as [_ Hnot].
        apply Hnot. rewrite <- Heq. set_solver.
      * constructor.
        -- split; [| exact Hnew]. intros Heq. rewrite Heq in Hblank. discriminate.
        -- eapply List.Forall_impl; [| exact Hall].
           intros q' [H1 H2]. split; [exact H1 | set_solver].
    + destruct (IH seen) as (Hsub & Hnodup & Hall).
      split; [now apply sublist_cons |]. now split.
Qed.

(** The queries before the deduplication are one or two. *)
Lemma queries_at_most_two (question : ResearchQuestion) (max_queries : Z) :
  exists queries,
    _build_queries question max_queries = slice_to max_queries (unique_loop queries ∅ []) /\
    (length queries <= 2)%nat.
Proof.
  unfold _build_queries.
  destruct (q_search_strategy question), (q_keywords question) as [| k ks];
    try destruct (negb _);
    (eexists; split; [reflexivity | cbn; lia]).
Qed.

Lemma Forall_sublist {A} (P : A -> Prop) (l k : list A) :
  sublist l k -> Forall P k -> Forall P l.
Proof.
  intros Hsub Hall. rewrite Forall_forall in *. intros x Hx.
  apply Hall. eapply elem_of_sublist; eauto.
Qed.

Lemma build_queries_length (question : ResearchQuestion) (max_queries : Z) :
  0 <= max_queries ->
  Z.of_nat (length (_build_queries question max_queries)) <= max_queries.
Proof.
  intros Hmax. destruct (queries_at_most_two question max_queries) as (qs & -> & _).
  now apply slice_to_length.
Qed.

(** X21. [_build_queries] returns at most two queries, and at most
    [max_queries] of them; none is blank and no two are the same up to
    case and surrounding whitespace. *)
Theorem X21_build_queries (question : ResearchQuestion) (max_queries : Z) :
  let queries := _build_queries question max_queries in
  (length queries <= 2)%nat /\
  (0 <= max_queries -> Z.of_nat (length queries) <= max_queries) /\
  Forall (fun q => normalized q <> EmptyString) queries /\
  NoDup (map normalized queries).
Proof.
  cbn zeta. destruct (queries_at_most_two question max_queries) as (qs & -> & Hlen).
  destruct (unique_loop_spec qs ∅) as (Hsub & Hnodup & Hall).
  pose proof (slice_to_sublist max_queries (unique_loop qs ∅ [])) as Hslice.
  split.
  - apply sublist_length in Hslice, Hsub. lia.
  - split; [intros Hmax; now apply slice_to_length |]. split.
    + apply (Forall_sublist _ _ _ Hslice).
      eapply List.Forall_impl; [| exact Hall]. now intros q [H _].
    + eapply sublist_NoDup; [exact Hnodup |]. now apply fmap_sublist.
Qed.

(** *** [_synthesize_findings] *)

Lemma unique_by_url_acc results seen unique_results :
  unique_by_url results seen unique_results
  = unique_results ++ unique_by_url results seen [].
Proof.
  revert seen unique_results.
  induction results as [| r rest IH]; intros seen ur; cbn.
  - now rewrite app_nil_r.
  - destruct (negb _); [| apply IH].
    rewrite (IH _ (ur ++ [r])), (IH _ [r]). now rewrite <- app_assoc.
Qed.

Lemma unique_by_url_spec results seen :
  let kept := unique_by_url results seen [] in
  sublist kept results /\
  NoDup (map FactChecker.sr_url kept) /\
  Forall (fun r => FactChecker.sr_url r ∉ seen) kept /\
  (forall u, u ∈ map FactChecker.sr_url results -> u ∉ seen ->
             u ∈ map FactChecker.sr_url kept).
Proof.
  revert seen. induction results as [| r rest IH]; intros seen; cbn zeta;
    cbn [unique_by_url].
  - split; [constructor |]. split; [constructor |]. split; [constructor |].
    intros u Hu. now apply elem_of_nil in Hu.
  - destruct (negb (bool_decide (FactChecker.sr_url r ∈ seen))) eqn:Hnew.
    + apply negb_true_iff, bool_decide_eq_false in Hnew.
      rewrite (unique_by_url_acc rest _ [r]). cbn [app].
      destruct (IH ({[ FactChecker.sr_url r ]} ∪ seen)) as (Hsub & Hnodup & Hall & Hcov).
      split; [now apply sublist_skip |]. cbn [map].
      split; [| split].
      * apply NoDup_cons. split; [| exact Hnodup].
        intros Hin. apply list_elem_of_fmap in Hin as (r' & Heq & Hr').
        rewrite Forall_forall in Hall. apply (Hall _ Hr'). rewrite <- Heq. set_solver.
      * constructor; [exact Hnew |].
        eapply List.Forall_impl; [| exact Hall]. intros r' H. set_solver.
      * intros u Hu Hseen. apply elem_of_cons in Hu as [-> | Hu]; [now left |].
        destruct (decide (u = FactChecker.sr_url r)) as [-> | Hne]; [now left |].
        right. apply Hcov; [exact Hu | set_solver].
    + apply negb_false_iff, bool_decide_eq_true in Hnew.
      destruct (IH seen) as (Hsub & Hnodup & Hall & Hcov).
      split; [now apply sublist_cons |]. split; [exact Hnodup |].
      split; [exact Hall |].
      intros u Hu Hseen. cbn [map] in Hu.
      apply elem_of_cons in Hu as [-> | Hu]; [contradiction | now apply Hcov].
Qed.

Lemma findings_from_lookup now question i results k f :
  findings_from now question i results !! k = Some f <->
  exists r, results !! k = Some r /\
            f = {| f_question := q_question question;
                   f_source := FactChecker.sr_url r;
                   f_title := FactChecker.sr_title r;
                   f_content := FactChecker.sr_snippet r;
                   f_credibility := credibility (i + k);
                   f_timestamp := now |}.
Proof.
  revert i k. induction results as [| r rest IH]; intros i k; cbn.
  - split; [discriminate | now intros (r & H & _)].
  - destruct k as [| k]; cbn.
    + rewrite Nat.add_0_r. split.
      * intros [= <-]. eauto.
      * now intros (r' & [= <-] & ->).
    + rewrite IH. now replace (S i + k)%nat with (i + S k)%nat by lia.
Qed.

Lemma findings_from_sources now question i results :
  map f_source (findings_from now question i results) = map FactChecker.sr_url results.
Proof.
  revert i. induction results as [| r rest IH]; intros i; cbn; [reflexivity |].
  now rewrite IH.
Qed.

Lemma credibility_bounds (i : nat) :
  ((1 # 2) <= credibility i)%Q /\ (credibility i <= 9 # 10)%Q /\
  (credibility (S i) <= credibility i)%Q /\
  ((i <= 8)%nat ->
   (credibility i == (9 # 10) - inject_Z (Z.of_nat i) * (5 # 100))%Q).
Proof.
  unfold credibility.
  destruct (Qle_bool ((9 # 10) - inject_Z (Z.of_nat i) * (5 # 100)) (1 # 2)) eqn:Hi;
    destruct (Qle_bool ((9 # 10) - inject_Z (Z.of_nat (S i)) * (5 # 100)) (1 # 2)) eqn:Hs;
    try apply Qle_bool_iff in Hi; try apply Qle_bool_iff in Hs;
    try (apply not_true_iff_false in Hi; rewrite Qle_bool_iff in Hi);
    try (apply not_true_iff_false in Hs; rewrite Qle_bool_iff in Hs);
    unfold Qle, Qeq, Qminus, Qplus, Qopp, Qmult, inject_Z in *;
    cbn [Qnum Qden] in *; repeat split; intros; lia.
Qed.

Lemma synthesize_findings_length now question results max_findings :
  let findings := _synthesize_findings now question results max_findings in
  (0 <= max_findings -> Z.of_nat (length findings) <= max_findings) /\
  (length findings <= length results)%nat.
Proof.
  cbn zeta. unfold _synthesize_findings.
  destruct results as [| r0 rest] eqn:Hres; [cbn; lia |].
  rewrite <- Hres. clear Hres r0 rest.
  destruct (unique_by_url_spec results ∅) as (Hsub & _).
  pose proof (slice_to_sublist max_findings (unique_by_url results ∅ [])) as Hslice.
  rewrite <- (length_map f_source), findings_from_sources, length_map.
  split; [intros Hmax; now apply slice_to_length |].
  apply sublist_length in Hslice, Hsub. lia.
Qed.

Lemma synthesize_findings_sources now question results max_findings :
  let findings := _synthesize_findings now question results max_findings in
  NoDup (map f_source findings) /\
  Forall (fun f => f_question f = q_question question) findings.
Proof.
  cbn zeta. unfold _synthesize_findings.
  destruct results as [| r0 rest] eqn:Hres; [split; constructor |].
  rewrite <- Hres. clear Hres r0 rest.
  destruct (unique_by_url_spec results ∅) as (Hsub & Hnodup & _).
  pose proof (slice_to_sublist max_findings (unique_by_url results ∅ [])) as Hslice.
  split.
  - rewrite findings_from_sources. eapply sublist_NoDup; [exact Hnodup |].
    now apply fmap_sublist.
  - apply Forall_lookup. intros k f Hf.
    now apply findings_from_lookup in Hf as (r & _ & ->).
Qed.

(** X22. [_synthesize_findings] builds its findings from distinct
    URLs: no two findings have the same source, every URL among the
    results is the source of a finding unless the cut at
    [max_findings] dropped it, and there are at most [max_findings]
    findings. Each finding answers the given question and carries the
    URL, title and snippet of one result; the k-th has credibility
    [max(0.5, 0.9 - 0.05 k)], which lies between 0.5 and 0.9 and does
    not increase down the list. *)
Theorem X22_synthesize_findings (now : datetime) (question : ResearchQuestion)
    (results : list FactChecker.SearchResult) (max_findings : Z) :
  let findings := _synthesize_findings now question results max_findings in
  NoDup (map f_source findings) /\
  (0 <= max_findings -> Z.of_nat (length findings) <= max_findings) /\
  (length findings <= length results)%nat /\
  (Z.of_nat (length results) <= max_findings ->
   forall r, r ∈ results -> FactChecker.sr_url r ∈ map f_source findings) /\
  (forall k f, findings !! k = Some f ->
     f_question f = q_question question /\
     (exists r, r ∈ results /\ f_source f = FactChecker.sr_url r /\
                f_title f = FactChecker.sr_title r /\
                f_content f = FactChecker.sr_snippet r) /\
     f_credibility f = credibility k /\
     ((1 # 2) <= f_credibility f)%Q /\ (f_credibility f <= 9 # 10)%Q /\
     (forall f', findings !! S k = Some f' -> (f_credibility f' <= f_credibility f)%Q)).
Proof.
  cbn zeta. unfold _synthesize_findings.
  destruct results as [| r0 rest] eqn:Hres.
  { split; [constructor |]. split; [cbn; lia |]. split; [cbn; lia |].
    split; [intros _ r Hr; now apply elem_of_nil in Hr |].
    intros k f Hf. now rewrite lookup_nil in Hf. }
  rewrite <- Hres. clear Hres r0 rest.
  destruct (unique_by_url_spec results ∅) as (Hsub & Hnodup & _ & Hcov).
  pose proof (slice_to_sublist max_findings (unique_by_url results ∅ [])) as Hslice.
  set (cut := slice_to max_findings (unique_by_url results ∅ [])) in *.
  assert (Hlen : length (findings_from now question 0 cut) = length cut).
  { rewrite <- (length_map f_source), findings_from_sources. apply length_map. }
  split.
  { rewrite findings_from_sources. eapply sublist_NoDup; [exact Hnodup |].
    now apply fmap_sublist. }
  split; [intros Hmax; rewrite Hlen; now apply slice_to_length |].
  split; [rewrite Hlen; apply sublist_length in Hslice, Hsub; lia |].
  split.
  { intros Hall r Hr. rewrite findings_from_sources.
    assert (Hcut : cut = unique_by_url results ∅ []).
    { unfold cut, slice_to.
      assert (H0 : 0 <= max_findings) by lia. apply Z.leb_le in H0. rewrite H0.
      apply take_ge. apply sublist_length in Hsub. lia. }
    rewrite Hcut. apply Hcov; [| set_solver].
    apply list_elem_of_fmap. now exists r. }
  intros k f Hf. apply findings_from_lookup in Hf as (r & Hr & ->). cbn.
  destruct (credibility_bounds k) as (Hlo & Hhi & Hnext & _).
  split; [reflexivity |]. split.
  { exists r. repeat split.
    eapply elem_of_sublist; [| exact Hsub].
    eapply elem_of_sublist; [| exact Hslice].
    now apply list_elem_of_lookup_2 in Hr. }
  split; [reflexivity |]. split; [exact Hlo |]. split; [exact Hhi |].
  intros f' Hf'. apply findings_from_lookup in Hf' as (r' & _ & ->). exact Hnext.
Qed.

(** *** [research] *)

Lemma search_all_spec search max_results queries all_results :
  match search_all search max_results queries all_results with
  | Ok all =>
      exists answers,
        Forall2 (fun query results => search query max_results = Ok results)
                queries answers /\
        all = all_results ++ concat answers
  | Raise e =>
      exists query, query ∈ queries /\ search query max_results = Raise e
  end.
Proof.
  revert all_results. induction queries as [| query rest IH]; intros acc; cbn.
  - exists []. split; [constructor | now rewrite app_nil_r].
  - destruct (search query max_results) as [results | e] eqn:Hq; cbn.
    + specialize (IH (acc ++ results)).
      destruct (search_all search max_results rest (acc ++ results)) as [all | e].
      * destruct IH as (answers & Hall & ->). exists (results :: answers).
        split; [now constructor |]. cbn. now rewrite app_assoc.
      * destruct IH as (q & Hin & Hr). exists q. split; [now right | exact Hr].
    + exists query. split; [now left | exact Hq].
Qed.

Lemma research_returns now search provider depth question findings search_record :
  research now search provider depth question = Ok (findings, search_record) ->
  exists answers,
    Forall2 (fun query results =>
               search query (max_results_per_query (DEPTH_CONFIG depth)) = Ok results)
            (_build_queries question (max_queries (DEPTH_CONFIG depth))) answers /\
    search_record = {| sr_query := q_question question; sr_provider := provider;
                       sr_results_count := Z.of_nat (length (concat answers));
                       sr_timestamp := now |} /\
    findings = _synthesize_findings now question (concat answers)
                 (max_findings (DEPTH_CONFIG depth)).
Proof.
  unfold research.
  pose proof (search_all_spec search (max_results_per_query (DEPTH_CONFIG depth))
                (_build_queries question (max_queries (DEPTH_CONFIG depth))) []) as Hall.
  destruct (search_all _ _ _ _) as [all | e]; cbn [mbind result_bind]; [| discriminate].
  destruct Hall as (answers & Hans & ->). cbn [app].
  intros [= <- <-]. now exists answers.
Qed.

Lemma max_findings_bounds depth : 0 <= max_findings (DEPTH_CONFIG depth) <= 8.
Proof. destruct depth; cbn; lia. Qed.

(** X23. What [research] returns or raises. It searches the queries
    of [_build_queries] in order, at most [max_queries] of the depth,
    and raises only what a search raised. Otherwise its record counts
    all results of all searches, and its findings are those of
    [_synthesize_findings] on them: at most [max_findings] of the
    depth (never more than 8, nor more than the results counted), all
    for the question asked, no two from the same source. So one
    research step of the workflow adds at most 8 findings. *)
Theorem X23_research_outcomes (now : datetime)
    (search : string -> Z -> result (list FactChecker.SearchResult))
    (provider : string) (depth : ResearchDepth) (question : ResearchQuestion) :
  let config := DEPTH_CONFIG depth in
  let queries := _build_queries question (max_queries config) in
  Z.of_nat (length queries) <= max_queries config /\
  match research now search provider depth question with
  | Ok (findings, search_record) =>
      (exists answers,
         Forall2 (fun query results =>
                    search query (max_results_per_query config) = Ok results)
                 queries answers /\
         sr_results_count search_record = Z.of_nat (length (concat answers)) /\
         findings = _synthesize_findings now question (concat answers)
                      (max_findings config)) /\
      sr_query search_record = q_question question /\
      sr_provider search_record = provider /\
      Z.of_nat (length findings) <= sr_results_count search_record /\
      Z.of_nat (length findings) <= max_findings config <= 8 /\
      Forall (fun f => f_question f = q_question question) findings /\
      NoDup (map f_source findings)
  | Raise e =>
      exists query, query ∈ queries /\
                    search query (max_results_per_query config) = Raise e
  end /\
  (forall state state',
     Workflow.run_research_node (research now search provider depth) state = Ok state' ->
     (length (State.findings state') <= length (State.findings state) + 8)%nat).
Proof.
  cbn zeta.
  split; [apply build_queries_length; destruct depth; cbn; lia |].
  split.
  - destruct (research now search provider depth question) as [[fs rec] | e] eqn:Hres.
    + apply research_returns in Hres as (answers & Hans & -> & ->).
      destruct (synthesize_findings_length now question (concat answers)
                  (max_findings (DEPTH_CONFIG depth))) as [Hmax Hlen].
      destruct (synthesize_findings_sources now question (concat answers)
                  (max_findings (DEPTH_CONFIG depth))) as [Hnodup Hall].
      pose proof (max_findings_bounds depth) as Hb.
      split; [exists answers; repeat split; exact Hans |].
      split; [reflexivity |]. split; [reflexivity |]. cbn [sr_results_count].
      split; [lia |]. split; [split; [apply Hmax |]; lia |].
      split; [exact Hall | exact Hnodup].
    + unfold research in Hres.
      pose proof (search_all_spec search (max_results_per_query (DEPTH_CONFIG depth))
                    (_build_queries question (max_queries (DEPTH_CONFIG depth))) [])
        as Hall.
      destruct (search_all _ _ _ _) as [all | e']; cbn [mbind result_bind] in Hres;
        [discriminate |].
      now injection Hres as <-.
  - intros state state' Hrun.
    apply WorkflowMore.run_research_node_outcome in Hrun.
    destruct Hrun as [Hidle | q Hin Hq Hdeps Hsat | q [fs rec] Hin Hq Hans];
      cbn [State.findings Workflow.researched Workflow.set_current_question_index fst];
      try lia.
    apply research_returns in Hans as (answers & _ & _ & ->).
    destruct (synthesize_findings_length now q (concat answers)
                (max_findings (DEPTH_CONFIG depth))) as [Hmax _].
    pose proof (max_findings_bounds depth) as Hb. rewrite length_app.
    specialize (Hmax (proj1 Hb)). lia.
Qed.

End ResearcherProps.

(** ** The task loop of a thinking session *)

Module Session.
Import Thinking.

(** [ThinkingSession.progress] *)
Definition progress (tasks : list ThinkingTask) : nat * nat :=
  (length (List.filter (fun t => bool_decide (phase t = SYNTHESIZED)) tasks),
   length tasks).

(** [ThinkingSession.is_complete] *)
Definition is_complete (tasks : list ThinkingTask) : bool :=
  forallb (fun t => bool_decide (phase t = SYNTHESIZED)) tasks
  && (0 <? length tasks)%nat.

(** The place of the task that [current_task] returns: the tasks in
    front of it, the task, and those behind it. The loop works on that
    object, which stays in the list of the session. *)
Fixpoint current_place (tasks : list ThinkingTask)
  : option (list ThinkingTask * ThinkingTask * list ThinkingTask) :=
  match tasks with
  | [] => None
  | task :: rest =>
      if negb (bool_decide (phase task = SYNTHESIZED)) then Some ([], task, rest)
      else
        match current_place rest with
        | Some (before, current, behind) => Some (task :: before, current, behind)
        | None => None
        end
  end.

Section Loop.

Variable domain : option DomainPlugin.
Variable parse_float : string -> option Q.
Variable today : string.



End Loop.

End Session.

Module SessionProps.
Import Thinking ThinkingProps Session.

(** *** What the phase operations leave alone *)

















(** *** The current task *)

Definition synthesized_all (tasks : list ThinkingTask) : Prop :=
  Forall (fun t => phase t = SYNTHESIZED) tasks.

Lemma current_place_spec tasks :
  match current_place tasks with
  | Some (before, task, behind) =>
      tasks = before ++ task :: behind /\ synthesized_all before /\
      phase task <> SYNTHESIZED /\ current_task tasks = Some task
  | None => synthesized_all tasks /\ current_task tasks = None
  end.
Proof.
  unfold current_task, synthesized_all.
  induction tasks as [| t rest IH]; cbn; [split; [constructor | reflexivity] |].
  case_bool_decide as Ht; cbn.
  - destruct (current_place rest) as [[[before task] behind] |].
    + destruct IH as (-> & Hb & Hp & Hc). split; [reflexivity |].
      split; [now constructor |]. now split.
    + destruct IH as [Hall Hc]. split; [now constructor | exact Hc].
  - split; [reflexivity |]. split; [constructor |]. now split.
Qed.

(** How many tasks are not yet synthesized. *)
Definition pending (tasks : list ThinkingTask) : nat :=
  length (List.filter (fun t => negb (bool_decide (phase t = SYNTHESIZED))) tasks).


Lemma pending_synthesized tasks : synthesized_all tasks -> pending tasks = 0%nat.
Proof.
  unfold pending. induction 1 as [| t rest Ht _ IH]; cbn; [reflexivity |].
  rewrite Ht. now rewrite bool_decide_eq_true_2.
Qed.




(** X25. The three views of a session agree: the first count of
    [progress] never exceeds the second; [current_task] finds no task
    exactly when the counts are equal; and [is_complete] holds exactly
    when there is at least one task and [current_task] finds none. A
    session without tasks is never complete, though its loop has
    nothing to do. *)
Theorem X25_session_views_agree (tasks : list ThinkingTask) :
  (fst (progress tasks) <= snd (progress tasks))%nat /\
  (current_task tasks = None <-> fst (progress tasks) = snd (progress tasks)) /\
  (is_complete tasks = true <-> tasks <> [] /\ current_task tasks = None) /\
  (forall task, current_task tasks = Some task ->
     task ∈ tasks /\ phase task <> SYNTHESIZED /\
     exists before behind,
       tasks = before ++ task :: behind /\ length before = fst (progress before)).
Proof.
  unfold progress, is_complete, current_task. cbn [fst snd].
  split; [apply List.filter_length_le |].
  split; [| split].
  - induction tasks as [| t rest IH]; cbn; [easy |].
    case_bool_decide as Ht; cbn.
    + rewrite IH. split; [congruence | now intros [= ->]].
    + split; [discriminate |]. intros Heq.
      pose proof (List.filter_length_le (fun t => bool_decide (phase t = SYNTHESIZED)) rest).
      lia.
  - rewrite andb_true_iff, Nat.ltb_lt.
    assert (Hall : forallb (fun t => bool_decide (phase t = SYNTHESIZED)) tasks = true <->
                   List.find (fun task => negb (bool_decide (phase task = SYNTHESIZED))) tasks
                   = None).
    { induction tasks as [| t rest IH]; cbn; [easy |].
      case_bool_decide as Ht; cbn; [exact IH | split; discriminate]. }
    rewrite Hall. destruct tasks as [| t rest]; cbn [length].
    + split; [lia | now intros [[] _]].
    + split; [intros [H _]; split; [discriminate | exact H]
             | intros [_ H]; split; [exact H | lia]].
  - intros task Hcur. pose proof (current_place_spec tasks) as Hplace.
    unfold current_task in Hplace.
    destruct (current_place tasks) as [[[before task0] behind] |].
    + destruct Hplace as (Heq & Hb & Hp & Hc). rewrite Hcur in Hc. injection Hc as <-.
      split; [rewrite Heq; apply elem_of_app; right; now left |].
      split; [exact Hp |]. exists before, behind. split; [exact Heq |].
      clear -Hb. induction Hb as [| t rest Ht _ IH]; cbn; [reflexivity |].
      rewrite bool_decide_eq_true_2 by exact Ht. cbn. now rewrite IH.
    + destruct Hplace as [_ Hc]. congruence.
Qed.

End SessionProps.

(** ** The verdict on a single claim *)

Module FactCheckerMore.
Import Thinking FactChecker.

(** X26. [_verify_single_claim] always returns a verdict on the claim
    it was given. The verdict is CONFIRMED or DISPUTED, or names a
    source URL, only when the search returned at least one result and
    the judgement of the model held a JSON object, whose 'status' is
    then the status of the verdict; a failed search, a failed model
    call, an undecodable judgement or an unknown status all give
    UNVERIFIED without a URL. *)
Theorem X26_verdict_needs_judgement (json_loads : string -> option json)
    (searched : result (list SearchResult)) (judged : result string)
    (claim claim_type search_query : string) :
  let vc := _verify_single_claim json_loads searched judged claim claim_type search_query in
  Thinking.claim vc = claim /\
  (status vc <> UNVERIFIED \/ source_url vc <> None ->
   exists results text d,
     searched = Ok results /\ results <> [] /\ judged = Ok text /\
     json_loads (PyStr.extract_json text) = Some (JObj d) /\
     status_of_json (Json.get "status" d (JStr "unverified")) = Ok (status vc) /\
     Pydantic.as_opt_str (Json.get "source_url" d JNull) = Ok (source_url vc)) /\
  (forall e, searched = Raise e \/ judged = Raise e \/ searched = Ok [] ->
     status vc = UNVERIFIED /\ source_url vc = None).
Proof.
  cbn zeta. unfold _verify_single_claim, verify_single_claim_body.
  destruct searched as [[| r rs] | e]; cbn [mbind result_bind].
  - split; [reflexivity |]. split; [intros [H | H]; now contradiction H |].
    intros e _. now split.
  - destruct judged as [text | e]; cbn [mbind result_bind].
    + destruct (json_loads (PyStr.extract_json text)) as [data |] eqn:Hloads;
        cbn [of_option mbind result_bind].
      * destruct data as [| b | z | q | s | l | d]; cbn [Json.as_dict mbind result_bind];
          try (split; [reflexivity |]; split;
               [intros [H | H]; now contradiction H
               | intros e [H | [H | H]]; discriminate]).
        destruct (status_of_json (Json.get "status" d (JStr "unverified")))
          as [st |] eqn:Hst; cbn [mbind result_bind].
        -- destruct (Pydantic.as_opt_str (Json.get "source_url" d JNull))
             as [url |] eqn:Hurl; cbn [mbind result_bind].
           ++ destruct (Pydantic.as_str (Json.get "notes" d (JStr EmptyString)))
                as [n |] eqn:Hn; cbn [mbind result_bind].
              ** split; [reflexivity |]. split.
                 --- intros _. exists (r :: rs), text, d. cbn.
                     repeat split; auto; discriminate.
                 --- intros e [H | [H | H]]; discriminate.
              ** split; [reflexivity |]. split;
                   [intros [H | H]; now contradiction H
                   | intros e' [H | [H | H]]; discriminate].
           ++ split; [reflexivity |]. split;
                [intros [H | H]; now contradiction H
                | intros e' [H | [H | H]]; discriminate].
        -- split; [reflexivity |]. split;
             [intros [H | H]; now contradiction H
             | intros e' [H | [H | H]]; discriminate].
      * split; [reflexivity |]. split;
          [intros [H | H]; now contradiction H
          | intros e' [H | [H | H]]; discriminate].
    + split; [reflexivity |]. split; [intros [H | H]; now contradiction H |].
      intros e' _. now split.
  - split; [reflexivity |]. split; [intros [H | H]; now contradiction H |].
    intros e' _. now split.
Qed.

End FactCheckerMore.

(** ** deep_thinking/domains/base.py *)

Module Domains.

(** The fields of a [DomainPlugin] that the detection reads. *)
Record DomainPlugin : Type := mkDomainPlugin {
  name : string;
  display_name : string;
  detection_keywords : list string
}.

(** [sum(1 for kw in plugin.detection_keywords if kw in goal_lower)] *)
Definition score (goal_lower : string) (plugin : DomainPlugin) : Z :=
  Z.of_nat (length (List.filter (fun kw => PyStr.contains kw goal_lower)
                                (detection_keywords plugin))).

(** The loop of [detect_domain] over [_REGISTRY.values()]. *)
Fixpoint detect_loop (goal_lower : string) (plugins : list DomainPlugin)
    (best_match : option DomainPlugin) (best_score : Z) : option DomainPlugin :=
  match plugins with
  | [] => best_match
  | plugin :: rest =>
      let score := score goal_lower plugin in
      if best_score <? score then detect_loop goal_lower rest (Some plugin) score
      else detect_loop goal_lower rest best_match best_score
  end.

(** [detect_domain]; [registry] is [_REGISTRY.values()], in the order
    of registration. *)
Definition detect_domain (registry : list DomainPlugin) (goal : string)
  : option DomainPlugin :=
  detect_loop (PyStr.lower goal) registry None 0.

End Domains.

Module DomainsProps.
Import Domains.

Lemma score_nonneg g p : 0 <= score g p.
Proof. unfold score. lia. Qed.

(** What the loop has found after the plugins [seen]. *)
Definition best_of (g : string) (seen : list DomainPlugin)
    (best_match : option DomainPlugin) (best_score : Z) : Prop :=
  match best_match with
  | None => best_score = 0 /\ Forall (fun p => score g p = 0) seen
  | Some b =>
      exists before behind,
        seen = before ++ b :: behind /\ best_score = score g b /\ 0 < best_score /\
        Forall (fun p => score g p < best_score) before /\
        Forall (fun p => score g p <= best_score) behind
  end.

Lemma best_of_bound g seen best_match best_score :
  best_of g seen best_match best_score ->
  Forall (fun p => score g p <= best_score) seen.
Proof.
  destruct best_match as [b |]; cbn.
  - intros (before & behind & -> & Hb & Hpos & H1 & H2).
    apply Forall_app. split; [| constructor; [lia | exact H2]].
    eapply List.Forall_impl; [| exact H1]. intros p Hp. cbn in Hp. lia.
  - intros [-> Hall]. eapply List.Forall_impl; [| exact Hall]. intros p Hp. cbn in Hp. lia.
Qed.

Lemma detect_loop_spec g plugins seen best_match best_score :
  best_of g seen best_match best_score ->
  best_of g (seen ++ plugins) (detect_loop g plugins best_match best_score)
    (match detect_loop g plugins best_match best_score with
     | Some b => score g b
     | None => 0
     end).
Proof.
  revert seen best_match best_score.
  induction plugins as [| plugin rest IH]; intros seen best bs Hbest; cbn [detect_loop].
  - rewrite app_nil_r. destruct best as [b |]; cbn in *.
    + destruct Hbest as (before & behind & -> & -> & Hpos & H1 & H2).
      exists before, behind. repeat split; auto.
    + destruct Hbest as [_ Hall]. now split.
  - replace (seen ++ plugin :: rest) with ((seen ++ [plugin]) ++ rest)
      by now rewrite <- app_assoc.
    pose proof (best_of_bound _ _ _ _ Hbest) as Hbound.
    destruct (bs <? score g plugin) eqn:Hlt.
    + apply Z.ltb_lt in Hlt. apply IH. cbn.
      exists seen, []. split; [reflexivity |]. split; [reflexivity |].
      split.
      * destruct best as [b |]; cbn in Hbest.
        -- destruct Hbest as (_ & _ & _ & _ & Hpos & _). lia.
        -- destruct Hbest as [-> _]. exact Hlt.
      * split; [| constructor].
        eapply List.Forall_impl; [| exact Hbound]. intros p Hp. cbn in Hp. lia.
    + apply Z.ltb_ge in Hlt. apply IH.
      destruct best as [b |]; cbn in *.
      * destruct Hbest as (before & behind & -> & -> & Hpos & H1 & H2).
        exists before, (behind ++ [plugin]). rewrite <- app_assoc. cbn.
        repeat split; auto. apply Forall_app. split; [exact H2 |]. now repeat constructor.
      * destruct Hbest as [-> Hall]. split; [reflexivity |].
        apply Forall_app. split; [exact Hall |]. constructor; [| constructor].
        pose proof (score_nonneg g plugin). lia.
Qed.

(** X27. [detect_domain] returns the first plugin of the registry
    whose count of detection keywords found in the lowered goal is the
    largest, provided that count is positive: every plugin registered
    before it has a strictly smaller count, and every one after it a
    count that is not larger. It returns [None] exactly when no
    keyword of any plugin occurs in the goal. *)
Theorem X27_detect_domain_first_best (registry : list DomainPlugin) (goal : string) :
  let count := score (PyStr.lower goal) in
  match detect_domain registry goal with
  | Some best =>
      exists before behind,
        registry = before ++ best :: behind /\ 0 < count best /\
        Forall (fun p => count p < count best) before /\
        Forall (fun p => count p <= count best) behind
  | None => Forall (fun p => count p = 0) registry
  end /\
  (detect_domain registry goal = None <->
   forall p kw, p ∈ registry -> kw ∈ detection_keywords p ->
                PyStr.contains kw (PyStr.lower goal) = false).
Proof.
  cbn zeta. unfold detect_domain.
  pose proof (detect_loop_spec (PyStr.lower goal) registry [] None 0) as Hspec.
  cbn [app] in Hspec.
  assert (Hstart : best_of (PyStr.lower goal) [] None 0) by (split; [reflexivity | constructor]).
  specialize (Hspec Hstart).
  assert (Hzero : forall p, score (PyStr.lower goal) p = 0 <->
                            forall kw, kw ∈ detection_keywords p ->
                                       PyStr.contains kw (PyStr.lower goal) = false).
  { intros p. unfold score. induction (detection_keywords p) as [| k ks IH]; cbn.
    - split; [intros _ kw Hkw; now apply elem_of_nil in Hkw | reflexivity].
    - destruct (PyStr.contains k (PyStr.lower goal)) eqn:Hk; cbn [length].
      + split; [lia |]. intros H. specialize (H k (list_elem_of_here _ _)). congruence.
      + rewrite IH. split.
        * intros H kw [-> | Hkw]%elem_of_cons; [exact Hk | now apply H].
        * intros H kw Hkw. apply H. now right. }
  destruct (detect_loop (PyStr.lower goal) registry None 0) as [best |]; cbn in Hspec.
  - destruct Hspec as (before & behind & Heq & _ & Hpos & H1 & H2).
    split; [exists before, behind; repeat split; auto |].
    split; [discriminate |]. intros Hnone. exfalso.
    assert (Hin : best ∈ registry) by (rewrite Heq; apply elem_of_app; right; now left).
    pose proof (proj2 (Hzero best) (fun kw => Hnone best kw Hin)). lia.
  - destruct Hspec as [_ Hall]. split; [exact Hall |].
    split; [| reflexivity]. intros _ p kw Hp. rewrite Forall_forall in Hall.
    now apply Hzero, Hall.
Qed.

End DomainsProps.

(** ** Cutting the JSON object out of an answer *)

Module PyStrProps.
Import PyStr.

Lemma find_char_range c s :
  find_char c s = -1 \/
  (0 <= find_char c s < Z.of_nat (String.length s) /\
   String.get (Z.to_nat (find_char c s)) s = Some c).
Proof.
  induction s as [| a s IH]; cbn [find_char]; [now left |].
  destruct (Ascii.eqb a c) eqn:Hac.
  - right. apply Ascii.eqb_eq in Hac. subst. cbn. split; [lia | reflexivity].
  - destruct (find_char c s =? -1) eqn:Hi; [now left |].
    apply Z.eqb_neq in Hi. destruct IH as [| [Hr Hg]]; [contradiction |].
    right. cbn [String.length]. split; [lia |].
    replace (Z.to_nat (find_char c s + 1)) with (S (Z.to_nat (find_char c s))) by lia.
    exact Hg.
Qed.

Lemma rfind_char_range c s :
  rfind_char c s = -1 \/
  (0 <= rfind_char c s < Z.of_nat (String.length s) /\
   String.get (Z.to_nat (rfind_char c s)) s = Some c).
Proof.
  induction s as [| a s IH]; cbn [rfind_char]; [now left |].
  destruct (rfind_char c s =? -1) eqn:Hi.
  - destruct (Ascii.eqb a c) eqn:Hac; [| now left].
    right. apply Ascii.eqb_eq in Hac. subst. cbn. split; [lia | reflexivity].
  - apply Z.eqb_neq in Hi. destruct IH as [| [Hr Hg]]; [contradiction |].
    right. cbn [String.length]. split; [lia |].
    replace (Z.to_nat (rfind_char c s + 1)) with (S (Z.to_nat (rfind_char c s))) by lia.
    exact Hg.
Qed.

Lemma length_substring n m s :
  (n + m <= String.length s)%nat -> String.length (String.substring n m s) = m.
Proof.
  revert n m. induction s as [| a s IH]; intros n m Hlen; cbn in *.
  - destruct n, m; cbn; lia.
  - destruct n as [| n]; [destruct m as [| m]; cbn; [reflexivity |] |].
    + f_equal. apply IH. lia.
    + apply IH. lia.
Qed.

Lemma substring_all s : String.substring 0 (String.length s) s = s.
Proof. induction s as [| a s IH]; cbn; [reflexivity | now rewrite IH]. Qed.

Lemma rfind_char_last c s :
  s <> EmptyString -> String.get (String.length s - 1) s = Some c ->
  rfind_char c s = Z.of_nat (String.length s) - 1.
Proof.
  induction s as [| a s IH]; [congruence |]. intros _ Hlast.
  cbn [rfind_char String.length] in *.
  destruct s as [| b s'].
  - cbn in *. injection Hlast as ->. rewrite Ascii.eqb_refl. reflexivity.
  - assert (Hrec : rfind_char c (String b s') = Z.of_nat (String.length (String b s')) - 1).
    { apply IH; [discriminate |]. cbn [String.length] in *.
      replace (S (S (String.length s')) - 1)%nat with (S (String.length s')) in Hlast by lia.
      replace (S (String.length s') - 1)%nat with (String.length s') by lia.
      exact Hlast. }
    rewrite Hrec. cbn [String.length].
    destruct (_ =? -1) eqn:H; [apply Z.eqb_eq in H; lia | lia].
Qed.

(** What [extract_json] returns when both braces occur. *)
Lemma extract_json_braces content :
  find_char "{"%char content <> -1 -> rfind_char "}"%char content <> -1 ->
  find_char "{"%char content <= rfind_char "}"%char content ->
  let out := extract_json content in
  Z.of_nat (String.length out)
  = rfind_char "}"%char content - find_char "{"%char content + 1 /\
  String.get 0 out = Some "{"%char /\
  String.get (String.length out - 1) out = Some "}"%char.
Proof.
  intros Hs He Hle. cbn zeta. unfold extract_json, slice.
  apply Z.eqb_neq in Hs as Hsb. apply Z.eqb_neq in He as Heb. rewrite Hsb, Heb. cbn [negb andb].
  destruct (find_char_range "{"%char content) as [| [Hsr Hsg]]; [contradiction |].
  destruct (rfind_char_range "}"%char content) as [| [Her Heg]]; [contradiction |].
  set (start := find_char "{"%char content) in *.
  set (stop := rfind_char "}"%char content) in *.
  assert (Hlen : String.length (String.substring (Z.to_nat start)
                                  (Z.to_nat (stop + 1 - start)) content)
                 = Z.to_nat (stop + 1 - start)) by (apply length_substring; lia).
  rewrite Hlen. split; [lia |]. split.
  - rewrite String.substring_correct1 by lia. exact Hsg.
  - rewrite String.substring_correct1 by lia.
    replace (Z.to_nat (stop + 1 - start) - 1 + Z.to_nat start)%nat with (Z.to_nat stop) by lia.
    exact Heg.
Qed.

(** X28. [extract_json], the cut every agent applies to a model's
    answer before [json.loads]. Without an opening or without a
    closing brace the answer is returned as it is. With both, the
    result runs from the first opening brace to the last closing one:
    it begins with the one and ends with the other, or it is empty
    when the last closing brace comes before the first opening one. A
    second cut changes nothing. *)
Theorem X28_extract_json_shape (content : string) :
  let start := find_char "{"%char content in
  let stop := rfind_char "}"%char content in
  let out := extract_json content in
  (start = -1 \/ stop = -1 -> out = content) /\
  (start <> -1 -> stop <> -1 -> stop < start -> out = EmptyString) /\
  (start <> -1 -> stop <> -1 -> start <= stop ->
   Z.of_nat (String.length out) = stop - start + 1 /\
   String.get 0 out = Some "{"%char /\
   String.get (String.length out - 1) out = Some "}"%char) /\
  extract_json out = out.
Proof.
  cbn zeta.
  assert (Hnone : find_char "{"%char content = -1 \/ rfind_char "}"%char content = -1 ->
                  extract_json content = content).
  { intros [H | H]; unfold extract_json; rewrite H; cbn; [reflexivity |].
    now rewrite andb_false_r. }
  assert (Hempty : find_char "{"%char content <> -1 -> rfind_char "}"%char content <> -1 ->
                   rfind_char "}"%char content < find_char "{"%char content ->
                   extract_json content = EmptyString).
  { intros Hs He Hlt. unfold extract_json, slice.
    apply Z.eqb_neq in Hs as Hsb. apply Z.eqb_neq in He as Heb. rewrite Hsb, Heb.
    cbn [negb andb].
    replace (Z.to_nat (rfind_char "}"%char content + 1 - find_char "{"%char content))
      with 0%nat by lia.
    generalize (Z.to_nat (find_char "{"%char content)). clear.
    induction content as [| a s IH]; intros [| n]; cbn; auto. }
  split; [exact Hnone |]. split; [exact Hempty |].
  split; [apply extract_json_braces |].
  destruct (Z.eq_dec (find_char "{"%char content) (-1)) as [Hs | Hs];
    [rewrite (Hnone (or_introl Hs)); now apply Hnone; left |].
  destruct (Z.eq_dec (rfind_char "}"%char content) (-1)) as [He | He];
    [rewrite (Hnone (or_intror He)); now apply Hnone; right |].
  destruct (Z_lt_le_dec (rfind_char "}"%char content) (find_char "{"%char content))
    as [Hlt | Hle].
  { rewrite (Hempty Hs He Hlt). reflexivity. }
  destruct (extract_json_braces content Hs He Hle) as (Hlen & Hfirst & Hlast).
  set (out := extract_json content) in *.
  destruct out as [| a rest] eqn:Hout; [reflexivity |].
  rewrite <- Hout in *. clear Hlen.
  assert (Hfind : find_char "{"%char out = 0).
  { rewrite Hout in *. cbn in Hfirst. injection Hfirst as ->. reflexivity. }
  assert (Hrfind : rfind_char "}"%char out = Z.of_nat (String.length out) - 1).
  { apply rfind_char_last; [rewrite Hout; discriminate | exact Hlast]. }
  unfold extract_json at 1. rewrite Hfind, Hrfind.
  assert (Hpos : (0 < String.length out)%nat) by (rewrite Hout; cbn; lia).
  destruct (Z.of_nat (String.length out) - 1 =? -1) eqn:Hz;
    [apply Z.eqb_eq in Hz; lia |].
  cbn [Z.eqb negb andb]. unfold slice.
  replace (Z.to_nat (Z.of_nat (String.length out) - 1 + 1 - 0)) with (String.length out)
    by lia.
  apply substring_all.
Qed.

End PyStrProps.

(** ** The synthesis phase *)

Module SynthesisProps.
Import Thinking.

Lemma append_cons c x s : String c x +:+ s = String c (x +:+ s).
Proof. reflexivity. Qed.

Lemma append_nil s : EmptyString +:+ s = s.
Proof. reflexivity. Qed.

Lemma substring_over n m m' s :
  (String.length s - n <= m)%nat -> (String.length s - n <= m')%nat ->
  String.substring n m s = String.substring n m' s.
Proof.
  revert n m m'. induction s as [| c s IH]; intros n m m' Hm Hm'; cbn in *.
  - now destruct n, m, m'.
  - destruct n as [| n].
    + destruct m as [| m], m' as [| m']; try lia. f_equal. apply IH; lia.
    + apply IH; lia.
Qed.

Lemma prefixb_split sep s :
  PyStr.prefixb sep s = true ->
  s = sep +:+ String.substring (String.length sep) (String.length s) s.
Proof.
  revert s. induction sep as [| a sep IH]; intros s.
  - intros _. cbn. now rewrite append_nil, PyStrProps.substring_all.
  - destruct s as [| b s]; [discriminate |]. cbn [PyStr.prefixb].
    destruct (Ascii.eqb a b) eqn:Hab; [| discriminate].
    apply Ascii.eqb_eq in Hab. subst b. intros Hp.
    cbn. rewrite append_cons. f_equal.
    rewrite (IH s Hp) at 1. f_equal. apply substring_over; lia.
Qed.

Lemma contains_app_r sub x s :
  PyStr.contains sub s = true -> PyStr.contains sub (x +:+ s) = true.
Proof.
  intros H. induction x as [| c x IH]; [exact H |].
  rewrite append_cons. cbn. rewrite IH. apply orb_true_r.
Qed.

Lemma rsplit_once_None sep s :
  sep <> EmptyString ->
  (rsplit_once sep s = None <-> PyStr.contains sep s = false).
Proof.
  intros Hsep. induction s as [| c s IH]; cbn.
  - destruct sep; [contradiction | easy].
  - destruct (rsplit_once sep s) as [[before after] |].
    + split; [discriminate |]. intros H. apply orb_false_iff in H as [_ H].
      apply IH in H. discriminate.
    + assert (Hs : PyStr.contains sep s = false) by now apply IH.
      rewrite Hs, orb_false_r.
      destruct (PyStr.prefixb sep (String c s)); split; congruence.
Qed.

Lemma rsplit_once_Some sep s before after :
  sep <> EmptyString ->
  rsplit_once sep s = Some (before, after) ->
  s = before +:+ sep +:+ after /\
  (forall c rest, sep +:+ after = String c rest -> PyStr.contains sep rest = false).
Proof.
  intros Hsep.
  revert before after. induction s as [| c s IH]; intros before after;
    cbn [rsplit_once]; [discriminate |].
  destruct (rsplit_once sep s) as [[b a] |] eqn:Hrec.
  - intros [= <- <-]. destruct (IH b a eq_refl) as [Heq Hlast].
    split; [rewrite append_cons; now f_equal | exact Hlast].
  - destruct (PyStr.prefixb sep (String c s)) eqn:Hp; [| discriminate].
    intros [= <- <-]. apply prefixb_split in Hp as Hs.
    split; [rewrite append_nil; exact Hs |].
    intros c' rest Heq. cbn in Hs, Heq. rewrite <- Hs in Heq. injection Heq as <- <-.
    now apply rsplit_once_None.
Qed.

(** X29. What [run_phase_e] does with the answer of the model. When
    the call raised, the task is left as it was. Otherwise the task
    becomes SYNTHESIZED with the completion date set, and only its
    synthesis and confidence change besides: without the marker
    'CONFIDENCE:' the synthesis is the whole answer and the confidence
    stays; with it, the answer is cut at a place of the marker after
    which the marker does not occur again, the synthesis is the
    stripped text before it, and the confidence is the number read
    from the stripped text after it, or stays when that text is not a
    number. *)
Theorem X29_run_phase_e_result (parse_float : string -> option Q) (today : string)
    (synthesized : result string) (task : ThinkingTask) :
  let task' := fst (fst (run_phase_e parse_float today synthesized task)) in
  let outcome := snd (run_phase_e parse_float today synthesized task) in
  match synthesized with
  | Raise e => task' = task /\ outcome = Raise e
  | Ok content =>
      outcome = Ok tt /\ phase task' = SYNTHESIZED /\ completed_at task' = Some today /\
      task' = with_completed_at today
                (with_phase SYNTHESIZED
                   (mkThinkingTask (id task) (topic task) (anchors task) (phase task)
                      (confidence task') (unverified_claims task) (council_triggered task)
                      (completed_at task) (anchor_output task) (generation_output task)
                      (critique_points task) (council_positions task)
                      (verified_claims task) (synthesis task'))) /\
      if PyStr.contains "CONFIDENCE:" content
      then exists before after,
             content = before +:+ "CONFIDENCE:" +:+ after /\
             PyStr.contains "CONFIDENCE:" after = false /\
             synthesis task' = Some (PyStr.strip before) /\
             confidence task' = match parse_float (PyStr.strip after) with
                                | Some c => Some c
                                | None => confidence task
                                end
      else synthesis task' = Some content /\ confidence task' = confidence task
  end.
Proof.
  cbn zeta. unfold run_phase_e.
  destruct synthesized as [content | e]; [| now split].
  unfold op_bind, await.
  destruct (rsplit_once "CONFIDENCE:" content) as [[before after] |] eqn:Hsplit.
  - assert (Hc : PyStr.contains "CONFIDENCE:" content = true).
    { destruct (PyStr.contains "CONFIDENCE:" content) eqn:H; [reflexivity |].
      apply rsplit_once_None in H; [congruence | discriminate]. }
    rewrite Hc. apply rsplit_once_Some in Hsplit as [Heq Hlast]; [| discriminate].
    assert (Hafter : PyStr.contains "CONFIDENCE:" after = false).
    { destruct (PyStr.contains "CONFIDENCE:" after) eqn:H; [| reflexivity].
      specialize (Hlast "C"%char ("ONFIDENCE:" +:+ after) eq_refl).
      apply (contains_app_r _ "ONFIDENCE:") in H. congruence. }
    destruct (parse_float (PyStr.strip after)) as [c |] eqn:Hf; cbn.
    + repeat split. exists before, after. rewrite Hf. now repeat split.
    + repeat split. exists before, after. rewrite Hf. now repeat split.
  - apply rsplit_once_None in Hsplit; [| discriminate]. rewrite Hsplit. cbn.
    repeat split.
Qed.

End SynthesisProps.

(** ** Checking the claims of a task *)

Module FactCheckTask.
Import Thinking FactChecker.

Section Task.

(** [json.loads]: [None] stands for [JSONDecodeError]. *)
Variable json_loads : string -> option json.
(** What slicing a dict raises: TypeError up to Python 3.11, where a
    slice is not hashable, and KeyError from 3.12 on. *)
Variable dict_slice_error : exn.
(** The text of a value where a prompt or a search query shows it. *)
Variable text_of : json -> string.

(** [except (json.JSONDecodeError, TypeError)] *)
Definition extract_catches (e : exn) : bool :=
  match e with
  | JSONDecodeError | TypeError => true
  | _ => false
  end.

(** [_extract_claims]; [extracted] is the outcome of [llm.ainvoke]. *)
Definition _extract_claims (extracted : result string) : result json :=
  try_except
    (text ← extracted;
     let text := PyStr.extract_json text in
     data ← of_option JSONDecodeError (json_loads text);
     d ← Json.as_dict data;
     Ok (Json.get "claims" d (JList [])))
    extract_catches (Ok (JList [])).

(** [claims[:max_claims]], as the sequence the loop walks: the items
    of a list, or the characters of a string. *)
Definition sliced (claims : json) (max_claims : Z) : result (list json) :=
  match claims with
  | JList l => Ok (Researcher.slice_to max_claims l)
  | JStr s =>
      Ok (map (fun c => JStr (String c EmptyString))
              (Researcher.slice_to max_claims (list_ascii_of_string s)))
  | JObj _ => Raise dict_slice_error
  | _ => Raise TypeError
  end.

(** The call of [_verify_single_claim] from the loop: the model
    [VerifiedClaim] takes a string as its claim, and every way out of
    [_verify_single_claim] builds one from the claim it was given. *)
Definition verify_claim_text (searched : result (list SearchResult))
    (judged : result string) (claim_text claim_type search_query : json)
  : result VerifiedClaim :=
  match claim_text with
  | JStr s =>
      Ok (_verify_single_claim json_loads searched judged s
            (text_of claim_type) (text_of search_query))
  | _ => Raise ValidationError
  end.

(** The loop over [claims] of [verify_task]; [searched i] and
    [judged i] are the outcomes of the search and of the model call
    for the i-th claim. *)
Fixpoint verify_claims (searched : nat -> result (list SearchResult))
    (judged : nat -> result string) (i : nat) (claims : list json)
    (verified : list VerifiedClaim) (unverified_texts : list string)
  : result (list VerifiedClaim * list string) :=
  match claims with
  | [] => Ok (verified, unverified_texts)
  | claim_data :: rest =>
      match claim_data with
      | JObj d =>
          claim_text ← of_option KeyError (Json.assoc "claim" d);
          let claim_type := Json.get "type" d (JStr "fact") in
          let search_query := Json.get "search_query" d claim_text in
          vc ← verify_claim_text (searched i) (judged i) claim_text claim_type search_query;
          let verified := verified ++ [vc] in
          let unverified_texts :=
            if bool_decide (status vc = UNVERIFIED)
            then unverified_texts ++ [claim vc] else unverified_texts in
          verify_claims searched judged (S i) rest verified unverified_texts
      | _ => Raise TypeError
      end
  end.

(** [verify_task] *)
Definition verify_task (extracted : result string)
    (searched : nat -> result (list SearchResult)) (judged : nat -> result string)
    (max_claims : Z) : result (list VerifiedClaim * list string) :=
  claims ← _extract_claims extracted;
  claims ← sliced claims max_claims;
  match claims with
  | [] => Ok ([], [])
  | _ => verify_claims searched judged 0 claims [] []
  end.

End Task.

End FactCheckTask.

Module FactCheckTaskProps.
Import Thinking FactChecker FactCheckTask.

(** The claim texts among the verdicts that are UNVERIFIED. *)
Definition unverified_of (verified : list VerifiedClaim) : list string :=
  map claim (List.filter (fun vc => bool_decide (status vc = UNVERIFIED)) verified).

(** The item of the answer that a verdict belongs to. *)
Definition claim_of (claim_data : json) (vc : VerifiedClaim) : Prop :=
  exists d, claim_data = JObj d /\ Json.assoc "claim" d = Some (JStr (claim vc)).

Lemma sliced_length dict_slice_error claims max_claims items :
  sliced dict_slice_error claims max_claims = Ok items ->
  0 <= max_claims -> Z.of_nat (length items) <= max_claims.
Proof.
  destruct claims; cbn; try discriminate; intros [= <-] Hmax.
  - rewrite length_map. now apply ResearcherProps.slice_to_length.
  - now apply ResearcherProps.slice_to_length.
Qed.

Lemma verify_single_claim_keeps json_loads searched judged s claim_type search_query :
  claim (_verify_single_claim json_loads searched judged s claim_type search_query) = s.
Proof.
  unfold _verify_single_claim.
  destruct (verify_single_claim_body json_loads searched judged s) as [vc | e] eqn:Hbody;
    [| reflexivity].
  unfold verify_single_claim_body in Hbody. revert Hbody.
  destruct searched as [[| r rs] | e]; cbn [mbind result_bind]; try discriminate.
  - now intros [= <-].
  - destruct judged as [text |]; cbn [mbind result_bind]; [| discriminate].
    destruct (of_option _ _); cbn [mbind result_bind]; [| discriminate].
    destruct (Json.as_dict _); cbn [mbind result_bind]; [| discriminate].
    destruct (status_of_json _); cbn [mbind result_bind]; [| discriminate].
    destruct (Pydantic.as_opt_str _); cbn [mbind result_bind]; [| discriminate].
    destruct (Pydantic.as_str _); cbn [mbind result_bind]; [| discriminate].
    now intros [= <-].
Qed.

Lemma verify_single_claim_without_results json_loads searched judged s claim_type
    search_query :
  searched = Ok [] \/ (exists e, searched = Raise e) ->
  status (_verify_single_claim json_loads searched judged s claim_type search_query)
  = UNVERIFIED.
Proof. intros [-> | [e ->]]; reflexivity. Qed.

Lemma verify_claims_spec json_loads text_of searched judged i claims verified texts :
  match verify_claims json_loads text_of searched judged i claims verified texts with
  | Ok (verified', texts') =>
      exists new,
        verified' = verified ++ new /\ texts' = texts ++ unverified_of new /\
        Forall2 claim_of claims new /\
        ((forall k, searched k = Ok [] \/ exists e, searched k = Raise e) ->
         Forall (fun vc => status vc = UNVERIFIED) new)
  | Raise e => e = TypeError \/ e = KeyError \/ e = ValidationError
  end.
Proof.
  revert i verified texts. induction claims as [| claim_data rest IH];
    intros i verified texts; cbn [verify_claims].
  - exists []. rewrite !app_nil_r. repeat split; constructor.
  - destruct claim_data as [| b | z | q | s | l | d]; try (now left).
    destruct (Json.assoc "claim" d) as [claim_text |] eqn:Hclaim;
      cbn [of_option mbind result_bind]; [| right; now left].
    destruct claim_text as [| b | z | q | s | l | d'];
      cbn [verify_claim_text mbind result_bind]; try (right; now right).
    set (vc := _verify_single_claim json_loads (searched i) (judged i) s _ _).
    assert (Hvc : claim vc = s) by apply verify_single_claim_keeps.
    specialize (IH (S i) (verified ++ [vc])
                  (if bool_decide (status vc = UNVERIFIED) then texts ++ [claim vc]
                   else texts)).
    destruct (verify_claims _ _ _ _ _ _ _ _) as [[verified' texts'] | e]; [| exact IH].
    destruct IH as (new & -> & -> & Hall & Hnone).
    exists (vc :: new). split; [now rewrite <- app_assoc |]. split.
    + unfold unverified_of. cbn [List.filter].
      destruct (bool_decide (status vc = UNVERIFIED)); cbn [map];
        [now rewrite <- app_assoc | reflexivity].
    + split.
      * constructor; [| exact Hall]. exists d. split; [reflexivity |]. now rewrite Hvc.
      * intros Hsearch. constructor; [| now apply Hnone].
        apply verify_single_claim_without_results. apply Hsearch.
Qed.

(** X30. What [verify_task] returns or raises. It returns one verdict
    for each item of the extracted claims up to [max_claims], in
    order, each on the text of its item, and the texts it reports as
    unverified are exactly the claims of the UNVERIFIED verdicts, in
    order; when every search fails or finds nothing, these are all the
    claims. A failing search or judgement never makes it raise: what
    it raises comes from the extraction (an exception of the model
    call other than the two it catches, or an answer that is JSON but
    not an object) or from the shape of the extracted claims. *)
Theorem X30_verify_task_outcomes (json_loads : string -> option json)
    (dict_slice_error : exn) (text_of : json -> string)
    (extracted : result string) (searched : nat -> result (list SearchResult))
    (judged : nat -> result string) (max_claims : Z) :
  match verify_task json_loads dict_slice_error text_of extracted searched judged
          max_claims with
  | Ok (verified, unverified_texts) =>
      unverified_texts = unverified_of verified /\
      (0 <= max_claims -> Z.of_nat (length verified) <= max_claims) /\
      (exists claims items,
         _extract_claims json_loads extracted = Ok claims /\
         sliced dict_slice_error claims max_claims = Ok items /\
         Forall2 claim_of items verified) /\
      ((forall k, searched k = Ok [] \/ exists e, searched k = Raise e) ->
       unverified_texts = map claim verified)
  | Raise e =>
      (extracted = Raise e /\ extract_catches e = false) \/
      e = AttributeError \/ e = dict_slice_error \/
      e = TypeError \/ e = KeyError \/ e = ValidationError
  end.
Proof.
  unfold verify_task.
  destruct (_extract_claims json_loads extracted) as [claims | e] eqn:Hextract;
    cbn [mbind result_bind].
  - destruct (sliced dict_slice_error claims max_claims) as [items | e] eqn:Hslice;
      cbn [mbind result_bind].
    + pose proof (sliced_length _ _ _ _ Hslice) as Hlen.
      destruct items as [| item rest] eqn:Hitems.
      { split; [reflexivity |]. split; [cbn; lia |].
        split; [exists claims, []; repeat split; [exact Hslice | constructor] |].
        reflexivity. }
      rewrite <- Hitems in *. clear Hitems item rest.
      pose proof (verify_claims_spec json_loads text_of searched judged 0 items [] [])
        as Hspec.
      destruct (verify_claims _ _ _ _ _ _ _ _) as [[verified texts] | e].
      * destruct Hspec as (new & -> & -> & Hall & Hnone). cbn [app].
        split; [reflexivity |].
        split; [intros Hmax; rewrite <- (Forall2_length _ _ _ Hall); now apply Hlen |].
        split; [exists claims, items; now repeat split |].
        intros Hsearch. specialize (Hnone Hsearch). unfold unverified_of.
        clear -Hnone. induction Hnone as [| vc new Hvc _ IH]; cbn; [reflexivity |].
        rewrite bool_decide_eq_true_2 by exact Hvc. cbn. now rewrite IH.
      * destruct Hspec as [-> | [-> | ->]]; auto 10.
    + destruct claims; cbn in Hslice; try discriminate;
        injection Hslice as <-; auto 10.
  - unfold _extract_claims, try_except in Hextract.
    destruct extracted as [text | e0]; cbn [mbind result_bind] in Hextract.
    + destruct (json_loads (PyStr.extract_json text)) as [data |];
        cbn [of_option mbind result_bind extract_catches] in Hextract; [| discriminate].
      destruct data; cbn in Hextract; try discriminate;
        injection Hextract as <-; auto.
    + destruct (extract_catches e0) eqn:Hc; [discriminate |].
      injection Hextract as <-. left. now split.
Qed.

End FactCheckTaskProps.
